(** * ssc: serial shutter control -- a shallow embedding of [ssc.c]

    The program drives a camera shutter through the RTS line of a serial
    port.  This file embeds the part of [ssc.c] that runs once the serial
    device is open and the SIGINT handler is installed (line 231 onwards):
    [set_rts], [shutter_fire], [shutter_release], [sleep_quiet],
    [sleep_verbose], [expose], [log_exposure], [phd_connect], [phd_dither],
    [phd_disconnect], [exit_cleanup] and the loop of [main].

    The C globals live in a [world]; the code is written in a small monad
    over it whose outcomes tell a normal return from [exit(3)], from a
    delivered SIGINT, from undefined behaviour and from a loop that is
    still running when the fuel of the model is used up. *)

From Stdlib Require Import ZArith List Bool Lia String Ascii.
Import ListNotations.
Open Scope Z_scope.

(** ** C integers *)

Definition UINT_MAX : Z := 4294967295.
Definition INT_MAX : Z := 2147483647.

(** Conversion to (and arithmetic in) [unsigned int]: reduction modulo 2^32. *)
Definition to_uint (z : Z) : Z := z mod 4294967296.

(** ** Constants of the source *)

Definition ANIMATION_STEP : Z := 500.
Definition ANIMATION_LEN : Z := 8.

Definition animation : list ascii :=
  ["|"; "/"; "-"; "\"; "|"; "/"; "-"; "\"]%char.

(** [static unsigned char phd_cmds[5] = { 3, 4, 5, 12, 13 };] *)
Definition phd_cmds : list Z := [3; 4; 5; 12; 13].

(** [TIOCM_RTS] comes from the system headers; on Linux it is [0x004]. *)
Definition TIOCM_RTS : Z := 4.

(** ** Data *)

Record timeval := { tv_sec : Z; tv_usec : Z }.
Record timespec := { ts_sec : Z; ts_nsec : Z }.

(** The option globals, as [main] leaves them after parsing. *)
Record config := {
  exp_count : Z;           (* unsigned int *)
  exp_time : Z;            (* unsigned int, milliseconds *)
  exp_pause : Z;           (* unsigned int, milliseconds *)
  phd_dither_size : Z;     (* unsigned int, 0 = disabled *)
  mlu_method : Z;          (* unsigned int *)
  mlu_delay : Z;           (* int, milliseconds *)
  shut_min_pulse : Z;      (* int, milliseconds *)
  quiet : bool;
  log_target : option string
}.

(** Contents of the [verbose] buffer. *)
Inductive vbuf :=
| VEmpty
| VExposure (i n : Z).     (* "Exposure %u/%u" *)

(** The globals the code writes while it runs. *)
Record globals := {
  exposing : bool;
  exp_start : timeval;
  exp_end : timeval;
  animation_step : Z;
  phd_fd : Z;
  verbose : vbuf
}.

(** What the operating system holds for the process. *)
Record device := {
  cbits : Z;               (* modem-control bits of the serial line *)
  clock : Z;               (* wall clock, nanoseconds *)
  fd_open : bool;          (* the serial descriptor [fd] *)
  sock_open : bool         (* the guider socket *)
}.

(** What the outside world decides.  [sigint = Some (n, e)]: SIGINT arrives
    once [n] more statements have run; if the statement then due is a
    [nanosleep], it arrives [e] nanoseconds into it.  [eintr]: for the
    successive [nanosleep] calls, after how many nanoseconds a spurious
    wake-up ends the call with [EINTR] (a value outside the requested time
    lets the call complete).  [io_rets]: the values returned by the
    successive [write]/[read] calls on the socket (1 when the list is used
    up). *)
Record oracle := {
  sigint : option (nat * Z);
  eintr : list Z;
  socket_ok : bool;
  resolve_ok : bool;
  connect_ok : bool;
  io_rets : list Z;
  fopen_ok : bool
}.

Inductive descriptor := FdSerial | FdSocket.

Inductive message :=
| MsgDithering                              (* "Dithering...\r" *)
| MsgProgress (v : vbuf) (pct : Z) (glyph : ascii)
| MsgDone (v : vbuf)                        (* "%s ... done   \n" *)
| MsgUnknownMLU (m : Z)                     (* "unknown MLU method %d\n" *)
| MsgPerror (what : string).

Inductive line := Released | Engaged.

(** Call sites of the loop body of [main].  A call leaves a ghost marker in
    the trace that records the state of the line at the call. *)
Inductive callee := CallDither | CallPause | CallExpose | CallLog.

Inductive event :=
| EvTIOCMSET (bits : Z)
| EvNanosleep (ns : Z)
| EvStart (tv : timeval)
| EvEnd (tv : timeval)
| EvPrintf (m : message)
| EvLog (label : string) (hh mm ss : Z) (secs : Z) (t0 t1 : timeval)
| EvSocket
| EvConnect
| EvWrite (b : Z)
| EvRead
| EvClose (d : descriptor)
| EvCall (c : callee) (l : line).

(** The trace holds the events with the clock at which they happened,
    newest first. *)
Record world := {
  cfg : config;
  g : globals;
  dev : device;
  env : oracle;
  trace : list (Z * event)
}.

Definition line_of_bits (bits : Z) : line :=
  if Z.land bits TIOCM_RTS =? 0 then Released else Engaged.

Definition line_state (w : world) : line := line_of_bits (cbits (dev w)).

(** ** The monad *)

Inductive outcome (A : Type) :=
| Ret (a : A) (w : world)        (* the call returned *)
| Exit (status : Z) (w : world)  (* [exit(status)] *)
| Sigint (w : world)             (* SIGINT delivered, handler due *)
| Fault (w : world)              (* undefined behaviour *)
| Running (w : world).           (* out of fuel, still running *)

Arguments Ret {A} a w.
Arguments Exit {A} status w.
Arguments Sigint {A} w.
Arguments Fault {A} w.
Arguments Running {A} w.

Definition M (A : Type) : Type := world -> outcome A.

Definition ret {A} (a : A) : M A := fun w => Ret a w.

Definition bind {A B} (m : M A) (k : A -> M B) : M B := fun w =>
  match m w with
  | Ret a w' => k a w'
  | Exit s w' => Exit s w'
  | Sigint w' => Sigint w'
  | Fault w' => Fault w'
  | Running w' => Running w'
  end.

Declare Scope ssc_scope.
Delimit Scope ssc_scope with ssc.
Notation "x <- m ;; k" := (bind m (fun x => k))
  (at level 100, m at next level, right associativity) : ssc_scope.
Notation "m ;; k" := (bind m (fun _ => k))
  (at level 100, right associativity) : ssc_scope.
Open Scope ssc_scope.

(** ** Updating the world *)

Definition set_g (f : globals -> globals) (w : world) : world :=
  {| cfg := cfg w; g := f (g w); dev := dev w; env := env w; trace := trace w |}.

Definition set_dev (f : device -> device) (w : world) : world :=
  {| cfg := cfg w; g := g w; dev := f (dev w); env := env w; trace := trace w |}.

Definition set_env (f : oracle -> oracle) (w : world) : world :=
  {| cfg := cfg w; g := g w; dev := dev w; env := f (env w); trace := trace w |}.

Definition emit (e : event) (w : world) : world :=
  {| cfg := cfg w; g := g w; dev := dev w; env := env w;
     trace := (clock (dev w), e) :: trace w |}.

Definition with_exposing (b : bool) (x : globals) : globals :=
  {| exposing := b; exp_start := exp_start x; exp_end := exp_end x;
     animation_step := animation_step x; phd_fd := phd_fd x; verbose := verbose x |}.

Definition with_exp_start (t : timeval) (x : globals) : globals :=
  {| exposing := exposing x; exp_start := t; exp_end := exp_end x;
     animation_step := animation_step x; phd_fd := phd_fd x; verbose := verbose x |}.

Definition with_exp_end (t : timeval) (x : globals) : globals :=
  {| exposing := exposing x; exp_start := exp_start x; exp_end := t;
     animation_step := animation_step x; phd_fd := phd_fd x; verbose := verbose x |}.

Definition with_animation_step (n : Z) (x : globals) : globals :=
  {| exposing := exposing x; exp_start := exp_start x; exp_end := exp_end x;
     animation_step := n; phd_fd := phd_fd x; verbose := verbose x |}.

Definition with_phd_fd (n : Z) (x : globals) : globals :=
  {| exposing := exposing x; exp_start := exp_start x; exp_end := exp_end x;
     animation_step := animation_step x; phd_fd := n; verbose := verbose x |}.

Definition with_verbose (v : vbuf) (x : globals) : globals :=
  {| exposing := exposing x; exp_start := exp_start x; exp_end := exp_end x;
     animation_step := animation_step x; phd_fd := phd_fd x; verbose := v |}.

Definition with_cbits (b : Z) (d : device) : device :=
  {| cbits := b; clock := clock d; fd_open := fd_open d; sock_open := sock_open d |}.

Definition with_clock (c : Z) (d : device) : device :=
  {| cbits := cbits d; clock := c; fd_open := fd_open d; sock_open := sock_open d |}.

Definition with_fd_open (b : bool) (d : device) : device :=
  {| cbits := cbits d; clock := clock d; fd_open := b; sock_open := sock_open d |}.

Definition with_sock_open (b : bool) (d : device) : device :=
  {| cbits := cbits d; clock := clock d; fd_open := fd_open d; sock_open := b |}.

Definition with_sigint (s : option (nat * Z)) (o : oracle) : oracle :=
  {| sigint := s; eintr := eintr o; socket_ok := socket_ok o;
     resolve_ok := resolve_ok o; connect_ok := connect_ok o;
     io_rets := io_rets o; fopen_ok := fopen_ok o |}.

Definition with_eintr (l : list Z) (o : oracle) : oracle :=
  {| sigint := sigint o; eintr := l; socket_ok := socket_ok o;
     resolve_ok := resolve_ok o; connect_ok := connect_ok o;
     io_rets := io_rets o; fopen_ok := fopen_ok o |}.

Definition with_io_rets (l : list Z) (o : oracle) : oracle :=
  {| sigint := sigint o; eintr := eintr o; socket_ok := socket_ok o;
     resolve_ok := resolve_ok o; connect_ok := connect_ok o;
     io_rets := l; fopen_ok := fopen_ok o |}.

(** ** Statements and signal delivery

    Every statement that touches the world starts with [tick], the point at
    which a pending SIGINT is delivered.  The handler itself runs with the
    signal consumed, so its own ticks do nothing. *)

Definition tick : M unit := fun w =>
  match sigint (env w) with
  | Some (O, _) => Sigint (set_env (with_sigint None) w)
  | Some (S n, e) => Ret tt (set_env (with_sigint (Some (n, e))) w)
  | None => Ret tt w
  end.

Definition stmt (f : world -> world) : M unit :=
  tick ;; fun w => Ret tt (f w).

Definition read_cfg {A} (f : config -> A) : M A := fun w => Ret (f (cfg w)) w.
Definition read_g {A} (f : globals -> A) : M A := fun w => Ret (f (g w)) w.

(** [exit(3)]: the process ends and the system closes its descriptors. *)
Definition exit {A} (status : Z) : M A :=
  tick ;; fun w =>
    Exit status (set_dev (fun d => with_sock_open false (with_fd_open false d)) w).

Definition printf (m : message) : M unit := stmt (emit (EvPrintf m)).

(** [#define FATAL(msg) do { perror(msg); exit(1); } while (0)] *)
Definition FATAL {A} (msg : string) : M A :=
  printf (MsgPerror msg) ;; exit 1.

(** ** ShutterLine: [set_rts], [shutter_fire], [shutter_release] *)

Definition ioctl_TIOCMGET : M Z :=
  tick ;; fun w => Ret (cbits (dev w)) w.

Definition ioctl_TIOCMSET (bits : Z) : M unit :=
  stmt (fun w => emit (EvTIOCMSET bits) (set_dev (with_cbits bits) w)).

(** The new mask that [set_rts] computes from the one it read. *)
Definition rts_mask (on : Z) (bits : Z) : Z :=
  if on =? 0 then Z.land bits (Z.lnot TIOCM_RTS) else Z.lor bits TIOCM_RTS.

Definition set_rts (on : Z) : M unit :=
  bits <- ioctl_TIOCMGET ;;
  ioctl_TIOCMSET (rts_mask on bits).

Definition shutter_fire : M unit := set_rts 1.
Definition shutter_release : M unit := set_rts 0.

(** ** Time *)

Definition ts_ns (t : timespec) : Z := ts_sec t * 1000000000 + ts_nsec t.

Definition ts_of_ns (n : Z) : timespec :=
  {| ts_sec := n / 1000000000; ts_nsec := n mod 1000000000 |}.

Definition now (w : world) : timeval :=
  {| tv_sec := clock (dev w) / 1000000000;
     tv_usec := clock (dev w) mod 1000000000 / 1000 |}.

Definition tv_us (t : timeval) : Z := tv_sec t * 1000000 + tv_usec t.

Definition gettimeofday_exp_start : M unit :=
  stmt (fun w => emit (EvStart (now w)) (set_g (with_exp_start (now w)) w)).

Definition gettimeofday_exp_end : M unit :=
  stmt (fun w => emit (EvEnd (now w)) (set_g (with_exp_end (now w)) w)).

Definition set_exposing (b : bool) : M unit := stmt (set_g (with_exposing b)).

(** The process sleeps [ns] nanoseconds. *)
Definition slept (ns : Z) (w : world) : world :=
  set_dev (with_clock (clock (dev w) + ns)) (emit (EvNanosleep ns) w).

(** [nanosleep(&t, &rem)]: [None] when it returns 0, [Some rem] when it
    returns -1 with [errno == EINTR]. *)
Definition nanosleep (t : timespec) : M (option timespec) := fun w =>
  match sigint (env w) with
  | Some (O, e) =>
      Sigint (slept (Z.max 0 (Z.min e (ts_ns t))) (set_env (with_sigint None) w))
  | s =>
      let w1 := match s with
                | Some (S n, e) => set_env (with_sigint (Some (n, e))) w
                | _ => w
                end in
      match eintr (env w1) with
      | e :: rest =>
          let w2 := set_env (with_eintr rest) w1 in
          if (0 <=? e) && (e <? ts_ns t)
          then Ret (Some (ts_of_ns (ts_ns t - e))) (slept e w2)
          else Ret None (slept (ts_ns t) w2)
      | [] => Ret None (slept (ts_ns t) w1)
      end
  end.

(** The [again:] loop of [sleep_quiet]; each turn uses up one entry of the
    [eintr] oracle, so its length bounds the number of turns. *)
Fixpoint sleep_again (n : nat) (t : timespec) : M unit :=
  r <- nanosleep t ;;
  match r with
  | None => ret tt
  | Some rem =>
      match n with
      | O => fun w => Running w
      | S n' => sleep_again n' rem
      end
  end.

Definition sleep_quiet (msec : Z) : M unit := fun w =>
  let t := {| ts_sec := msec / 1000;
              ts_nsec := to_uint (to_uint (msec - to_uint (msec / 1000 * 1000))
                                  * 1000000) |} in
  sleep_again (List.length (eintr (env w))) t w.

(** The [while] loop of [sleep_verbose]; returns [sofar] at its end. *)
Fixpoint sleep_verbose_loop (fuel : nat) (msec sofar : Z) : M Z :=
  if to_uint (sofar + ANIMATION_STEP) <=? msec then
    match fuel with
    | O => fun w => Running w
    | S fuel' =>
        stmt (fun w =>
          let a := animation_step (g w) in
          emit (EvPrintf (MsgProgress (verbose (g w))
                            (to_uint (100 * sofar) / msec)
                            (nth (Z.to_nat a) animation " "%char)))
            (set_g (with_animation_step (a + 1)) w)) ;;
        stmt (fun w =>
          set_g (with_animation_step (Z.rem (animation_step (g w)) ANIMATION_LEN)) w) ;;
        sleep_quiet ANIMATION_STEP ;;
        sleep_verbose_loop fuel' msec (to_uint (sofar + ANIMATION_STEP))
    end
  else ret sofar.

Definition sleep_verbose (fuel : nat) (msec : Z) : M unit :=
  q <- read_cfg quiet ;;
  if q then sleep_quiet msec
  else
    sofar <- sleep_verbose_loop fuel msec 0 ;;
    sleep_quiet (to_uint (msec - sofar)) ;;
    v <- read_g verbose ;;
    printf (MsgDone v).

(** ** Logging collaborator: [log_exposure]

    The name of the log file (the calendar date of [exp_start]) is left
    out; the event carries the line that is appended. *)

Definition timersub (a b : timeval) : timeval :=
  let s := tv_sec a - tv_sec b in
  let u := tv_usec a - tv_usec b in
  if u <? 0 then {| tv_sec := s - 1; tv_usec := u + 1000000 |}
  else {| tv_sec := s; tv_usec := u |}.

Definition log_line (label : string) (t0 t1 : timeval) : event :=
  let delta := timersub t1 t0 in
  let day := tv_sec t0 mod 86400 in
  EvLog label (day / 3600) (day mod 3600 / 60) (day mod 60)
    (tv_sec delta + (tv_usec delta + 500000) / 1000000) t0 t1.

Definition log_exposure : M unit :=
  stmt (fun w =>
    match log_target (cfg w) with
    | None => w
    | Some label =>
        if fopen_ok (env w)
        then emit (log_line label (exp_start (g w)) (exp_end (g w))) w
        else w
    end).

(** ** ExposureEngine: [expose] *)

Definition expose (fuel : nat) (msec : Z) : M unit :=
  m <- read_cfg mlu_method ;;
  if m =? 1 then
    shutter_fire ;;
    d <- read_cfg mlu_delay ;;
    sleep_quiet (to_uint d) ;;
    gettimeofday_exp_start ;;
    set_exposing true ;;
    t <- read_cfg exp_time ;;
    sleep_verbose fuel t ;;
    set_exposing false ;;
    gettimeofday_exp_end ;;
    shutter_release
  else if m =? 2 then
    shutter_fire ;;
    p <- read_cfg shut_min_pulse ;;
    sleep_quiet (to_uint p) ;;
    shutter_release ;;
    d <- read_cfg mlu_delay ;;
    sleep_quiet (to_uint d) ;;
    shutter_fire ;;
    gettimeofday_exp_start ;;
    set_exposing true ;;
    t <- read_cfg exp_time ;;
    sleep_verbose fuel t ;;
    set_exposing false ;;
    gettimeofday_exp_end ;;
    shutter_release
  else
    printf (MsgUnknownMLU m).

(** ** GuiderLink: [phd_connect], [phd_disconnect], [phd_dither] *)

Definition close (d : descriptor) : M unit :=
  stmt (fun w =>
    emit (EvClose d)
      (set_dev (match d with
                | FdSerial => with_fd_open false
                | FdSocket => with_sock_open false
                end) w)).

(** The descriptor [socket(2)] hands out: the serial port holds 3. *)
Definition SOCK_FD : Z := 4.

(** [socket(2)]: the new descriptor, or -1. *)
Definition socket_call : M Z :=
  tick ;; fun w =>
    if socket_ok (env w)
    then Ret SOCK_FD (emit EvSocket (set_dev (with_sock_open true) w))
    else Ret (-1) w.

(** [gethostbyname(3)]: whether it found the host. *)
Definition gethostbyname : M bool :=
  tick ;; fun w => Ret (resolve_ok (env w)) w.

(** [connect(2)]: 0, or -1. *)
Definition connect_call : M Z :=
  tick ;; fun w =>
    if connect_ok (env w) then Ret 0 (emit EvConnect w) else Ret (-1) w.

Definition phd_connect : M unit :=
  size <- read_cfg phd_dither_size ;;
  if size =? 0 then ret tt
  else
    fd <- socket_call ;;
    (fun w => Ret tt (set_g (with_phd_fd fd) w)) ;;
    if fd =? -1 then FATAL "socket"%string
    else
      he <- gethostbyname ;;
      if negb he then FATAL "gethostbyname"%string
      else
        r <- connect_call ;;
        if r =? -1 then FATAL "connect"%string else ret tt.

Definition phd_disconnect : M unit :=
  fd <- read_g phd_fd ;;
  if fd =? -1 then ret tt else close FdSocket.

(** The value the next [write]/[read] returns. *)
Definition syscall_ret : M Z := fun w =>
  match io_rets (env w) with
  | r :: rest => Ret r (set_env (with_io_rets rest) w)
  | [] => Ret 1 w
  end.

(** [&phd_cmds[phd_dither_size]]: reading outside the array is undefined. *)
Definition load_phd_cmd (idx : Z) : M Z := fun w =>
  match nth_error phd_cmds (Z.to_nat idx) with
  | Some b => Ret b w
  | None => Fault w
  end.

(** [write(phd_fd, &b, 1)] and [read(phd_fd, &c, 1)]: the value returned. *)
Definition write_byte (b : Z) : M Z :=
  tick ;;
  r <- syscall_ret ;;
  (fun w => Ret r (if r =? 1 then emit (EvWrite b) w else w)).

Definition read_byte : M Z :=
  tick ;;
  r <- syscall_ret ;;
  (fun w => Ret r (if r =? 1 then emit EvRead w else w)).

Definition phd_dither : M unit :=
  size <- read_cfg phd_dither_size ;;
  b <- load_phd_cmd size ;;
  r <- write_byte b ;;
  if negb (r =? 1) then FATAL "write"%string
  else
    r <- read_byte ;;
    if negb (r =? 1) then FATAL "read"%string else ret tt.

(** ** Signal handler: [exit_cleanup] *)

Definition exit_cleanup {A} (dummy : Z) : M A :=
  shutter_release ;;
  e <- read_g exposing ;;
  (if e then
     set_exposing false ;;
     gettimeofday_exp_end ;;
     log_exposure
   else ret tt) ;;
  close FdSerial ;;
  exit 0.

Definition SIGINT : Z := 2.

(** Running a piece of the program with the handler installed. *)
Definition run {A} (m : M A) : M A := fun w =>
  match m w with
  | Sigint w' => exit_cleanup SIGINT w'
  | o => o
  end.

(** ** ExposureSequencer: the loop of [main] *)

Definition call {A} (c : callee) (m : M A) : M A :=
  (fun w => Ret tt (emit (EvCall c (line_state w)) w)) ;; m.

Definition frame (fuel : nat) (i : Z) : M unit :=
  size <- read_cfg phd_dither_size ;;
  (if negb (i =? 1) && negb (size =? 0) then
     printf MsgDithering ;;
     call CallDither phd_dither
   else ret tt) ;;
  n <- read_cfg exp_count ;;
  stmt (set_g (with_verbose (VExposure i n))) ;;
  (if negb (i =? 1) then
     p <- read_cfg exp_pause ;;
     call CallPause (sleep_quiet p)
   else ret tt) ;;
  t <- read_cfg exp_time ;;
  call CallExpose (expose fuel t) ;;
  call CallLog log_exposure.

(** The [for] loop from the value [i] of its counter on.  [turns] bounds
    the number of turns the model follows; [fuel] is handed to every
    [expose] for its timed wait. *)
Fixpoint main_loop (fuel turns : nat) (i : Z) : M unit :=
  n <- read_cfg exp_count ;;
  if i <=? n then
    match turns with
    | O => fun w => Running w
    | S turns' =>
        frame fuel i ;;
        main_loop fuel turns' (to_uint (i + 1))
    end
  else ret tt.

(** [main] from line 233 on: the device is open, the handler installed. *)
Definition main (fuel : nat) : M Z :=
  shutter_release ;;
  phd_connect ;;
  main_loop fuel fuel 1 ;;
  phd_disconnect ;;
  ret 0.

(** The process: [main] under the handler, its return value the exit status. *)
Definition ssc (fuel : nat) : M Z :=
  run (status <- main fuel ;; exit status).

(** ** Initial worlds *)

Definition zero_tv : timeval := {| tv_sec := 0; tv_usec := 0 |}.

(** The globals as their initialisers set them. *)
Definition init_globals : globals :=
  {| exposing := false; exp_start := zero_tv; exp_end := zero_tv;
     animation_step := 0; phd_fd := -1; verbose := VEmpty |}.

(** The world in which line 233 starts: options [c], modem bits [bits] as
    the open left them, clock [t0]. *)
Definition boot (c : config) (o : oracle) (bits t0 : Z) : world :=
  {| cfg := c; g := init_globals;
     dev := {| cbits := bits; clock := t0; fd_open := true; sock_open := false |};
     env := o; trace := [] |}.

(** Nothing goes wrong outside: no signal, no spurious wake-up, every
    system call succeeds. *)
Definition calm_oracle : oracle :=
  {| sigint := None; eintr := []; socket_ok := true; resolve_ok := true;
     connect_ok := true; io_rets := []; fopen_ok := true |}.

(** The defaults of the source. *)
Definition default_config : config :=
  {| exp_count := 1; exp_time := 1000; exp_pause := 5000;
     phd_dither_size := 0; mlu_method := 2; mlu_delay := 2000;
     shut_min_pulse := 200; quiet := false; log_target := None |}.

(** The events of a trace, oldest first. *)
Definition history (w : world) : list (Z * event) := rev (trace w).

Definition outcome_world {A} (o : outcome A) : world :=
  match o with
  | Ret _ w | Exit _ w | Sigint w | Fault w | Running w => w
  end.

(** The byte that [phd_dither] writes for dither amount [level] when the
    guider answers, if it writes one. *)
Definition with_dither (level : Z) (c : config) : config :=
  {| exp_count := exp_count c; exp_time := exp_time c; exp_pause := exp_pause c;
     phd_dither_size := level; mlu_method := mlu_method c;
     mlu_delay := mlu_delay c; shut_min_pulse := shut_min_pulse c;
     quiet := quiet c; log_target := log_target c |}.

Definition written_bytes (h : list (Z * event)) : list Z :=
  flat_map (fun te => match snd te with EvWrite b => [b] | _ => [] end) h.

Definition reads (h : list (Z * event)) : nat :=
  List.length (filter (fun te => match snd te with EvRead => true | _ => false end) h).

Definition dither_sends (level : Z) : outcome unit :=
  phd_dither (boot (with_dither level default_config) calm_oracle 0 0).

(** Option [-d] of [main]: [if (phd_dither_size > 5) { usage(); exit(0); }];
    [true] when the amount is accepted. *)
Definition dither_accepted (amount : Z) : bool := negb (to_uint amount >? 5).

(** What one call of [phd_dither] exchanged with the guider: the bytes
    written and the number of bytes read back. *)
Definition exchange (o : outcome unit) : option (list Z * nat) :=
  match o with
  | Ret _ w => Some (written_bytes (history w), reads (history w))
  | _ => None
  end.


(** ** Specifications

    [post Q E S R o]: the outcome [o] satisfies [Q] if the call returned,
    [E] if the process ended in it ([exit] or a fault), [S] if a SIGINT was
    delivered (the handler then starts with no further signal pending), and
    [R] if the model ran out of fuel. *)

Definition post {A} (Q : A -> world -> Prop) (E S R : world -> Prop)
    (o : outcome A) : Prop :=
  match o with
  | Ret a w => Q a w
  | Exit _ w | Fault w => E w
  | Sigint w => S w /\ sigint (env w) = None
  | Running w => R w
  end.

(** [inv J o]: [J] holds in the world in which [o] ends. *)
Definition inv {A} (J : world -> Prop) (o : outcome A) : Prop :=
  post (fun _ => J) J J J o.

(** Events that neither move the line nor mark a call. *)
Definition passive (e : event) : Prop :=
  match e with
  | EvTIOCMSET _ | EvCall _ _ => False
  | _ => True
  end.

(** Events of a wait: sleeping and console feedback. *)
Definition silent (e : event) : Prop :=
  match e with
  | EvNanosleep _ | EvPrintf _ => True
  | _ => False
  end.

(** Predicates on worlds that a wait cannot change: they do not look at
    the oracle, the clock, the animation counter or the silent events. *)
Record wait_stable (J : world -> Prop) : Prop := {
  ws_env : forall w f, J w -> J (set_env f w);
  ws_clock : forall w c, J w -> J (set_dev (with_clock c) w);
  ws_anim : forall w n, J w -> J (set_g (with_animation_step n) w);
  ws_emit : forall w e, silent e -> J w -> J (emit e w)
}.

(** Predicates that only a change of the modem bits or a call marker can
    change. *)
Record ambient (J : world -> Prop) : Prop := {
  am_env : forall w f, J w -> J (set_env f w);
  am_g : forall w f, J w -> J (set_g f w);
  am_clock : forall w c, J w -> J (set_dev (with_clock c) w);
  am_fd : forall w b, J w -> J (set_dev (with_fd_open b) w);
  am_sock : forall w b, J w -> J (set_dev (with_sock_open b) w);
  am_emit : forall w e, passive e -> J w -> J (emit e w)
}.

(** Predicates that only a call marker can change. *)
Record steady (J : world -> Prop) : Prop := {
  sd_ambient : ambient J;
  sd_rts : forall w bits,
    J w -> J (emit (EvTIOCMSET bits) (set_dev (with_cbits bits) w))
}.

(** Every call marker of the trace saw the line released. *)
Definition marker_released (te : Z * event) : Prop :=
  match snd te with
  | EvCall _ l => l = Released
  | _ => True
  end.

Definition calls_released (w : world) : Prop := Forall marker_released (trace w).

Definition released (w : world) : Prop := line_state w = Released.

(** The state between two frames: every call so far saw the line released,
    and it is released now. *)
Definition tidy (w : world) : Prop := calls_released w /\ released w.

(** No SIGINT is pending. *)
Definition calm (w : world) : Prop := sigint (env w) = None.

(** ** Observations on a trace *)

(** What the camera and the log see of an exposure: the line and the two
    time stamps. *)
Inductive shutter_obs := Line (l : line) | Start | End.

Definition observe (te : Z * event) : list (Z * shutter_obs) :=
  match snd te with
  | EvTIOCMSET bits => [(fst te, Line (line_of_bits bits))]
  | EvStart _ => [(fst te, Start)]
  | EvEnd _ => [(fst te, End)]
  | _ => []
  end.

Definition shutter_view (h : list (Z * event)) : list (Z * shutter_obs) :=
  flat_map observe h.

(** The calls of the loop body, oldest first. *)
Definition calls (h : list (Z * event)) : list callee :=
  flat_map (fun te => match snd te with EvCall c _ => [c] | _ => [] end) h.

Definition log_lines (h : list (Z * event)) : list event :=
  flat_map (fun te => match snd te with
                      | EvLog _ _ _ _ _ _ _ => [snd te]
                      | _ => []
                      end) h.

(** [waited ns w w']: [w'] is [w] after a wait of [ns] nanoseconds: the
    clock moved on by [ns], entries of the [eintr] oracle were used up, the
    animation counter may have moved and silent events were added; nothing
    else changed. *)
Record waited (ns : Z) (w w' : world) : Prop := {
  wt_cfg : cfg w' = cfg w;
  wt_g : with_animation_step 0 (g w') = with_animation_step 0 (g w);
  wt_dev : dev w' = with_clock (clock (dev w) + ns) (dev w);
  wt_env : with_eintr [] (env w') = with_eintr [] (env w);
  wt_trace : exists tr, trace w' = tr ++ trace w /\ Forall (fun te => silent (snd te)) tr
}.

Definition ms (msec : Z) : Z := msec * 1000000.

(** The defaults with the console feedback on or off. *)
Definition with_quiet (q : bool) (c : config) : config :=
  {| exp_count := exp_count c; exp_time := exp_time c; exp_pause := exp_pause c;
     phd_dither_size := phd_dither_size c; mlu_method := mlu_method c;
     mlu_delay := mlu_delay c; shut_min_pulse := shut_min_pulse c;
     quiet := q; log_target := log_target c |}.

Definition world0 : world := boot default_config calm_oracle 0 0.

Definition with_mlu_method (m : Z) (c : config) : config :=
  {| exp_count := exp_count c; exp_time := exp_time c; exp_pause := exp_pause c;
     phd_dither_size := phd_dither_size c; mlu_method := m;
     mlu_delay := mlu_delay c; shut_min_pulse := shut_min_pulse c;
     quiet := quiet c; log_target := log_target c |}.

Definition with_log_target (l : option string) (c : config) : config :=
  {| exp_count := exp_count c; exp_time := exp_time c; exp_pause := exp_pause c;
     phd_dither_size := phd_dither_size c; mlu_method := mlu_method c;
     mlu_delay := mlu_delay c; shut_min_pulse := shut_min_pulse c;
     quiet := quiet c; log_target := l |}.

Definition with_exp_count (n : Z) (c : config) : config :=
  {| exp_count := n; exp_time := exp_time c; exp_pause := exp_pause c;
     phd_dither_size := phd_dither_size c; mlu_method := mlu_method c;
     mlu_delay := mlu_delay c; shut_min_pulse := shut_min_pulse c;
     quiet := quiet c; log_target := log_target c |}.

(** The defaults with the one-pulse method. *)
Definition world1 : world := boot (with_mlu_method 1 default_config) calm_oracle 0 0.

(** ** The schedule of the sequencer *)

(** The calls of frame [i], with dither enabled or not. *)
Definition frame_calls (dither : bool) (i : Z) : list callee :=
  (if negb (i =? 1) && dither then [CallDither] else [])
  ++ (if negb (i =? 1) then [CallPause] else [])
  ++ [CallExpose; CallLog].

(** The calls of [k] frames from frame [i] on. *)
Fixpoint schedule (dither : bool) (i : Z) (k : nat) : list callee :=
  match k with
  | O => []
  | S k' => frame_calls dither i ++ schedule dither (to_uint (i + 1)) k'
  end.

Definition callee_eqb (a b : callee) : bool :=
  match a, b with
  | CallDither, CallDither | CallPause, CallPause
  | CallExpose, CallExpose | CallLog, CallLog => true
  | _, _ => false
  end.

Definition count_calls (c : callee) (l : list callee) : nat :=
  List.length (filter (callee_eqb c) l).

(** The outside world of [calm_oracle], up to spurious wake-ups. *)
Definition benign (w : world) : Prop := with_eintr [] (env w) = calm_oracle.

(** A configuration within the ranges of the data model and of the C types
    that hold it. *)
Record valid_config (c : config) : Prop := {
  vc_count : 1 <= exp_count c < UINT_MAX;
  vc_time : 0 <= exp_time c <= UINT_MAX - ANIMATION_STEP;
  vc_pause : 0 <= exp_pause c <= UINT_MAX;
  vc_delay : 0 <= mlu_delay c <= INT_MAX;
  vc_pulse : 0 <= shut_min_pulse c <= INT_MAX
}.

(** The calls so far are [l] and the options are [c]. *)
Definition called (l : list callee) (c : config) (w : world) : Prop :=
  calls (history w) = l /\ cfg w = c.

Definition dither_enabled (c : config) : bool := negb (phd_dither_size c =? 0).

Definition dither_frame : list callee :=
  [CallDither; CallPause; CallExpose; CallLog].

(** No requirement on a world. *)
Definition anything (w : world) : Prop := True.

(** Three frames with dither amount 3. *)
Definition world3 : world :=
  boot (with_dither 3 (with_exp_count 3 default_config)) calm_oracle 0 0.

(** Option [-c -1]: [exp_count = atoi("-1")] is [UINT_MAX]. *)
Definition world_max : world :=
  boot (with_dither 3 (with_exp_count (to_uint (-1)) default_config))
    calm_oracle 0 0.

(** A labelled run with an MLU method that does not exist. *)
Definition world_bad : world :=
  boot (with_log_target (Some "M31"%string)
          (with_mlu_method 3 (with_exp_count 2 default_config)))
    calm_oracle 0 0.

(** A labelled, quiet one-pulse run in which SIGINT arrives after [n]
    statements. *)
Definition world_sigint (n : nat) : world :=
  boot (with_log_target (Some "M31"%string)
          (with_quiet true (with_mlu_method 1 default_config)))
    (with_sigint (Some (n, 0)) calm_oracle) 0 0.

(** The exposure is under way, started at [s]; or it is not, and [s] is the
    stamp of an earlier start. *)
Definition exposure_flag (b : bool) (s : timeval) (w : world) : Prop :=
  exposing (g w) = b /\ exp_start (g w) = s.

(** The world at the delivery of a SIGINT during a timed wait. *)
Definition world_exposing : world :=
  set_g (with_exposing true) (boot (with_log_target (Some "M31"%string) default_config)
                                calm_oracle 4 0).

(** * The rest of the program *)

(** ** More observations on a trace *)

(** What is written to the console, oldest first. *)
Definition console (h : list (Z * event)) : list message :=
  flat_map (fun te => match snd te with EvPrintf m => [m] | _ => [] end) h.

(** The traffic with the guider: socket, connection, bytes, close. *)
Definition guider_event (e : event) : bool :=
  match e with
  | EvSocket | EvConnect | EvWrite _ | EvRead | EvClose FdSocket => true
  | _ => false
  end.

Definition guider (h : list (Z * event)) : list event :=
  filter guider_event (map snd h).

(** The world [exit] leaves: every descriptor closed. *)
Definition closed (w : world) : world :=
  set_dev (fun d => with_sock_open false (with_fd_open false d)) w.

(** A time stamp as [gettimeofday] fills it: microseconds within a second. *)
Definition normal_tv (t : timeval) : Prop := 0 <= tv_usec t < 1000000.

(** ** Command line: the option loop of [main] (lines 174 to 226)

    [getopt] and [atoi] belong to the C library.  The loop is modelled on
    what [getopt] returns, the option letter and [optarg], in order; [atoi]
    is a parameter.  The products [atoi(optarg) * 1000] are computed in
    [int]: the model wraps them, where C leaves overflow undefined. *)

Definition INT_MIN : Z := -2147483648.

(** Conversion to [int]: reduction modulo 2^32 into the signed range. *)
Definition to_int (z : Z) : Z := (z + 2147483648) mod 4294967296 - 2147483648.

(** The globals that only the option loop and [usage] touch, with the
    options the core reads. *)
Record options := {
  o_cfg : config;
  serial_port : string;
  phd_host : string;
  phd_port : Z
}.

Definition default_options : options :=
  {| o_cfg := default_config; serial_port := "/dev/ttyS0";
     phd_host := "localhost"; phd_port := 4300 |}.

Definition with_exp_time (n : Z) (c : config) : config :=
  {| exp_count := exp_count c; exp_time := n; exp_pause := exp_pause c;
     phd_dither_size := phd_dither_size c; mlu_method := mlu_method c;
     mlu_delay := mlu_delay c; shut_min_pulse := shut_min_pulse c;
     quiet := quiet c; log_target := log_target c |}.

Definition with_exp_pause (n : Z) (c : config) : config :=
  {| exp_count := exp_count c; exp_time := exp_time c; exp_pause := n;
     phd_dither_size := phd_dither_size c; mlu_method := mlu_method c;
     mlu_delay := mlu_delay c; shut_min_pulse := shut_min_pulse c;
     quiet := quiet c; log_target := log_target c |}.

Definition with_mlu_delay (n : Z) (c : config) : config :=
  {| exp_count := exp_count c; exp_time := exp_time c; exp_pause := exp_pause c;
     phd_dither_size := phd_dither_size c; mlu_method := mlu_method c;
     mlu_delay := n; shut_min_pulse := shut_min_pulse c;
     quiet := quiet c; log_target := log_target c |}.

Definition with_shut_min_pulse (n : Z) (c : config) : config :=
  {| exp_count := exp_count c; exp_time := exp_time c; exp_pause := exp_pause c;
     phd_dither_size := phd_dither_size c; mlu_method := mlu_method c;
     mlu_delay := mlu_delay c; shut_min_pulse := n;
     quiet := quiet c; log_target := log_target c |}.

Definition with_cfg (f : config -> config) (o : options) : options :=
  {| o_cfg := f (o_cfg o); serial_port := serial_port o;
     phd_host := phd_host o; phd_port := phd_port o |}.

(** [strchr(s, ':')] and [*p++ = 0]: the text before the first colon, and
    the text after it if there is one. *)
Fixpoint split_colon (s : string) : string * option string :=
  match s with
  | EmptyString => (EmptyString, None)
  | String c rest =>
      if Ascii.eqb c ":" then (EmptyString, Some rest)
      else let (host, port) := split_colon rest in (String c host, port)
  end.

(** The third argument of [getopt]. *)
Definition optstring : string := "c:t:p:m:M:S:qhP:d:l:".

Fixpoint occurs (c : ascii) (s : string) : bool :=
  match s with
  | EmptyString => false
  | String d rest => Ascii.eqb c d || occurs c rest
  end.

(** The option letters [getopt] accepts with this [optstring]; for any
    other it returns ['?']. *)
Definition getopt_knows (c : ascii) : bool :=
  negb (Ascii.eqb c ":") && occurs c optstring.

(** The options whose argument [main] multiplies by 1000 (lines 183, 186
    and 192). *)
Definition in_seconds (c : ascii) : bool :=
  Ascii.eqb c "t" || Ascii.eqb c "p" || Ascii.eqb c "M".

Section CommandLine.
Variable atoi : string -> Z.

(** One turn of the [switch]; [None] stands for [usage(); exit(0)]. *)
Definition option_step (o : options) (c : ascii) (optarg : string)
    : option options :=
  if Ascii.eqb c "s" then
    Some {| o_cfg := o_cfg o; serial_port := optarg;
            phd_host := phd_host o; phd_port := phd_port o |}
  else if Ascii.eqb c "c" then
    Some (with_cfg (with_exp_count (to_uint (atoi optarg))) o)
  else if Ascii.eqb c "t" then
    Some (with_cfg (with_exp_time (to_uint (atoi optarg * 1000))) o)
  else if Ascii.eqb c "p" then
    Some (with_cfg (with_exp_pause (to_uint (atoi optarg * 1000))) o)
  else if Ascii.eqb c "m" then
    Some (with_cfg (with_mlu_method (to_uint (atoi optarg))) o)
  else if Ascii.eqb c "M" then
    Some (with_cfg (with_mlu_delay (to_int (atoi optarg * 1000))) o)
  else if Ascii.eqb c "S" then
    Some (with_cfg (with_shut_min_pulse (to_int (atoi optarg))) o)
  else if Ascii.eqb c "q" then
    Some (with_cfg (with_quiet true) o)
  else if Ascii.eqb c "d" then
    if to_uint (atoi optarg) >? 5 then None
    else Some (with_cfg (with_dither (to_uint (atoi optarg))) o)
  else if Ascii.eqb c "P" then
    match split_colon optarg with
    | (host, Some port) =>
        Some {| o_cfg := o_cfg o; serial_port := serial_port o;
                phd_host := host; phd_port := to_int (atoi port) |}
    | (host, None) =>
        Some {| o_cfg := o_cfg o; serial_port := serial_port o;
                phd_host := host; phd_port := phd_port o |}
    end
  else if Ascii.eqb c "l" then
    Some (with_cfg (with_log_target (Some optarg)) o)
  else None.

(** The [while] loop over what [getopt] returns. *)
Fixpoint option_loop (o : options) (l : list (ascii * string))
    : option options :=
  match l with
  | [] => Some o
  | (c, optarg) :: rest =>
      match option_step o c optarg with
      | Some o' => option_loop o' rest
      | None => None
      end
  end.

(** The loop and lines 225, 226: the first argument that is no option, if
    there is one, is the exposure time. *)
Definition parse_args (l : list (ascii * string)) (operand : option string)
    : option options :=
  match option_loop default_options l with
  | Some o =>
      Some (match operand with
            | Some a => with_cfg (with_exp_time (to_uint (atoi a * 1000))) o
            | None => o
            end)
  | None => None
  end.

(** No product [atoi(optarg) * 1000] that [main] forms leaves [int]: the
    arguments of [-t], [-p] and [-M], and the operand. *)
Definition no_overflow (l : list (ascii * string)) (operand : option string)
    : Prop :=
  Forall (fun co => in_seconds (fst co) = true ->
                    INT_MIN <= atoi (snd co) * 1000 <= INT_MAX) l /\
  match operand with
  | Some a => INT_MIN <= atoi a * 1000 <= INT_MAX
  | None => True
  end.
End CommandLine.

(** A decimal reading of [optarg] for the examples: an optional minus sign
    and digits. *)
Fixpoint digits (acc : Z) (s : string) : Z :=
  match s with
  | EmptyString => acc
  | String c rest =>
      let n := Z.of_nat (nat_of_ascii c) - 48 in
      if (0 <=? n) && (n <=? 9) then digits (acc * 10 + n) rest else acc
  end.

Definition decimal (s : string) : Z :=
  match s with
  | String "-" rest => - digits 0 rest
  | _ => digits 0 s
  end.

(** A guider that refuses the connection. *)
Definition deaf_guider : oracle :=
  {| sigint := None; eintr := []; socket_ok := true; resolve_ok := true;
     connect_ok := false; io_rets := []; fopen_ok := true |}.

(** A guider that takes the command byte and then closes: [write] returns 1,
    [read] returns 0. *)
Definition mute_guider : oracle :=
  {| sigint := None; eintr := []; socket_ok := true; resolve_ok := true;
     connect_ok := true; io_rets := [1; 0]; fopen_ok := true |}.

(** A progress report as the console should show it: the label of the
    frame, a percentage of two digits at most, a glyph of the animation. *)
Definition progress_report (v : vbuf) (m : message) : Prop :=
  exists pct glyph,
    m = MsgProgress v pct glyph /\ 0 <= pct <= 99 /\ In glyph animation.

(** One spurious wake-up, 0.3 s into the first [nanosleep]. *)
Definition restless : oracle :=
  {| sigint := None; eintr := [300000000]; socket_ok := true;
     resolve_ok := true; connect_ok := true; io_rets := []; fopen_ok := true |}.

(** Predicates on worlds that the code outside the guider link keeps: each
    field is one of the updates that code makes. *)
Record sturdy (J : world -> Prop) : Prop := {
  su_wait : wait_stable J;
  su_rts : forall w bits,
    J w -> J (emit (EvTIOCMSET bits) (set_dev (with_cbits bits) w));
  su_exposing : forall w b, J w -> J (set_g (with_exposing b) w);
  su_start : forall w,
    J w -> J (emit (EvStart (now w)) (set_g (with_exp_start (now w)) w));
  su_end : forall w,
    J w -> J (emit (EvEnd (now w)) (set_g (with_exp_end (now w)) w));
  su_verbose : forall w v, J w -> J (set_g (with_verbose v) w);
  su_log : forall w label,
    J w -> J (emit (log_line label (exp_start (g w)) (exp_end (g w))) w);
  su_call : forall w c, J w -> J (emit (EvCall c (line_state w)) w);
  su_close : forall w,
    J w -> J (emit (EvClose FdSerial) (set_dev (with_fd_open false) w));
  su_exit : forall w, J w -> J (closed w)
}.

(** The guider link is out of use: dither disabled, no socket, no traffic. *)
Definition guider_unused (w : world) : Prop :=
  phd_dither_size (cfg w) = 0 /\ phd_fd (g w) = -1 /\
  sock_open (dev w) = false /\ guider (history w) = [].

(** How a process can end. *)
Definition ends_with_status_0 {A} (J : world -> Prop) (o : outcome A) : Prop :=
  match o with
  | Exit status w => status = 0 /\ J w
  | Running w => J w
  | _ => False
  end.

(** ** An undisturbed run *)

(** Both stamps of the exposure are as [gettimeofday] fills them. *)
Definition stamps_normal (w : world) : Prop :=
  normal_tv (exp_start (g w)) /\ normal_tv (exp_end (g w)).

(** The guider traffic so far is [l] and the socket variable holds [fd]. *)
Definition guider_idle (l : list event) (fd : Z) (w : world) : Prop :=
  guider (history w) = l /\ phd_fd (g w) = fd.

(** The duration field of a log line. *)
Definition log_seconds (e : event) : Z :=
  match e with EvLog _ _ _ _ s _ _ => s | _ => 0 end.

(** Milliseconds [expose] waits before the timed wait: the mirror delay,
    after the first pulse with method 2. *)
Definition lockup (c : config) : Z :=
  if mlu_method c =? 1 then mlu_delay c else shut_min_pulse c + mlu_delay c.

(** Milliseconds frame [i] waits. *)
Definition frame_ms (c : config) (i : Z) : Z :=
  (if i =? 1 then 0 else exp_pause c) + lockup c + exp_time c.

(** One dither: the command byte goes out, one byte comes back. *)
Definition dither_exchange (c : config) : list event :=
  match nth_error phd_cmds (Z.to_nat (phd_dither_size c)) with
  | Some b => [EvWrite b; EvRead]
  | None => []
  end.

Definition frame_guider (c : config) (i : Z) : list event :=
  if negb (i =? 1) && negb (phd_dither_size c =? 0) then dither_exchange c
  else [].

(** The duration a frame puts in the log, if there is a log. *)
Definition frame_log (c : config) : list Z :=
  match log_target c with
  | Some _ => [(exp_time c + 500) / 1000]
  | None => []
  end.

(** The guider traffic of a run of [n] frames. *)
Definition session (c : config) (n : nat) : list event :=
  if phd_dither_size c =? 0 then []
  else [EvSocket; EvConnect]
       ++ List.concat (repeat (dither_exchange c) (n - 1))
       ++ [EvClose FdSocket].

(** Nothing disturbs the run: no signal and no failing system call, the
    options within their ranges, a dither level that indexes [phd_cmds], a
    known MLU method; [fuel] covers the frames and every timed wait. *)
Record undisturbed (fuel : nat) (w : world) : Prop := {
  un_benign : benign w;
  un_config : valid_config (cfg w);
  un_dither : 0 <= phd_dither_size (cfg w) <= 4;
  un_method : mlu_method (cfg w) = 1 \/ mlu_method (cfg w) = 2;
  un_wait : exp_time (cfg w) / ANIMATION_STEP <= Z.of_nat fuel;
  un_turns : exp_count (cfg w) <= Z.of_nat fuel
}.

(** Three labelled frames with dither level 3. *)
Definition world_session : world :=
  boot (with_log_target (Some "M31"%string)
          (with_dither 3 (with_exp_count 3 default_config)))
    calm_oracle 0 0.

(** ** The timed wait and the width of [unsigned int]

    The test [sofar + ANIMATION_STEP <= msec] of [sleep_verbose] is computed
    in [unsigned int]; [sofar] runs through the multiples of the tick.  The
    sum first wraps at the last multiple of the tick an [unsigned int]
    holds, 4294967000: the loop reaches it when [msec] is at least that. *)
Definition WRAP_MSEC : Z := UINT_MAX / ANIMATION_STEP * ANIMATION_STEP.

(** ** A run with an unknown MLU method *)

(** The reports of an unknown MLU method on the console. *)
Definition mlu_reports (h : list (Z * event)) : list Z :=
  flat_map (fun m => match m with MsgUnknownMLU x => [x] | _ => [] end)
    (console h).

(** The line a frame appends to the log from the stamps as they stand. *)
Definition stale_log (c : config) (t0 t1 : timeval) : list event :=
  match log_target c with
  | Some label => [log_line label t0 t1]
  | None => []
  end.

(** ** A SIGINT and the exposure under way *)

(** The start stamp that waits for its end stamp: the newest stamp of the
    trace, if it is a start, with the time it was taken at. *)
Fixpoint pending_start (tr : list (Z * event)) : option (Z * timeval) :=
  match tr with
  | [] => None
  | (t, e) :: rest =>
      match e with
      | EvStart s => Some (t, s)
      | EvEnd _ => None
      | _ => pending_start rest
      end
  end.

(** Events other than the two stamps. *)
Definition unstamped (e : event) : Prop :=
  match e with
  | EvStart _ | EvEnd _ => False
  | _ => True
  end.

(** Between exposures: the flag is clear and no start stamp is pending. *)
Definition at_rest (c : config) (w : world) : Prop :=
  cfg w = c /\ exposing (g w) = false /\ pending_start (trace w) = None.

(** The start stamp [s], taken at [t0], is pending and is the one the
    globals hold; [flag] is the value of [exposing]. *)
Definition stamped (c : config) (flag : bool) (t0 : Z) (s : timeval)
    (w : world) : Prop :=
  cfg w = c /\ exposing (g w) = flag /\
  pending_start (trace w) = Some (t0, s) /\ exp_start (g w) = s.

(** The worlds a SIGINT can find.  With no start stamp pending the flag is
    clear.  With one pending, taken at [t0], the instant lies within the
    timed wait, the globals hold that stamp, and the flag is set whenever
    the instant is strictly inside the wait. *)
Definition interrupted (c : config) (w : world) : Prop :=
  cfg w = c /\
  match pending_start (trace w) with
  | None => exposing (g w) = false
  | Some (t0, s) =>
      t0 <= clock (dev w) <= t0 + ms (exp_time c) /\
      exp_start (g w) = s /\
      (t0 < clock (dev w) < t0 + ms (exp_time c) -> exposing (g w) = true)
  end.

(** Predicates that all the code keeps but the statements of [expose] that
    stamp the exposure and set the flag. *)
Record restful (J : world -> Prop) : Prop := {
  rf_env : forall w f, J w -> J (set_env f w);
  rf_dev : forall w f, J w -> J (set_dev f w);
  rf_anim : forall w n, J w -> J (set_g (with_animation_step n) w);
  rf_verbose : forall w v, J w -> J (set_g (with_verbose v) w);
  rf_phd_fd : forall w fd, J w -> J (set_g (with_phd_fd fd) w);
  rf_emit : forall w e, unstamped e -> J w -> J (emit e w)
}.

(** A SIGINT 0.4 s into the timed wait of a labelled one-pulse frame. *)
Definition world_midway : world :=
  boot (with_log_target (Some "M31"%string)
          (with_quiet true (with_mlu_method 1 default_config)))
    (with_sigint (Some (8%nat, 400000000)) calm_oracle) 0 0.
(** * Properties *)

(** ** The RTS bit *)

Lemma testbit_TIOCM_RTS (n : Z) : Z.testbit TIOCM_RTS n = (n =? 2).
Proof.
  change TIOCM_RTS with (2 ^ 2).
  destruct (Z.ltb_spec n 0) as [Hn | Hn].
  - rewrite Z.testbit_neg_r by assumption. symmetry. apply Z.eqb_neq. lia.
  - rewrite Z.pow2_bits_eqb by lia. apply Z.eqb_sym.
Qed.

Lemma testbit_rts_mask (on bits n : Z) :
  Z.testbit (rts_mask on bits) n =
  if n =? 2 then negb (on =? 0) else Z.testbit bits n.
Proof.
  unfold rts_mask.
  destruct (Z.ltb_spec n 0) as [Hn | Hn].
  - rewrite !Z.testbit_neg_r by assumption.
    destruct (Z.eqb_spec n 2); [lia | reflexivity].
  - destruct (on =? 0).
    + rewrite Z.land_spec, Z.lnot_spec, testbit_TIOCM_RTS by assumption.
      destruct (n =? 2); simpl; [apply andb_false_r | apply andb_true_r].
    + rewrite Z.lor_spec, testbit_TIOCM_RTS.
      destruct (n =? 2); simpl; [apply orb_true_r | apply orb_false_r].
Qed.

Lemma line_of_bits_testbit (bits : Z) :
  line_of_bits bits = if Z.testbit bits 2 then Engaged else Released.
Proof.
  unfold line_of_bits.
  destruct (Z.testbit bits 2) eqn:Hb.
  - destruct (Z.eqb_spec (Z.land bits TIOCM_RTS) 0) as [E | E]; [ | reflexivity].
    assert (H : Z.testbit (Z.land bits TIOCM_RTS) 2 = false)
      by (rewrite E; apply Z.bits_0).
    rewrite Z.land_spec, Hb, testbit_TIOCM_RTS in H. discriminate H.
  - destruct (Z.eqb_spec (Z.land bits TIOCM_RTS) 0) as [E | E]; [reflexivity | ].
    exfalso. apply E. apply Z.bits_inj'. intros n _.
    rewrite Z.land_spec, testbit_TIOCM_RTS, Z.bits_0.
    destruct (Z.eqb_spec n 2) as [-> | ]; [ | apply andb_false_r].
    rewrite Hb. reflexivity.
Qed.

Lemma line_rts_mask (on bits : Z) :
  line_of_bits (rts_mask on bits) = if on =? 0 then Released else Engaged.
Proof.
  rewrite line_of_bits_testbit, testbit_rts_mask. simpl.
  destruct (on =? 0); reflexivity.
Qed.

Lemma rts_mask_idem (on bits : Z) :
  rts_mask on (rts_mask on bits) = rts_mask on bits.
Proof.
  apply Z.bits_inj'. intros n _. rewrite !testbit_rts_mask.
  destruct (n =? 2); reflexivity.
Qed.

(** What [set_rts] does to the modem bits, whatever interrupts it. *)
Lemma set_rts_cbits (on : Z) (w : world) :
  match set_rts on w with
  | Ret _ w' => cbits (dev w') = rts_mask on (cbits (dev w))
  | Sigint w' => cbits (dev w') = cbits (dev w)
  | _ => False
  end.
Proof.
  unfold set_rts, ioctl_TIOCMGET, ioctl_TIOCMSET, stmt, bind, tick.
  destruct (sigint (env w)) as [[[ | [ | n]] e] | ]; simpl; try reflexivity.
  destruct (sigint (env w)) as [[[ | n] e] | ]; reflexivity.
Qed.

(** ** Rules for [post] *)

Lemma post_bind {A B} (m : M A) (k : A -> M B) Q E S R w :
  post (fun a w' => post Q E S R (k a w')) E S R (m w) ->
  post Q E S R (bind m k w).
Proof. unfold bind. destruct (m w); simpl; auto. Qed.

Lemma post_mono {A} (Q Q' : A -> world -> Prop) (E E' S S' R R' : world -> Prop)
    (o : outcome A) :
  post Q E S R o ->
  (forall a w, Q a w -> Q' a w) -> (forall w, E w -> E' w) ->
  (forall w, S w -> S' w) -> (forall w, R w -> R' w) ->
  post Q' E' S' R' o.
Proof.
  destruct o; simpl; intros H HQ HE HS HR; auto.
  destruct H. split; auto.
Qed.

Lemma post_ret {A} (a : A) (Q : A -> world -> Prop) E S R w :
  Q a w -> post Q E S R (ret a w).
Proof. exact (fun H => H). Qed.

Lemma post_read_cfg {A} (f : config -> A) (Q : A -> world -> Prop) E S R w :
  Q (f (cfg w)) w -> post Q E S R (read_cfg f w).
Proof. exact (fun H => H). Qed.

Lemma post_read_g {A} (f : globals -> A) (Q : A -> world -> Prop) E S R w :
  Q (f (g w)) w -> post Q E S R (read_g f w).
Proof. exact (fun H => H). Qed.

Section Ticks.
Variable J : world -> Prop.
Hypothesis J_env : forall w f, J w -> J (set_env f w).
Variables E R : world -> Prop.

Lemma post_tick w : J w -> post (fun _ => J) E J R (tick w).
  Proof.
    intros H. unfold tick.
    destruct (sigint (env w)) as [[[ | n] e] | ]; simpl; auto.
  Qed.

Lemma post_stmt (Q : world -> Prop) f w :
    J w -> (forall w', J w' -> Q (f w')) -> post (fun _ => Q) E J R (stmt f w).
  Proof.
    intros H HQ. unfold stmt. apply post_bind.
    eapply post_mono; [apply post_tick, H | | | | ]; simpl; auto.
  Qed.

Lemma post_tick_then {A} (m : M A) (Q : A -> world -> Prop) w :
    J w -> (forall w', J w' -> post Q E J R (m w')) ->
    post Q E J R (bind tick (fun _ => m) w).
  Proof.
    intros H Hm. apply post_bind.
    eapply post_mono; [apply post_tick, H | | | | ]; simpl; auto.
  Qed.
End Ticks.

(** ** Waiting changes nothing but the clock *)

Section Waits.
Variable J : world -> Prop.
Hypothesis J_stable : wait_stable J.
Variables E : world -> Prop.

Let J_env := ws_env J J_stable.

Lemma slept_stable ns w : J w -> J (slept ns w).
  Proof.
    intros H. unfold slept. apply (ws_clock J J_stable).
    apply (ws_emit J J_stable); [exact I | exact H].
  Qed.

Lemma post_nanosleep t w : J w -> post (fun _ => J) E J J (nanosleep t w).
  Proof.
    intros H. unfold nanosleep.
    destruct (sigint (env w)) as [[[ | n] e] | ]; simpl.
    - split; [ | reflexivity]. apply slept_stable, J_env, H.
    - destruct (eintr (env w)) as [ | x rest]; simpl.
      + apply slept_stable, J_env, H.
      + destruct ((0 <=? x) && (x <? ts_ns t)); simpl;
          apply slept_stable, J_env, J_env, H.
    - destruct (eintr (env w)) as [ | x rest]; simpl.
      + apply slept_stable, H.
      + destruct ((0 <=? x) && (x <? ts_ns t)); simpl;
          apply slept_stable, J_env, H.
  Qed.

Lemma post_sleep_again n : forall t w,
    J w -> post (fun _ => J) E J J (sleep_again n t w).
  Proof.
    induction n as [ | n IH]; intros t w H; simpl; apply post_bind;
      (eapply post_mono; [apply post_nanosleep, H | | | | ]; simpl; auto);
      intros [rem | ] w' H'; simpl; auto.
  Qed.

Lemma post_sleep_quiet msec w :
    J w -> post (fun _ => J) E J J (sleep_quiet msec w).
  Proof. intros H. unfold sleep_quiet. apply post_sleep_again, H. Qed.

Lemma post_printf m w : J w -> post (fun _ => J) E J J (printf m w).
  Proof.
    intros H. unfold printf. apply post_stmt; auto.
    intros w' H'. apply (ws_emit J J_stable); [exact I | exact H'].
  Qed.

Lemma post_sleep_verbose_loop fuel msec : forall sofar w,
    J w -> post (fun _ => J) E J J (sleep_verbose_loop fuel msec sofar w).
  Proof.
    induction fuel as [ | fuel IH]; intros sofar w H; simpl;
      destruct (to_uint (sofar + ANIMATION_STEP) <=? msec); simpl; auto.
    apply post_bind.
    eapply post_mono; [apply (post_stmt J J_env E J J) | | | | ]; simpl; auto.
    { intros w' H'. apply (ws_emit J J_stable); [exact I | ].
      apply (ws_anim J J_stable), H'. }
    intros _ w1 H1. apply post_bind.
    eapply post_mono; [apply (post_stmt J J_env E J J) | | | | ]; simpl; auto.
    { intros w' H'. apply (ws_anim J J_stable), H'. }
    intros _ w2 H2. apply post_bind.
    eapply post_mono; [apply post_sleep_quiet, H2 | | | | ]; simpl; auto.
  Qed.

Lemma post_sleep_verbose fuel msec w :
    J w -> post (fun _ => J) E J J (sleep_verbose fuel msec w).
  Proof.
    intros H. unfold sleep_verbose. apply post_bind, post_read_cfg.
    destruct (quiet (cfg w)).
    - apply post_sleep_quiet, H.
    - apply post_bind.
      eapply post_mono; [apply post_sleep_verbose_loop, H | | | | ]; simpl; auto.
      intros sofar w1 H1. apply post_bind.
      eapply post_mono; [apply post_sleep_quiet, H1 | | | | ]; simpl; auto.
      intros _ w2 H2. apply post_bind, post_read_g. apply post_printf, H2.
  Qed.
End Waits.

(** ** What only the line and the call markers can change *)

Lemma silent_passive e : silent e -> passive e.
Proof. destruct e; simpl; auto. Qed.

Lemma ambient_wait_stable J : ambient J -> wait_stable J.
Proof.
  intros H. split.
  - apply (am_env J H).
  - apply (am_clock J H).
  - intros w n. apply (am_g J H).
  - intros w e He. apply (am_emit J H), silent_passive, He.
Qed.

Section Ambient.
Variable J : world -> Prop.
Hypothesis J_ambient : ambient J.

Let J_env := am_env J J_ambient.
Let J_wait := ambient_wait_stable J J_ambient.

  (** The statements that never end the process: any [E] will do. *)
Variable E : world -> Prop.

Lemma keep_stmt_passive (f : world -> world) w :
    (forall w', J w' -> J (f w')) -> J w -> post (fun _ => J) E J J (stmt f w).
  Proof. intros Hf H. apply (post_stmt J J_env); auto. Qed.

Lemma keep_gettimeofday_exp_start w : J w -> post (fun _ => J) E J J (gettimeofday_exp_start w).
  Proof.
    apply keep_stmt_passive. intros w' H.
    apply (am_emit J J_ambient); [exact I | apply (am_g J J_ambient), H].
  Qed.

Lemma keep_gettimeofday_exp_end w : J w -> post (fun _ => J) E J J (gettimeofday_exp_end w).
  Proof.
    apply keep_stmt_passive. intros w' H.
    apply (am_emit J J_ambient); [exact I | apply (am_g J J_ambient), H].
  Qed.

Lemma keep_set_exposing b w : J w -> post (fun _ => J) E J J (set_exposing b w).
  Proof. apply keep_stmt_passive. intros w' H. apply (am_g J J_ambient), H. Qed.

Lemma keep_log_exposure w : J w -> post (fun _ => J) E J J (log_exposure w).
  Proof.
    apply keep_stmt_passive. intros w' H.
    destruct (log_target (cfg w')); [ | exact H].
    destruct (fopen_ok (env w')); [ | exact H].
    apply (am_emit J J_ambient); [exact I | exact H].
  Qed.

Lemma keep_close d w : J w -> post (fun _ => J) E J J (close d w).
  Proof.
    apply keep_stmt_passive. intros w' H.
    apply (am_emit J J_ambient); [exact I | ].
    destruct d; [apply (am_fd J J_ambient) | apply (am_sock J J_ambient)]; exact H.
  Qed.

Lemma keep_printf m w : J w -> post (fun _ => J) E J J (printf m w).
  Proof. apply (post_printf J J_wait). Qed.

Lemma keep_sleep_quiet msec w : J w -> post (fun _ => J) E J J (sleep_quiet msec w).
  Proof. apply (post_sleep_quiet J J_wait). Qed.

Lemma keep_sleep_verbose fuel msec w : J w -> post (fun _ => J) E J J (sleep_verbose fuel msec w).
  Proof. apply (post_sleep_verbose J J_wait). Qed.

End Ambient.

Section AmbientExit.
Variable J : world -> Prop.
Hypothesis J_ambient : ambient J.

Let J_env := am_env J J_ambient.

Lemma exit_ends {A} status w :
    J w ->
    post (fun (_ : A) _ => False) J J (fun _ => False) (exit status w).
  Proof.
    intros H. unfold exit. apply (post_tick_then J J_env); auto.
    intros w' H'. simpl.
    change (J (set_dev (with_sock_open false) (set_dev (with_fd_open false) w'))).
    apply (am_sock J J_ambient), (am_fd J J_ambient), H'.
  Qed.

Lemma inv_exit {A} status w : J w -> inv J (@exit A status w).
  Proof.
    intros H. eapply post_mono; [apply exit_ends, H | | | | ];
      simpl; auto; contradiction.
  Qed.

Lemma inv_FATAL {A} msg w : J w -> inv J (@FATAL A msg w).
  Proof.
    intros H. unfold FATAL. apply post_bind.
    eapply post_mono; [apply (keep_printf J J_ambient J), H | | | | ]; simpl; auto.
    intros _ w' H'. apply inv_exit, H'.
  Qed.

Lemma inv_phd_connect w : J w -> inv J (phd_connect w).
  Proof.
    intros H. unfold phd_connect. apply post_bind, post_read_cfg.
    destruct (phd_dither_size (cfg w) =? 0); [exact H | ].
    apply post_bind. unfold socket_call.
    apply (post_tick_then J J_env); auto. intros w1 H1.
    assert (Hrest : forall w2, J w2 ->
              post (fun (_ : unit) => J) J J J
                (bind gethostbyname (fun he =>
                   if negb he then FATAL "gethostbyname"%string
                   else bind connect_call (fun r =>
                          if r =? -1 then FATAL "connect"%string else ret tt)) w2)).
    { intros w2 H2. apply post_bind. unfold gethostbyname.
      apply (post_tick_then J J_env); auto. intros w3 H3. simpl.
      destruct (resolve_ok (env w3)); simpl; [ | apply inv_FATAL, H3].
      apply post_bind. unfold connect_call.
      apply (post_tick_then J J_env); auto. intros w4 H4.
      destruct (connect_ok (env w4)); simpl.
      - apply (am_emit J J_ambient); [exact I | exact H4].
      - apply inv_FATAL, H4. }
    destruct (socket_ok (env w1)); simpl; apply post_bind; simpl.
    - apply Hrest.
      apply (am_g J J_ambient), (am_emit J J_ambient); [exact I | ].
      apply (am_sock J J_ambient), H1.
    - apply inv_FATAL. apply (am_g J J_ambient), H1.
  Qed.

Lemma inv_phd_disconnect w : J w -> inv J (phd_disconnect w).
  Proof.
    intros H. unfold phd_disconnect. apply post_bind, post_read_g.
    destruct (phd_fd (g w) =? -1); [exact H | apply (keep_close J J_ambient J), H].
  Qed.

Lemma inv_syscall_ret w : J w -> inv J (syscall_ret w).
  Proof.
    intros H. unfold syscall_ret.
    destruct (io_rets (env w)); simpl; auto.
  Qed.

Lemma inv_write_byte b w : J w -> inv J (write_byte b w).
  Proof.
    intros H. unfold write_byte. apply (post_tick_then J J_env); auto.
    intros w1 H1. apply post_bind.
    eapply post_mono; [apply inv_syscall_ret, H1 | | | | ]; simpl; auto.
    intros r w2 H2. destruct (r =? 1); [ | exact H2].
    apply (am_emit J J_ambient); [exact I | exact H2].
  Qed.

Lemma inv_read_byte w : J w -> inv J (read_byte w).
  Proof.
    intros H. unfold read_byte. apply (post_tick_then J J_env); auto.
    intros w1 H1. apply post_bind.
    eapply post_mono; [apply inv_syscall_ret, H1 | | | | ]; simpl; auto.
    intros r w2 H2. destruct (r =? 1); [ | exact H2].
    apply (am_emit J J_ambient); [exact I | exact H2].
  Qed.

Lemma inv_phd_dither w : J w -> inv J (phd_dither w).
  Proof.
    intros H. unfold phd_dither. apply post_bind, post_read_cfg.
    apply post_bind. unfold load_phd_cmd.
    destruct (nth_error phd_cmds (Z.to_nat (phd_dither_size (cfg w))));
      simpl; [ | exact H].
    apply post_bind.
    eapply post_mono; [apply inv_write_byte, H | | | | ]; simpl; auto.
    intros r w1 H1. destruct (negb (r =? 1)); [apply inv_FATAL, H1 | ].
    apply post_bind.
    eapply post_mono; [apply inv_read_byte, H1 | | | | ]; simpl; auto.
    intros r' w2 H2. destruct (negb (r' =? 1)); [apply inv_FATAL, H2 | exact H2].
  Qed.
End AmbientExit.

(** ** Running without a pending signal *)

Lemma tick_calm w : calm w -> tick w = Ret tt w.
Proof. unfold calm, tick. intros ->. reflexivity. Qed.

Lemma stmt_calm f w : calm w -> stmt f w = Ret tt (f w).
Proof. intros H. unfold stmt, bind. rewrite tick_calm by exact H. reflexivity. Qed.

Lemma set_rts_calm on w :
  calm w ->
  set_rts on w =
  Ret tt (emit (EvTIOCMSET (rts_mask on (cbits (dev w))))
            (set_dev (with_cbits (rts_mask on (cbits (dev w)))) w)).
Proof.
  intros H. unfold set_rts, ioctl_TIOCMGET, ioctl_TIOCMSET, bind.
  rewrite tick_calm by exact H. rewrite stmt_calm by exact H. reflexivity.
Qed.

(** The world the handler leaves: the line released, the end of a running
    exposure stamped and logged, both descriptors closed. *)
Lemma exit_cleanup_calm {A} dummy w :
  calm w ->
  let w1 := emit (EvTIOCMSET (rts_mask 0 (cbits (dev w))))
              (set_dev (with_cbits (rts_mask 0 (cbits (dev w)))) w) in
  let w2 := if exposing (g w) then
              let w' := set_g (with_exposing false) w1 in
              let w'' := emit (EvEnd (now w')) (set_g (with_exp_end (now w')) w') in
              match log_target (cfg w) with
              | None => w''
              | Some label =>
                  if fopen_ok (env w)
                  then emit (log_line label (exp_start (g w)) (now w)) w''
                  else w''
              end
            else w1 in
  @exit_cleanup A dummy w =
  Exit 0 (set_dev (fun d => with_sock_open false (with_fd_open false d))
            (emit (EvClose FdSerial) (set_dev (with_fd_open false) w2))).
Proof.
  intros H. unfold exit_cleanup, shutter_release, bind at 1.
  rewrite set_rts_calm by exact H.
  unfold bind at 1, read_g. simpl exposing.
  destruct (exposing (g w)).
  - unfold set_exposing, gettimeofday_exp_end, log_exposure, close, exit, bind.
    do 3 (rewrite stmt_calm by exact H; cbv beta iota).
    simpl log_target. simpl fopen_ok.
    destruct (log_target (cfg w)) as [label | ];
      [destruct (fopen_ok (env w)) | ];
      (rewrite stmt_calm by exact H); cbv beta iota;
      (rewrite tick_calm by exact H); reflexivity.
  - unfold close, exit, bind, ret.
    rewrite stmt_calm by exact H. rewrite tick_calm by exact H. reflexivity.
Qed.

(** ** The line is released between frames *)

Lemma calls_released_emit w e :
  match e with EvCall _ l => l = Released | _ => True end ->
  calls_released w -> calls_released (emit e w).
Proof.
  intros He H. unfold calls_released. simpl. constructor; [ | exact H].
  unfold marker_released. simpl. exact He.
Qed.

Lemma calls_released_ambient : ambient calls_released.
Proof.
  split; try (intros; assumption).
  intros w e He H. apply calls_released_emit; [ | exact H].
  destruct e; simpl in *; auto. contradiction.
Qed.

Lemma released_ambient : ambient released.
Proof. split; intros; assumption. Qed.

Lemma tidy_ambient : ambient tidy.
Proof.
  split; intros w x; try (intros [H1 H2]; split; assumption).
  intros He [H1 H2]. split; [ | exact H2].
  apply (am_emit _ calls_released_ambient); assumption.
Qed.

Lemma set_rts_calls on w (E R : world -> Prop) :
  calls_released w ->
  post (fun _ w' => calls_released w' /\
                    line_state w' = if on =? 0 then Released else Engaged)
       E calls_released R (set_rts on w).
Proof.
  intros H. unfold set_rts, ioctl_TIOCMGET. apply post_bind.
  apply (post_tick_then calls_released (am_env _ calls_released_ambient)); auto.
  intros w1 H1. simpl. unfold ioctl_TIOCMSET.
  apply (post_stmt calls_released (am_env _ calls_released_ambient)); auto.
  intros w2 H2. split.
  - apply calls_released_emit; [exact I | exact H2].
  - unfold line_state. simpl. apply line_rts_mask.
Qed.

Ltac keep_calls L H :=
  apply post_bind;
  eapply post_mono;
    [ apply (L calls_released calls_released_ambient tidy); exact H
    | simpl | auto | auto | auto ].

Ltac rts_calls on H :=
  eapply post_mono;
    [ apply (set_rts_calls on _ tidy calls_released H)
    | simpl | auto | auto | auto ].

Lemma expose_tidy fuel msec w :
  tidy w ->
  post (fun _ => tidy) tidy calls_released calls_released (expose fuel msec w).
Proof.
  intros Hw. pose proof Hw as [Hm Hr].
  unfold expose. apply post_bind, post_read_cfg.
  destruct (mlu_method (cfg w) =? 1); [ | destruct (mlu_method (cfg w) =? 2)].
  - apply post_bind. unfold shutter_fire. rts_calls 1 Hm. intros _ w1 [H1 _].
    apply post_bind, post_read_cfg.
    keep_calls keep_sleep_quiet H1. intros _ w2 H2.
    keep_calls keep_gettimeofday_exp_start H2. intros _ w3 H3.
    keep_calls keep_set_exposing H3. intros _ w4 H4.
    apply post_bind, post_read_cfg.
    keep_calls keep_sleep_verbose H4. intros _ w5 H5.
    keep_calls keep_set_exposing H5. intros _ w6 H6.
    keep_calls keep_gettimeofday_exp_end H6. intros _ w7 H7.
    unfold shutter_release. rts_calls 0 H7. intros _ w8 [H8 H8']. split; assumption.
  - apply post_bind. unfold shutter_fire. rts_calls 1 Hm. intros _ w1 [H1 _].
    apply post_bind, post_read_cfg.
    keep_calls keep_sleep_quiet H1. intros _ w2 H2.
    apply post_bind. unfold shutter_release. rts_calls 0 H2. intros _ w3 [H3 _].
    apply post_bind, post_read_cfg.
    keep_calls keep_sleep_quiet H3. intros _ w4 H4.
    apply post_bind. rts_calls 1 H4. intros _ w5 [H5 _].
    keep_calls keep_gettimeofday_exp_start H5. intros _ w6 H6.
    keep_calls keep_set_exposing H6. intros _ w7 H7.
    apply post_bind, post_read_cfg.
    keep_calls keep_sleep_verbose H7. intros _ w8 H8.
    keep_calls keep_set_exposing H8. intros _ w9 H9.
    keep_calls keep_gettimeofday_exp_end H9. intros _ w10 H10.
    rts_calls 0 H10. intros _ w11 [H11 H11']. split; assumption.
  - eapply post_mono;
      [ apply (keep_printf tidy tidy_ambient tidy); exact Hw | | | | ];
      simpl; auto; intros ? []; auto.
Qed.

Lemma call_tidy {A} c (m : M A) Q E S R w :
  tidy w -> (forall w', tidy w' -> post Q E S R (m w')) ->
  post Q E S R (call c m w).
Proof.
  intros [Hm Hr] Hpost. unfold call. apply post_bind. simpl. apply Hpost.
  split; [ | exact Hr]. apply calls_released_emit; [exact Hr | exact Hm].
Qed.

Lemma tidy_calls w : tidy w -> calls_released w.
Proof. intros [H _]. exact H. Qed.

Ltac keep_tidy L H :=
  eapply post_mono;
    [ apply (L tidy tidy_ambient tidy); exact H
    | simpl | auto | apply tidy_calls | apply tidy_calls ].

Ltac inv_tidy L H :=
  eapply post_mono;
    [ apply (L tidy tidy_ambient); exact H
    | simpl | auto | apply tidy_calls | apply tidy_calls ].

Lemma frame_tidy fuel i w :
  tidy w ->
  post (fun _ => tidy) tidy calls_released calls_released (frame fuel i w).
Proof.
  intros Hw. unfold frame. apply post_bind, post_read_cfg. apply post_bind.
  assert (Hd : post (fun _ : unit => tidy) tidy calls_released calls_released
                 ((if negb (i =? 1) && negb (phd_dither_size (cfg w) =? 0)
                   then bind (printf MsgDithering)
                          (fun _ => call CallDither phd_dither)
                   else ret tt) w)).
  { destruct (negb (i =? 1) && negb (phd_dither_size (cfg w) =? 0));
      [ | exact Hw].
    apply post_bind. keep_tidy keep_printf Hw. intros _ w1 H1.
    apply call_tidy; [exact H1 | ]. intros w2 H2. inv_tidy inv_phd_dither H2.
    auto. }
  eapply post_mono; [exact Hd | | auto | auto | auto]. simpl.
  intros _ w1 H1. apply post_bind, post_read_cfg. apply post_bind.
  eapply post_mono;
    [ apply (keep_stmt_passive tidy tidy_ambient tidy);
        [intros w' H'; apply (am_g _ tidy_ambient), H' | exact H1]
    | simpl | auto | apply tidy_calls | apply tidy_calls ].
  intros _ w2 H2. apply post_bind.
  assert (Hp : post (fun _ : unit => tidy) tidy calls_released calls_released
                 ((if negb (i =? 1)
                   then bind (read_cfg exp_pause)
                          (fun p => call CallPause (sleep_quiet p))
                   else ret tt) w2)).
  { destruct (negb (i =? 1)); [ | exact H2].
    apply post_bind, post_read_cfg. apply call_tidy; [exact H2 | ].
    intros w3 H3. keep_tidy keep_sleep_quiet H3. auto. }
  eapply post_mono; [exact Hp | | auto | auto | auto]. simpl.
  intros _ w3 H3. apply post_bind, post_read_cfg. apply post_bind.
  apply call_tidy; [exact H3 | ]. intros w4 H4.
  eapply post_mono; [apply expose_tidy, H4 | | auto | auto | auto]. simpl.
  intros _ w5 H5. apply call_tidy; [exact H5 | ]. intros w6 H6.
  keep_tidy keep_log_exposure H6. auto.
Qed.

Lemma main_loop_tidy fuel turns : forall i w,
  tidy w ->
  post (fun _ => tidy) tidy calls_released calls_released
    (main_loop fuel turns i w).
Proof.
  induction turns as [ | turns IH]; intros i w Hw; simpl;
    apply post_bind, post_read_cfg;
    destruct (i <=? exp_count (cfg w)); try exact Hw.
  - apply tidy_calls, Hw.
  - apply post_bind.
    eapply post_mono; [apply frame_tidy, Hw | | auto | auto | auto]. simpl.
    intros _ w1 H1. apply IH, H1.
Qed.

Lemma main_tidy fuel w :
  calls_released w ->
  post (fun _ => tidy) tidy calls_released calls_released (main fuel w).
Proof.
  intros Hm. unfold main. apply post_bind. unfold shutter_release.
  rts_calls 0 Hm. intros _ w1 H1.
  apply post_bind. inv_tidy inv_phd_connect H1. intros _ w2 H2.
  apply post_bind.
  eapply post_mono; [apply main_loop_tidy, H2 | | auto | auto | auto]. simpl.
  intros _ w3 H3. apply post_bind. inv_tidy inv_phd_disconnect H3.
  intros _ w4 H4. exact H4.
Qed.

(** The handler ends the process with the line released. *)
Lemma exit_cleanup_tidy {A} dummy w :
  calls_released w -> calm w ->
  post (fun (_ : A) _ => False) tidy (fun _ => False) (fun _ => False)
    (exit_cleanup dummy w).
Proof.
  intros Hm Hc. rewrite (exit_cleanup_calm dummy w Hc). simpl.
  assert (H1 : tidy (emit (EvTIOCMSET (rts_mask 0 (cbits (dev w))))
                       (set_dev (with_cbits (rts_mask 0 (cbits (dev w)))) w))).
  { split.
    - apply calls_released_emit; [exact I | exact Hm].
    - unfold released, line_state. simpl. apply line_rts_mask. }
  set (w1 := emit _ _) in *.
  match goal with
  | |- tidy (set_dev _ ?x) =>
      change (tidy (set_dev (with_sock_open false) (set_dev (with_fd_open false) x)))
  end.
  apply (am_sock _ tidy_ambient), (am_fd _ tidy_ambient).
  apply (am_emit _ tidy_ambient); [exact I | ].
  apply (am_fd _ tidy_ambient).
  destruct (exposing (g w)); [ | exact H1].
  assert (H2 : tidy (emit (EvEnd (now (set_g (with_exposing false) w1)))
                       (set_g (with_exp_end (now (set_g (with_exposing false) w1)))
                          (set_g (with_exposing false) w1)))).
  { apply (am_emit _ tidy_ambient); [exact I | ].
    apply (am_g _ tidy_ambient), (am_g _ tidy_ambient), H1. }
  destruct (log_target (cfg w)); [ | exact H2].
  destruct (fopen_ok (env w)); [ | exact H2].
  apply (am_emit _ tidy_ambient); [exact I | exact H2].
Qed.

Lemma run_tidy {A} (m : M A) (Q : A -> world -> Prop) (R : world -> Prop) w :
  post Q tidy calls_released R (m w) ->
  post Q tidy (fun _ => False) R (run m w).
Proof.
  unfold run. destruct (m w) as [a w' | s w' | w' | w' | w']; simpl; auto.
  intros [Hm Hc].
  eapply post_mono; [apply (exit_cleanup_tidy SIGINT w' Hm Hc) | | | | ];
    simpl; auto; contradiction.
Qed.

Lemma boot_calls_released c o bits t0 : calls_released (boot c o bits t0).
Proof. constructor. Qed.

(** C1.  Whatever the options, the modem bits found at start-up, the
    moment of a SIGINT and the answers of the system: the first thing the
    program does once the device is open is to release the line (or to end,
    on a SIGINT, with the line released); every call of the loop body of
    [main], the call of [expose] and the call of [log_exposure] that
    follows it in particular, finds the line released; and the process ends
    only through [exit] (normal end with status 0, [FATAL], the SIGINT
    handler) or a fault, always with the line released. *)
Theorem line_released_at_calls_and_exits
    (fuel : nat) (c : config) (o : oracle) (bits t0 : Z) :
  post (fun _ => released) released (fun _ => False) (fun _ => False)
    (run shutter_release (boot c o bits t0)) /\
  post (fun _ _ => False) tidy (fun _ => False) calls_released
    (ssc fuel (boot c o bits t0)).
Proof.
  split.
  - eapply post_mono.
    + apply (run_tidy shutter_release (fun _ => tidy) (fun _ => False)).
      unfold shutter_release.
      eapply post_mono;
        [ apply (set_rts_calls 0 _ tidy (fun _ => False)
                   (boot_calls_released c o bits t0)) | | | | ];
        simpl; auto.
    + simpl. intros a w [_ H]. exact H.
    + intros w [_ H]. exact H.
    + auto.
    + auto.
  - unfold ssc.
    eapply post_mono;
      [ apply (run_tidy _ (fun _ _ => False) calls_released) | | | | ]; auto.
    apply post_bind.
    eapply post_mono;
      [ apply (main_tidy fuel _ (boot_calls_released c o bits t0)) | | | | ];
      simpl; auto.
    intros status w Hw.
    eapply post_mono; [apply (exit_ends tidy tidy_ambient status w Hw) | | | | ];
      simpl; auto using tidy_calls; contradiction.
Qed.

(** ** ShutterLine *)

Lemma set_rts_twice_cbits on w :
  cbits (dev (outcome_world (bind (set_rts on) (fun _ => set_rts on) w))) =
  cbits (dev (outcome_world (set_rts on w))).
Proof.
  unfold set_rts, ioctl_TIOCMGET, ioctl_TIOCMSET, stmt, bind, tick.
  destruct (sigint (env w)) as [[[ | [ | [ | [ | n]]]] e] | ] eqn:Hs;
    repeat (simpl; rewrite ?Hs); try reflexivity; apply rts_mask_idem.
Qed.

(** C10.  [shutter_fire] and [shutter_release] leave every bit of the
    modem-control mask other than RTS (bit 2) as they read it, wherever a
    SIGINT may cut them short; when they return, the RTS bit is set,
    respectively clear; and calling one twice leaves the same mask as
    calling it once. *)
Theorem shutter_touches_only_rts (w : world) (n : Z) :
  n <> 2 ->
  Z.testbit (cbits (dev (outcome_world (shutter_fire w)))) n
    = Z.testbit (cbits (dev w)) n /\
  Z.testbit (cbits (dev (outcome_world (shutter_release w)))) n
    = Z.testbit (cbits (dev w)) n /\
  post (fun _ w' => line_state w' = Engaged /\
                    cbits (dev w') = rts_mask 1 (cbits (dev w)))
       (fun _ => False) (fun w' => cbits (dev w') = cbits (dev w))
       (fun _ => False) (shutter_fire w) /\
  post (fun _ w' => line_state w' = Released /\
                    cbits (dev w') = rts_mask 0 (cbits (dev w)))
       (fun _ => False) (fun w' => cbits (dev w') = cbits (dev w))
       (fun _ => False) (shutter_release w) /\
  cbits (dev (outcome_world (bind shutter_fire (fun _ => shutter_fire) w)))
    = cbits (dev (outcome_world (shutter_fire w))) /\
  cbits (dev (outcome_world (bind shutter_release (fun _ => shutter_release) w)))
    = cbits (dev (outcome_world (shutter_release w))).
Proof.
  intros Hn.
  assert (Hbit : forall on,
            Z.testbit (cbits (dev (outcome_world (set_rts on w)))) n
            = Z.testbit (cbits (dev w)) n).
  { intros on. pose proof (set_rts_cbits on w) as H.
    destruct (set_rts on w); simpl; try contradiction.
    - rewrite H, testbit_rts_mask.
      destruct (Z.eqb_spec n 2); [contradiction | reflexivity].
    - rewrite H. reflexivity. }
  assert (Hpost : forall on,
            post (fun _ w' => line_state w' = (if on =? 0 then Released else Engaged) /\
                              cbits (dev w') = rts_mask on (cbits (dev w)))
              (fun _ => False) (fun w' => cbits (dev w') = cbits (dev w))
              (fun _ => False) (set_rts on w)).
  { intros on. unfold set_rts, ioctl_TIOCMGET, ioctl_TIOCMSET, stmt, bind, tick.
    destruct (sigint (env w)) as [[[ | [ | k]] e] | ] eqn:Hs;
      repeat (simpl; rewrite ?Hs); auto;
      unfold line_state; simpl; auto using line_rts_mask. }
  repeat split.
  - apply Hbit.
  - apply Hbit.
  - apply (Hpost 1).
  - apply (Hpost 0).
  - apply set_rts_twice_cbits.
  - apply set_rts_twice_cbits.
Qed.

Lemma shutter_touches_only_rts_witness :
  0 <> 2 /\
  Z.testbit (cbits (dev (outcome_world
     (shutter_fire (boot default_config calm_oracle 3 0))))) 0
  = Z.testbit (cbits (dev (boot default_config calm_oracle 3 0))) 0.
Proof.
  split; [discriminate | ].
  apply (shutter_touches_only_rts (boot default_config calm_oracle 3 0) 0).
  discriminate.
Defined.

(** ** GuiderLink *)

(** C4 (the code departs from it).  With the guider answering, the call of
    [phd_dither] for the amounts 1, 2, 3 and 4 writes one byte and reads one
    byte back, but the byte is 4, 5, 12 and 13: the table entry after the
    one the amount stands for ([dither(3)] sends 12, not 5); for amount 5
    the index lies outside the table. *)
Theorem phd_dither_sends_the_next_entry :
  map (fun level => exchange (dither_sends level)) [1; 2; 3; 4; 5] =
  [Some ([4], 1%nat); Some ([5], 1%nat); Some ([12], 1%nat); Some ([13], 1%nat);
   None] /\
  dither_sends 5 = Fault (boot (with_dither 5 default_config) calm_oracle 0 0).
Proof. split; reflexivity. Qed.

(** C8 (the code departs from it).  Amount 5 passes the check of option
    [-d], and [phd_dither] then indexes the five-entry table at 5, one past
    its end, whatever the state of the world; the amounts 0 to 4 index it
    within bounds. *)
Theorem phd_cmds_index_out_of_bounds_at_5
    (c : config) (o : oracle) (bits t0 : Z) :
  dither_accepted 5 = true /\
  nth_error phd_cmds (Z.to_nat 5) = None /\
  phd_dither (boot (with_dither 5 c) o bits t0)
    = Fault (boot (with_dither 5 c) o bits t0) /\
  map (fun level => nth_error phd_cmds (Z.to_nat level)) [0; 1; 2; 3; 4]
    = [Some 3; Some 4; Some 5; Some 12; Some 13].
Proof. repeat split; reflexivity. Qed.

(** ** Waits without a signal: how long they take *)

Lemma waited_calm ns w w' : waited ns w w' -> calm w -> calm w'.
Proof.
  intros H Hc. unfold calm in *.
  pose proof (f_equal sigint (wt_env ns w w' H)) as E. simpl in E.
  rewrite E. exact Hc.
Qed.

Lemma waited_refl w : waited 0 w w.
Proof.
  split; try reflexivity.
  - destruct (dev w); unfold with_clock; simpl. f_equal. lia.
  - exists []. split; [reflexivity | constructor].
Qed.

Lemma waited_trans a b w w1 w2 :
  waited a w w1 -> waited b w1 w2 -> waited (a + b) w w2.
Proof.
  intros [C1 G1 D1 E1 [tr1 [T1 F1]]] [C2 G2 D2 E2 [tr2 [T2 F2]]]. split.
  - congruence.
  - congruence.
  - rewrite D2, D1. unfold with_clock. simpl. f_equal. lia.
  - congruence.
  - exists (tr2 ++ tr1). split.
    + rewrite T2, T1. apply app_assoc.
    + apply Forall_app. split; assumption.
Qed.

Lemma waited_slept ns w : waited ns w (slept ns w).
Proof.
  split; try reflexivity.
  exists [(clock (dev w), EvNanosleep ns)]. split; [reflexivity | ].
  constructor; [exact I | constructor].
Qed.

Lemma waited_eintr l w : waited 0 w (set_env (with_eintr l) w).
Proof.
  split; try reflexivity.
  - simpl. destruct (dev w); unfold with_clock; simpl. f_equal. lia.
  - exists []. split; [reflexivity | constructor].
Qed.

Lemma waited_progress m n w :
  waited 0 w (emit (EvPrintf m) (set_g (with_animation_step n) w)).
Proof.
  split; try reflexivity.
  - simpl. destruct (dev w); unfold with_clock; simpl. f_equal. lia.
  - exists [(clock (dev w), EvPrintf m)]. split; [reflexivity | ].
    constructor; [exact I | constructor].
Qed.

Lemma waited_animation_step n w : waited 0 w (set_g (with_animation_step n) w).
Proof.
  split; try reflexivity.
  - simpl. destruct (dev w); unfold with_clock; simpl. f_equal. lia.
  - exists []. split; [reflexivity | constructor].
Qed.

Lemma waited_printf m w : waited 0 w (emit (EvPrintf m) w).
Proof.
  split; try reflexivity.
  - simpl. destruct (dev w); unfold with_clock; simpl. f_equal. lia.
  - exists [(clock (dev w), EvPrintf m)]. split; [reflexivity | ].
    constructor; [exact I | constructor].
Qed.

Lemma ts_ns_of_ns n : ts_ns (ts_of_ns n) = n.
Proof.
  unfold ts_ns, ts_of_ns. simpl.
  pose proof (Z.div_mod n 1000000000). lia.
Qed.

Lemma nanosleep_calm t w :
  calm w ->
  nanosleep t w =
  match eintr (env w) with
  | e :: rest =>
      if (0 <=? e) && (e <? ts_ns t)
      then Ret (Some (ts_of_ns (ts_ns t - e))) (slept e (set_env (with_eintr rest) w))
      else Ret None (slept (ts_ns t) (set_env (with_eintr rest) w))
  | [] => Ret None (slept (ts_ns t) w)
  end.
Proof. unfold calm, nanosleep. intros ->. reflexivity. Qed.

Lemma sleep_again_waited n : forall t w,
  calm w -> (List.length (eintr (env w)) <= n)%nat -> 0 <= ts_ns t ->
  exists w', sleep_again n t w = Ret tt w' /\ waited (ts_ns t) w w'.
Proof.
  induction n as [ | n IH]; intros t w Hc Hlen Ht; simpl; unfold bind;
    rewrite (nanosleep_calm t w Hc);
    destruct (eintr (env w)) as [ | e rest] eqn:He; simpl in Hlen; try lia.
  - eexists. split; [reflexivity | apply waited_slept].
  - eexists. split; [reflexivity | apply waited_slept].
  - destruct (Z.leb_spec 0 e), (Z.ltb_spec e (ts_ns t)); simpl.
    + destruct (IH (ts_of_ns (ts_ns t - e)) (slept e (set_env (with_eintr rest) w)))
        as [w' [Hrun Hw]].
      * exact Hc.
      * simpl. lia.
      * rewrite ts_ns_of_ns. lia.
      * exists w'. split; [exact Hrun | ].
        rewrite ts_ns_of_ns in Hw.
        replace (ts_ns t) with (0 + e + (ts_ns t - e)) by lia.
        eapply waited_trans; [ | exact Hw].
        eapply waited_trans; [apply waited_eintr | apply waited_slept].
    + eexists. split; [reflexivity | ].
      replace (ts_ns t) with (0 + ts_ns t) by lia.
      eapply waited_trans; [apply waited_eintr | apply waited_slept].
    + eexists. split; [reflexivity | ].
      replace (ts_ns t) with (0 + ts_ns t) by lia.
      eapply waited_trans; [apply waited_eintr | apply waited_slept].
    + eexists. split; [reflexivity | ].
      replace (ts_ns t) with (0 + ts_ns t) by lia.
      eapply waited_trans; [apply waited_eintr | apply waited_slept].
Qed.

Lemma to_uint_small z : 0 <= z <= UINT_MAX -> to_uint z = z.
Proof. unfold to_uint, UINT_MAX. intros H. apply Z.mod_small. lia. Qed.

(** [sleep_quiet] asks [nanosleep] for exactly [msec] milliseconds. *)
Lemma sleep_quiet_timespec msec :
  0 <= msec <= UINT_MAX ->
  ts_ns {| ts_sec := msec / 1000;
           ts_nsec := to_uint (to_uint (msec - to_uint (msec / 1000 * 1000))
                               * 1000000) |} = ms msec.
Proof.
  intros H. unfold ts_ns, ms. simpl.
  pose proof (Z.div_mod msec 1000 ltac:(lia)) as Hdm.
  pose proof (Z.mod_pos_bound msec 1000 ltac:(lia)) as Hm.
  assert (H0 : 0 <= msec / 1000) by (apply Z.div_pos; lia).
  rewrite (to_uint_small (msec / 1000 * 1000)) by (unfold UINT_MAX in *; lia).
  replace (msec - msec / 1000 * 1000) with (msec mod 1000) by lia.
  rewrite (to_uint_small (msec mod 1000)) by (unfold UINT_MAX; lia).
  rewrite to_uint_small by (unfold UINT_MAX; lia).
  lia.
Qed.

Lemma sleep_quiet_waited msec w :
  calm w -> 0 <= msec <= UINT_MAX ->
  exists w', sleep_quiet msec w = Ret tt w' /\ waited (ms msec) w w'.
Proof.
  intros Hc H. unfold sleep_quiet.
  rewrite <- (sleep_quiet_timespec msec H).
  apply sleep_again_waited; [exact Hc | lia | ].
  rewrite sleep_quiet_timespec by exact H. unfold ms. lia.
Qed.

Lemma sleep_verbose_loop_waited fuel msec : forall sofar w,
  calm w -> 0 <= sofar <= msec -> msec <= UINT_MAX - ANIMATION_STEP ->
  (msec - sofar) / ANIMATION_STEP <= Z.of_nat fuel ->
  exists sofar' w',
    sleep_verbose_loop fuel msec sofar w = Ret sofar' w' /\
    sofar <= sofar' <= msec /\ msec - sofar' < ANIMATION_STEP /\
    waited (ms (sofar' - sofar)) w w'.
Proof.
  unfold UINT_MAX, ANIMATION_STEP.
  induction fuel as [ | fuel IH]; intros sofar w Hc Hs Hm Hf;
    cbn [sleep_verbose_loop]; unfold ANIMATION_STEP;
    rewrite (to_uint_small (sofar + 500)) by (unfold UINT_MAX; lia);
    destruct (Z.leb_spec (sofar + 500) msec) as [Hle | Hgt].
  - exfalso.
    assert (1 <= (msec - sofar) / 500) by (apply Z.div_le_lower_bound; lia).
    lia.
  - exists sofar, w. split; [reflexivity | ].
    split; [lia | split; [lia | ]].
    replace (sofar - sofar) with 0 by lia. apply waited_refl.
  - unfold bind at 1. rewrite stmt_calm by exact Hc.
    set (w1 := emit _ (set_g _ w)).
    assert (W1 : waited 0 w w1) by apply waited_progress.
    assert (C1 : calm w1) by exact Hc.
    unfold bind at 1. rewrite stmt_calm by exact C1. cbv beta.
    set (w2 := set_g _ w1).
    assert (W2 : waited 0 w1 w2) by apply waited_animation_step.
    assert (C2 : calm w2) by exact Hc.
    unfold bind at 1.
    destruct (sleep_quiet_waited 500 w2 C2 ltac:(unfold UINT_MAX; lia))
      as [w3 [Hrun W3]].
    unfold ANIMATION_STEP. rewrite Hrun.
    destruct (IH (sofar + 500) w3) as [sofar' [w' [Hloop [Hb [Hlt Hw]]]]].
    + exact (waited_calm _ _ _ W3 C2).
    + lia.
    + lia.
    + replace (msec - (sofar + 500)) with ((msec - sofar) + (-1) * 500) by lia.
      rewrite Z.div_add by lia. lia.
    + exists sofar', w'. split; [exact Hloop | ].
      split; [lia | split; [lia | ]].
      replace (ms (sofar' - sofar))
        with (0 + 0 + ms 500 + ms (sofar' - (sofar + 500))) by (unfold ms; lia).
      eapply waited_trans; [ | exact Hw].
      eapply waited_trans; [ | exact W3].
      eapply waited_trans; [exact W1 | exact W2].
  - exists sofar, w. split; [reflexivity | ].
    split; [lia | split; [lia | ]].
    replace (sofar - sofar) with 0 by lia. apply waited_refl.
Qed.

Lemma sleep_verbose_waited fuel msec w :
  calm w -> 0 <= msec <= UINT_MAX - ANIMATION_STEP ->
  msec / ANIMATION_STEP <= Z.of_nat fuel ->
  exists w', sleep_verbose fuel msec w = Ret tt w' /\ waited (ms msec) w w'.
Proof.
  intros Hc Hm Hf. unfold sleep_verbose, bind at 1, read_cfg.
  assert (Hu : 0 <= msec <= UINT_MAX) by (unfold ANIMATION_STEP in Hm; lia).
  destruct (quiet (cfg w)); [apply sleep_quiet_waited; assumption | ].
  destruct (sleep_verbose_loop_waited fuel msec 0 w Hc)
    as [sofar [w1 [Hloop [Hb [Hlt W1]]]]]; try lia.
  { rewrite Z.sub_0_r. exact Hf. }
  unfold bind at 1. rewrite Hloop. unfold bind at 1.
  assert (C1 : calm w1) by exact (waited_calm _ _ _ W1 Hc).
  rewrite (to_uint_small (msec - sofar)) by lia.
  destruct (sleep_quiet_waited (msec - sofar) w1 C1 ltac:(lia)) as [w2 [Hq W2]].
  rewrite Hq. unfold bind, read_g, printf.
  assert (C2 : calm w2) by exact (waited_calm _ _ _ W2 C1).
  rewrite stmt_calm by exact C2.
  eexists. split; [reflexivity | ].
  replace (ms msec) with (ms (sofar - 0) + ms (msec - sofar) + 0)
    by (unfold ms; lia).
  eapply waited_trans; [ | apply waited_printf].
  eapply waited_trans; [exact W1 | exact W2].
Qed.

(** ** The timed wait *)

Lemma to_uint_range z : 0 <= to_uint z <= UINT_MAX.
Proof.
  unfold to_uint, UINT_MAX.
  pose proof (Z.mod_pos_bound z 4294967296 ltac:(lia)). lia.
Qed.

(** With [msec = UINT_MAX] the test [sofar + ANIMATION_STEP <= msec] of the
    loop holds for every [sofar]: each tick of fuel is spent on one more
    half second. *)
Lemma sleep_verbose_loop_UINT_MAX fuel : forall sofar w,
  calm w ->
  exists w', sleep_verbose_loop fuel UINT_MAX sofar w = Running w' /\
             waited (ms (ANIMATION_STEP * Z.of_nat fuel)) w w'.
Proof.
  induction fuel as [ | fuel IH]; intros sofar w Hc; cbn [sleep_verbose_loop];
    destruct (Z.leb_spec (to_uint (sofar + ANIMATION_STEP)) UINT_MAX) as [_ | Hgt];
    try (pose proof (to_uint_range (sofar + ANIMATION_STEP)); lia).
  - exists w. split; [reflexivity | ]. apply waited_refl.
  - unfold bind at 1. rewrite stmt_calm by exact Hc.
    set (w1 := emit _ (set_g _ w)).
    assert (W1 : waited 0 w w1) by apply waited_progress.
    unfold bind at 1. rewrite stmt_calm by exact Hc. cbv beta.
    set (w2 := set_g _ w1).
    assert (W2 : waited 0 w1 w2) by apply waited_animation_step.
    assert (C2 : calm w2) by exact Hc.
    unfold bind at 1.
    destruct (sleep_quiet_waited ANIMATION_STEP w2 C2
                ltac:(unfold ANIMATION_STEP, UINT_MAX; lia)) as [w3 [Hrun W3]].
    rewrite Hrun.
    destruct (IH (to_uint (sofar + ANIMATION_STEP)) w3
                (waited_calm _ _ _ W3 C2)) as [w' [Hloop Hw]].
    exists w'. split; [exact Hloop | ].
    replace (ms (ANIMATION_STEP * Z.of_nat (S fuel)))
      with (0 + 0 + ms ANIMATION_STEP + ms (ANIMATION_STEP * Z.of_nat fuel))
      by (unfold ms; lia).
    eapply waited_trans; [ | exact Hw].
    eapply waited_trans; [ | exact W3].
    eapply waited_trans; [exact W1 | exact W2].
Qed.

Lemma sleep_verbose_UINT_MAX fuel w :
  calm w -> quiet (cfg w) = false ->
  exists w', sleep_verbose fuel UINT_MAX w = Running w' /\
             waited (ms (ANIMATION_STEP * Z.of_nat fuel)) w w'.
Proof.
  intros Hc Hq. unfold sleep_verbose, bind at 1, read_cfg. rewrite Hq.
  destruct (sleep_verbose_loop_UINT_MAX fuel 0 w Hc) as [w' [Hloop Hw]].
  exists w'. split; [ | exact Hw]. unfold bind. rewrite Hloop. reflexivity.
Qed.

(** C9 as stated fails at [msec = UINT_MAX] with the feedback on: after
    8589935 half-second ticks, more than [UINT_MAX] milliseconds, the wait
    is still in its loop, and it is so for every number of ticks. *)
Lemma sleep_verbose_UINT_MAX_never_returns :
  (exists w',
     sleep_verbose (Z.to_nat 8589935) UINT_MAX world0 = Running w' /\
     clock (dev w') = clock (dev world0) + ms 4294967500 /\
     ms UINT_MAX < ms 4294967500) /\
  (forall fuel, exists w', sleep_verbose fuel UINT_MAX world0 = Running w').
Proof.
  split.
  - destruct (sleep_verbose_UINT_MAX (Z.to_nat 8589935) world0)
      as [w' [Hrun Hw]]; try reflexivity.
    exists w'. split; [exact Hrun | ]. split.
    + rewrite (wt_dev _ _ _ Hw). rewrite Z2Nat.id by lia. reflexivity.
    + reflexivity.
  - intros fuel.
    destruct (sleep_verbose_UINT_MAX fuel world0) as [w' [Hrun _]];
      try reflexivity.
    exists w'. exact Hrun.
Qed.

(** ** What an observer of the trace sees *)

Lemma shutter_view_emit e w :
  shutter_view (history (emit e w))
  = shutter_view (history w) ++ observe (clock (dev w), e).
Proof.
  unfold shutter_view, history. simpl.
  rewrite flat_map_app. simpl. rewrite app_nil_r. reflexivity.
Qed.

Lemma calls_emit e w :
  calls (history (emit e w))
  = calls (history w) ++ match e with EvCall c _ => [c] | _ => [] end.
Proof.
  unfold calls, history. simpl.
  rewrite flat_map_app. simpl. rewrite app_nil_r. reflexivity.
Qed.

Lemma log_lines_emit e w :
  log_lines (history (emit e w))
  = log_lines (history w) ++ match e with
                             | EvLog _ _ _ _ _ _ _ => [e]
                             | _ => []
                             end.
Proof.
  unfold log_lines, history. simpl.
  rewrite flat_map_app. simpl. rewrite app_nil_r. reflexivity.
Qed.

Lemma history_set_dev f w : history (set_dev f w) = history w.
Proof. reflexivity. Qed.

Lemma history_set_g f w : history (set_g f w) = history w.
Proof. reflexivity. Qed.

Lemma history_set_env f w : history (set_env f w) = history w.
Proof. reflexivity. Qed.

Lemma silent_trace_unseen tr :
  Forall (fun te : Z * event => silent (snd te)) tr ->
  shutter_view (rev tr) = [] /\ calls (rev tr) = [] /\ log_lines (rev tr) = [].
Proof.
  unfold shutter_view, calls, log_lines.
  induction 1 as [ | [t e] tr He _ [IH1 [IH2 IH3]]]; [repeat split | ].
  simpl. rewrite !flat_map_app, IH1, IH2, IH3. simpl.
  destruct e; simpl in *; try contradiction; repeat split.
Qed.

(** A wait is invisible to the camera, to the sequencer and to the log. *)
Lemma waited_unseen ns w w' :
  waited ns w w' ->
  shutter_view (history w') = shutter_view (history w) /\
  calls (history w') = calls (history w) /\
  log_lines (history w') = log_lines (history w).
Proof.
  intros [_ _ _ _ [tr [Htr Hs]]].
  destruct (silent_trace_unseen tr Hs) as [H1 [H2 H3]].
  unfold history, shutter_view, calls, log_lines in *.
  rewrite Htr, rev_app_distr, !flat_map_app, H1, H2, H3, !app_nil_r.
  repeat split.
Qed.

Lemma waited_globals ns w w' :
  waited ns w w' ->
  exposing (g w') = exposing (g w) /\ exp_start (g w') = exp_start (g w) /\
  exp_end (g w') = exp_end (g w) /\ phd_fd (g w') = phd_fd (g w) /\
  verbose (g w') = verbose (g w).
Proof.
  intros H. pose proof (wt_g _ _ _ H) as E.
  repeat split.
  - exact (f_equal exposing E).
  - exact (f_equal exp_start E).
  - exact (f_equal exp_end E).
  - exact (f_equal phd_fd E).
  - exact (f_equal verbose E).
Qed.

Lemma waited_device ns w w' :
  waited ns w w' ->
  clock (dev w') = clock (dev w) + ns /\ cbits (dev w') = cbits (dev w) /\
  fd_open (dev w') = fd_open (dev w) /\ sock_open (dev w') = sock_open (dev w).
Proof. intros H. rewrite (wt_dev _ _ _ H). repeat split. Qed.

Lemma tv_us_now w : tv_us (now w) = clock (dev w) / 1000.
Proof.
  unfold tv_us, now. simpl.
  pose proof (Z.div_mod (clock (dev w)) 1000000000 ltac:(lia)) as H.
  rewrite H at 3.
  replace (1000000000 * (clock (dev w) / 1000000000) + clock (dev w) mod 1000000000)
    with (clock (dev w) mod 1000000000 + (clock (dev w) / 1000000000 * 1000000) * 1000)
    by lia.
  rewrite Z.div_add by lia. lia.
Qed.

Lemma bind_Ret {A B} (m : M A) (k : A -> M B) w a w' :
  m w = Ret a w' -> bind m k w = k a w'.
Proof. unfold bind. intros ->. reflexivity. Qed.

(** ** The exposure proper: stamp, wait, stamp, release *)

Lemma env_calm w w' :
  with_eintr [] (env w') = with_eintr [] (env w) -> calm w -> calm w'.
Proof.
  unfold calm. intros E Hc. pose proof (f_equal sigint E) as H. simpl in H.
  rewrite H. exact Hc.
Qed.

Lemma timed_exposure fuel w :
  calm w ->
  0 <= exp_time (cfg w) <= UINT_MAX - ANIMATION_STEP ->
  exp_time (cfg w) / ANIMATION_STEP <= Z.of_nat fuel ->
  exists w',
    (gettimeofday_exp_start ;;
     set_exposing true ;;
     t <- read_cfg exp_time ;;
     sleep_verbose fuel t ;;
     set_exposing false ;;
     gettimeofday_exp_end ;;
     shutter_release) w = Ret tt w' /\
    cfg w' = cfg w /\
    with_eintr [] (env w') = with_eintr [] (env w) /\
    clock (dev w') = clock (dev w) + ms (exp_time (cfg w)) /\
    cbits (dev w') = rts_mask 0 (cbits (dev w)) /\
    exposing (g w') = false /\
    exp_start (g w') = now w /\
    tv_us (exp_end (g w')) = tv_us (now w) + 1000 * exp_time (cfg w) /\
    shutter_view (history w')
      = shutter_view (history w)
        ++ [(clock (dev w), Start);
            (clock (dev w) + ms (exp_time (cfg w)), End);
            (clock (dev w) + ms (exp_time (cfg w)), Line Released)] /\
    calls (history w') = calls (history w) /\
    log_lines (history w') = log_lines (history w).
Proof.
  intros Hc Ht Hf.
  unfold gettimeofday_exp_start, set_exposing, gettimeofday_exp_end,
    shutter_release.
  rewrite (bind_Ret _ _ _ _ _ (stmt_calm _ w Hc)).
  set (w1 := emit (EvStart (now w)) (set_g (with_exp_start (now w)) w)).
  rewrite (bind_Ret _ _ _ _ _ (stmt_calm _ w1 Hc)).
  set (w2 := set_g (with_exposing true) w1).
  rewrite (bind_Ret (read_cfg exp_time) _ w2 _ w2 eq_refl).
  change (cfg w2) with (cfg w).
  destruct (sleep_verbose_waited fuel (exp_time (cfg w)) w2 Hc Ht Hf)
    as [w3 [Hrun W3]].
  rewrite (bind_Ret _ _ _ _ _ Hrun).
  pose proof (waited_calm _ _ _ W3 Hc) as C3.
  destruct (waited_globals _ _ _ W3) as (G1 & G2 & G3 & G4 & G5).
  destruct (waited_device _ _ _ W3) as (D1 & D2 & D3 & D4).
  destruct (waited_unseen _ _ _ W3) as (V1 & V2 & V3).
  rewrite (bind_Ret _ _ _ _ _ (stmt_calm _ w3 C3)).
  set (w4 := set_g (with_exposing false) w3).
  rewrite (bind_Ret _ _ _ _ _ (stmt_calm _ w4 C3)).
  set (w5 := emit (EvEnd (now w4)) (set_g (with_exp_end (now w4)) w4)).
  rewrite (set_rts_calm 0 w5 C3).
  eexists. split; [reflexivity | ].
  assert (Hclk : clock (dev w3) = clock (dev w) + ms (exp_time (cfg w)))
    by exact D1.
  repeat split.
  - exact (wt_cfg _ _ _ W3).
  - exact (wt_env _ _ _ W3).
  - exact Hclk.
  - simpl. rewrite D2. reflexivity.
  - simpl. exact G2.
  - change (tv_us (now w3) = tv_us (now w) + 1000 * exp_time (cfg w)).
    rewrite !tv_us_now, Hclk. unfold ms.
    replace (exp_time (cfg w) * 1000000) with (1000 * exp_time (cfg w) * 1000) by lia.
    rewrite Z.div_add by lia. reflexivity.
  - rewrite shutter_view_emit.
    change (shutter_view (history (set_dev _ w5))) with (shutter_view (history w5)).
    unfold w5. rewrite shutter_view_emit.
    change (shutter_view (history (set_g _ w4))) with (shutter_view (history w3)).
    rewrite V1. unfold w2.
    change (shutter_view (history (set_g _ w1))) with (shutter_view (history w1)).
    unfold w1. rewrite shutter_view_emit.
    change (shutter_view (history (set_g _ w))) with (shutter_view (history w)).
    rewrite <- !app_assoc. simpl.
    unfold observe. simpl. rewrite Hclk, line_rts_mask. reflexivity.
  - rewrite calls_emit. change (calls (history (set_dev _ w5))) with (calls (history w5)).
    unfold w5. rewrite calls_emit.
    change (calls (history (set_g _ w4))) with (calls (history w3)).
    rewrite V2. unfold w2.
    change (calls (history (set_g _ w1))) with (calls (history w1)).
    unfold w1. rewrite calls_emit. rewrite !app_nil_r. reflexivity.
  - rewrite log_lines_emit.
    change (log_lines (history (set_dev _ w5))) with (log_lines (history w5)).
    unfold w5. rewrite log_lines_emit.
    change (log_lines (history (set_g _ w4))) with (log_lines (history w3)).
    rewrite V3. unfold w2.
    change (log_lines (history (set_g _ w1))) with (log_lines (history w1)).
    unfold w1. rewrite log_lines_emit. rewrite !app_nil_r. reflexivity.
Qed.

Lemma int_to_uint z : 0 <= z <= INT_MAX -> to_uint z = z.
Proof. unfold INT_MAX. intros H. apply to_uint_small. unfold UINT_MAX. lia. Qed.

Lemma expose_method_2 fuel msec w :
  calm w -> mlu_method (cfg w) = 2 ->
  0 <= shut_min_pulse (cfg w) <= INT_MAX ->
  0 <= mlu_delay (cfg w) <= INT_MAX ->
  0 <= exp_time (cfg w) <= UINT_MAX - ANIMATION_STEP ->
  exp_time (cfg w) / ANIMATION_STEP <= Z.of_nat fuel ->
  let t0 := clock (dev w) in
  let t1 := t0 + ms (shut_min_pulse (cfg w)) in
  let t2 := t1 + ms (mlu_delay (cfg w)) in
  let t3 := t2 + ms (exp_time (cfg w)) in
  exists w',
    expose fuel msec w = Ret tt w' /\
    cfg w' = cfg w /\
    with_eintr [] (env w') = with_eintr [] (env w) /\
    clock (dev w') = t3 /\
    line_state w' = Released /\
    exposing (g w') = false /\
    tv_us (exp_start (g w')) = t2 / 1000 /\
    tv_us (exp_end (g w')) = t2 / 1000 + 1000 * exp_time (cfg w) /\
    shutter_view (history w')
      = shutter_view (history w)
        ++ [(t0, Line Engaged); (t1, Line Released); (t2, Line Engaged);
            (t2, Start); (t3, End); (t3, Line Released)] /\
    calls (history w') = calls (history w) /\
    log_lines (history w') = log_lines (history w).
Proof.
  intros Hc Hm Hp Hd Ht Hf t0 t1 t2 t3.
  unfold expose.
  rewrite (bind_Ret (read_cfg mlu_method) _ w _ w eq_refl), Hm.
  change (2 =? 1) with false. change (2 =? 2) with true. cbv iota.
  unfold shutter_fire at 1.
  rewrite (bind_Ret _ _ _ _ _ (set_rts_calm 1 w Hc)).
  set (w1 := emit _ (set_dev _ w)).
  rewrite (bind_Ret (read_cfg shut_min_pulse) _ w1 _ w1 eq_refl).
  change (cfg w1) with (cfg w). rewrite (int_to_uint _ Hp).
  destruct (sleep_quiet_waited (shut_min_pulse (cfg w)) w1 Hc) as [w2 [R2 W2]].
  { unfold INT_MAX, UINT_MAX in *. lia. }
  rewrite (bind_Ret _ _ _ _ _ R2).
  pose proof (waited_calm _ _ _ W2 Hc) as C2.
  destruct (waited_device _ _ _ W2) as (D2 & B2 & _ & _).
  destruct (waited_unseen _ _ _ W2) as (V2 & K2 & L2).
  unfold shutter_release at 1.
  rewrite (bind_Ret _ _ _ _ _ (set_rts_calm 0 w2 C2)).
  set (w3 := emit _ (set_dev _ w2)).
  rewrite (bind_Ret (read_cfg mlu_delay) _ w3 _ w3 eq_refl).
  change (cfg w3) with (cfg w2). rewrite (wt_cfg _ _ _ W2).
  change (cfg w1) with (cfg w). rewrite (int_to_uint _ Hd).
  destruct (sleep_quiet_waited (mlu_delay (cfg w)) w3 C2) as [w4 [R4 W4]].
  { unfold INT_MAX, UINT_MAX in *. lia. }
  rewrite (bind_Ret _ _ _ _ _ R4).
  pose proof (waited_calm _ _ _ W4 C2) as C4.
  destruct (waited_device _ _ _ W4) as (D4 & B4 & _ & _).
  destruct (waited_unseen _ _ _ W4) as (V4 & K4 & L4).
  assert (Hcfg4 : cfg w4 = cfg w).
  { rewrite (wt_cfg _ _ _ W4). change (cfg w3) with (cfg w2).
    rewrite (wt_cfg _ _ _ W2). reflexivity. }
  unfold shutter_fire at 1.
  rewrite (bind_Ret _ _ _ _ _ (set_rts_calm 1 w4 C4)).
  set (w5 := emit _ (set_dev _ w4)).
  assert (Hclk2 : clock (dev w2) = t1) by exact D2.
  assert (Hclk4 : clock (dev w4) = t2).
  { rewrite D4. change (clock (dev w3)) with (clock (dev w2)). rewrite Hclk2.
    reflexivity. }
  destruct (timed_exposure fuel w5 C4) as [w' H'].
  { change (cfg w5) with (cfg w4). rewrite Hcfg4. exact Ht. }
  { change (cfg w5) with (cfg w4). rewrite Hcfg4. exact Hf. }
  destruct H' as (R' & Q1 & Q2 & Q3 & Q4 & Q5 & Q6 & Q7 & Q8 & Q9 & Q10).
  change (cfg w5) with (cfg w4) in *. rewrite Hcfg4 in *.
  change (clock (dev w5)) with (clock (dev w4)) in *. rewrite Hclk4 in *.
  exists w'. split; [exact R' | ].
  split; [exact Q1 | ].
  split.
  { rewrite Q2. change (env w5) with (env w4). rewrite (wt_env _ _ _ W4).
    change (env w3) with (env w2). rewrite (wt_env _ _ _ W2). reflexivity. }
  split; [exact Q3 | ].
  split.
  { unfold line_state. rewrite Q4. apply line_rts_mask. }
  split; [exact Q5 | ].
  split.
  { rewrite Q6, tv_us_now. change (clock (dev w5)) with (clock (dev w4)).
    rewrite Hclk4. reflexivity. }
  split.
  { rewrite Q7, tv_us_now. change (clock (dev w5)) with (clock (dev w4)).
    rewrite Hclk4. reflexivity. }
  split.
  { rewrite Q8. unfold w5. rewrite shutter_view_emit.
    change (shutter_view (history (set_dev _ w4))) with (shutter_view (history w4)).
    rewrite V4. unfold w3. rewrite shutter_view_emit.
    change (shutter_view (history (set_dev _ w2))) with (shutter_view (history w2)).
    rewrite V2. unfold w1. rewrite shutter_view_emit.
    change (shutter_view (history (set_dev _ w))) with (shutter_view (history w)).
    unfold observe. simpl. rewrite !line_rts_mask, Hclk4, Hclk2.
    rewrite <- !app_assoc. reflexivity. }
  split.
  { rewrite Q9. unfold w5. rewrite calls_emit, app_nil_r.
    change (calls (history (set_dev _ w4))) with (calls (history w4)).
    rewrite K4. unfold w3. rewrite calls_emit, app_nil_r.
    change (calls (history (set_dev _ w2))) with (calls (history w2)).
    rewrite K2. unfold w1. rewrite calls_emit, app_nil_r. reflexivity. }
  rewrite Q10. unfold w5. rewrite log_lines_emit, app_nil_r.
  change (log_lines (history (set_dev _ w4))) with (log_lines (history w4)).
  rewrite L4. unfold w3. rewrite log_lines_emit, app_nil_r.
  change (log_lines (history (set_dev _ w2))) with (log_lines (history w2)).
  rewrite L2. unfold w1. rewrite log_lines_emit, app_nil_r. reflexivity.
Qed.

Lemma expose_method_1 fuel msec w :
  calm w -> mlu_method (cfg w) = 1 ->
  0 <= mlu_delay (cfg w) <= INT_MAX ->
  0 <= exp_time (cfg w) <= UINT_MAX - ANIMATION_STEP ->
  exp_time (cfg w) / ANIMATION_STEP <= Z.of_nat fuel ->
  let t0 := clock (dev w) in
  let t1 := t0 + ms (mlu_delay (cfg w)) in
  let t2 := t1 + ms (exp_time (cfg w)) in
  exists w',
    expose fuel msec w = Ret tt w' /\
    cfg w' = cfg w /\
    with_eintr [] (env w') = with_eintr [] (env w) /\
    clock (dev w') = t2 /\
    line_state w' = Released /\
    exposing (g w') = false /\
    tv_us (exp_start (g w')) = t1 / 1000 /\
    tv_us (exp_end (g w')) = t1 / 1000 + 1000 * exp_time (cfg w) /\
    shutter_view (history w')
      = shutter_view (history w)
        ++ [(t0, Line Engaged); (t1, Start); (t2, End); (t2, Line Released)] /\
    calls (history w') = calls (history w) /\
    log_lines (history w') = log_lines (history w).
Proof.
  intros Hc Hm Hd Ht Hf t0 t1 t2.
  unfold expose.
  rewrite (bind_Ret (read_cfg mlu_method) _ w _ w eq_refl), Hm.
  change (1 =? 1) with true. cbv iota.
  unfold shutter_fire at 1.
  rewrite (bind_Ret _ _ _ _ _ (set_rts_calm 1 w Hc)).
  set (w1 := emit _ (set_dev _ w)).
  rewrite (bind_Ret (read_cfg mlu_delay) _ w1 _ w1 eq_refl).
  change (cfg w1) with (cfg w). rewrite (int_to_uint _ Hd).
  destruct (sleep_quiet_waited (mlu_delay (cfg w)) w1 Hc) as [w2 [R2 W2]].
  { unfold INT_MAX, UINT_MAX in *. lia. }
  rewrite (bind_Ret _ _ _ _ _ R2).
  pose proof (waited_calm _ _ _ W2 Hc) as C2.
  destruct (waited_device _ _ _ W2) as (D2 & B2 & _ & _).
  destruct (waited_unseen _ _ _ W2) as (V2 & K2 & L2).
  assert (Hcfg2 : cfg w2 = cfg w) by exact (wt_cfg _ _ _ W2).
  assert (Hclk2 : clock (dev w2) = t1) by exact D2.
  destruct (timed_exposure fuel w2 C2) as [w' H'].
  { rewrite Hcfg2. exact Ht. }
  { rewrite Hcfg2. exact Hf. }
  destruct H' as (R' & Q1 & Q2 & Q3 & Q4 & Q5 & Q6 & Q7 & Q8 & Q9 & Q10).
  rewrite Hcfg2 in *. rewrite Hclk2 in *.
  exists w'. split; [exact R' | ].
  split; [exact Q1 | ].
  split.
  { rewrite Q2. exact (wt_env _ _ _ W2). }
  split; [exact Q3 | ].
  split.
  { unfold line_state. rewrite Q4. apply line_rts_mask. }
  split; [exact Q5 | ].
  split.
  { rewrite Q6, tv_us_now, Hclk2. reflexivity. }
  split.
  { rewrite Q7, tv_us_now, Hclk2. reflexivity. }
  split.
  { rewrite Q8, V2. unfold w1. rewrite shutter_view_emit.
    change (shutter_view (history (set_dev _ w))) with (shutter_view (history w)).
    unfold observe. simpl. rewrite !line_rts_mask.
    rewrite <- !app_assoc. reflexivity. }
  split.
  { rewrite Q9, K2. unfold w1. rewrite calls_emit, app_nil_r. reflexivity. }
  rewrite Q10, L2. unfold w1. rewrite log_lines_emit, app_nil_r. reflexivity.
Qed.

(** ** ExposureEngine: the two protocols *)

(** C2.  Under MLU method 2, with non-negative pulse and lockup delay and
    an exposure time that [main] can set, [expose] run to its end shows the
    camera exactly this: the line engaged at the call, released
    [shut_min_pulse] ms later, engaged again [mlu_delay] ms after that with
    the start stamp taken at that instant, and, [exp_time] ms later, the
    end stamp taken and the line released.  The two stamps are [exp_time]
    ms apart. *)
Theorem expose_two_pulse_protocol (fuel : nat) (msec : Z) (w : world) :
  calm w -> mlu_method (cfg w) = 2 ->
  0 <= shut_min_pulse (cfg w) <= INT_MAX ->
  0 <= mlu_delay (cfg w) <= INT_MAX ->
  0 <= exp_time (cfg w) <= UINT_MAX - ANIMATION_STEP ->
  exp_time (cfg w) / ANIMATION_STEP <= Z.of_nat fuel ->
  let t0 := clock (dev w) in
  let t1 := t0 + ms (shut_min_pulse (cfg w)) in
  let t2 := t1 + ms (mlu_delay (cfg w)) in
  let t3 := t2 + ms (exp_time (cfg w)) in
  exists w',
    expose fuel msec w = Ret tt w' /\
    shutter_view (history w')
      = shutter_view (history w)
        ++ [(t0, Line Engaged); (t1, Line Released); (t2, Line Engaged);
            (t2, Start); (t3, End); (t3, Line Released)] /\
    tv_us (exp_start (g w')) = t2 / 1000 /\
    tv_us (exp_end (g w')) - tv_us (exp_start (g w')) = 1000 * exp_time (cfg w) /\
    line_state w' = Released.
Proof.
  intros Hc Hm Hp Hd Ht Hf t0 t1 t2 t3.
  destruct (expose_method_2 fuel msec w Hc Hm Hp Hd Ht Hf)
    as (w' & R & _ & _ & _ & Hl & _ & Hs & He & Hv & _).
  exists w'. repeat split; try assumption.
  fold t0 t1 t2 in Hs, He. lia.
Qed.

Lemma expose_two_pulse_protocol_witness :
  mlu_method (cfg world0) = 2 /\
  exists w',
    expose 2 1000 world0 = Ret tt w' /\
    shutter_view (history w')
      = [(0, Line Engaged); (200000000, Line Released);
         (2200000000, Line Engaged); (2200000000, Start);
         (3200000000, End); (3200000000, Line Released)].
Proof.
  split; [reflexivity | ].
  destruct (expose_two_pulse_protocol 2 1000 world0) as (w' & R & V & _).
  - reflexivity.
  - reflexivity.
  - unfold INT_MAX. simpl. lia.
  - unfold INT_MAX. simpl. lia.
  - unfold UINT_MAX, ANIMATION_STEP. simpl. lia.
  - vm_compute. discriminate.
  - exists w'. split; [exact R | exact V].
Defined.

(** C3.  Under MLU method 1, with a non-negative lockup delay and an
    exposure time that [main] can set, [expose] run to its end engages the
    line once, at the call, and releases it once, [mlu_delay + exp_time] ms
    later; the start stamp is taken [mlu_delay] ms after the call and the
    end stamp at the release, so the two stamps are [exp_time] ms apart. *)
Theorem expose_one_pulse_protocol (fuel : nat) (msec : Z) (w : world) :
  calm w -> mlu_method (cfg w) = 1 ->
  0 <= mlu_delay (cfg w) <= INT_MAX ->
  0 <= exp_time (cfg w) <= UINT_MAX - ANIMATION_STEP ->
  exp_time (cfg w) / ANIMATION_STEP <= Z.of_nat fuel ->
  let t0 := clock (dev w) in
  let t1 := t0 + ms (mlu_delay (cfg w)) in
  let t2 := t0 + ms (mlu_delay (cfg w) + exp_time (cfg w)) in
  exists w',
    expose fuel msec w = Ret tt w' /\
    shutter_view (history w')
      = shutter_view (history w)
        ++ [(t0, Line Engaged); (t1, Start); (t2, End); (t2, Line Released)] /\
    tv_us (exp_start (g w')) = t1 / 1000 /\
    tv_us (exp_end (g w')) - tv_us (exp_start (g w')) = 1000 * exp_time (cfg w) /\
    line_state w' = Released.
Proof.
  intros Hc Hm Hd Ht Hf t0 t1 t2.
  destruct (expose_method_1 fuel msec w Hc Hm Hd Ht Hf)
    as (w' & R & _ & _ & _ & Hl & _ & Hs & He & Hv & _).
  exists w'. repeat split; try assumption.
  - rewrite Hv.
    replace (clock (dev w) + ms (mlu_delay (cfg w)) + ms (exp_time (cfg w)))
      with t2 by (unfold t2, t0, ms; lia).
    reflexivity.
  - fold t0 t1 in Hs, He. lia.
Qed.

Lemma expose_one_pulse_protocol_witness :
  mlu_method (cfg world1) = 1 /\
  exists w',
    expose 2 1000 world1 = Ret tt w' /\
    shutter_view (history w')
      = [(0, Line Engaged); (2000000000, Start);
         (3000000000, End); (3000000000, Line Released)].
Proof.
  split; [reflexivity | ].
  destruct (expose_one_pulse_protocol 2 1000 world1) as (w' & R & V & _).
  - reflexivity.
  - reflexivity.
  - unfold INT_MAX. simpl. lia.
  - unfold UINT_MAX, ANIMATION_STEP. simpl. lia.
  - vm_compute. discriminate.
  - exists w'. split; [exact R | exact V].
Defined.

(** ** ExposureSequencer: the order of the calls *)

Section Steady.
Variable J : world -> Prop.
Hypothesis J_steady : steady J.
Variable E : world -> Prop.

Let J_ambient := sd_ambient J J_steady.
Let J_env := am_env J J_ambient.

Lemma keep_set_rts on w : J w -> post (fun _ => J) E J J (set_rts on w).
Proof.
  intros H. unfold set_rts, ioctl_TIOCMGET. apply post_bind.
  apply (post_tick_then J J_env); auto.
  intros w1 H1. simpl. unfold ioctl_TIOCMSET.
  apply (post_stmt J J_env); auto.
  intros w2 H2. apply (sd_rts J J_steady), H2.
Qed.

Ltac keep L H :=
  apply post_bind;
  eapply post_mono; [apply (L J J_ambient E); exact H | simpl | auto | auto | auto].

Ltac keep_rts H :=
  apply post_bind;
  eapply post_mono; [apply keep_set_rts; exact H | simpl | auto | auto | auto].

Lemma keep_timed_exposure fuel w :
  J w ->
  post (fun _ => J) E J J
    ((gettimeofday_exp_start ;;
      set_exposing true ;;
      t <- read_cfg exp_time ;;
      sleep_verbose fuel t ;;
      set_exposing false ;;
      gettimeofday_exp_end ;;
      shutter_release) w).
Proof.
  intros H0.
  keep keep_gettimeofday_exp_start H0. intros _ w1 H1.
  keep keep_set_exposing H1. intros _ w2 H2.
  apply post_bind, post_read_cfg.
  keep keep_sleep_verbose H2. intros _ w3 H3.
  keep keep_set_exposing H3. intros _ w4 H4.
  keep keep_gettimeofday_exp_end H4. intros _ w5 H5.
  apply keep_set_rts, H5.
Qed.

Lemma keep_expose fuel msec w : J w -> post (fun _ => J) E J J (expose fuel msec w).
Proof.
  intros H0. unfold expose. apply post_bind, post_read_cfg.
  destruct (mlu_method (cfg w) =? 1); [ | destruct (mlu_method (cfg w) =? 2)].
  - unfold shutter_fire. keep_rts H0. intros _ w1 H1.
    apply post_bind, post_read_cfg.
    keep keep_sleep_quiet H1. intros _ w2 H2.
    apply keep_timed_exposure, H2.
  - unfold shutter_fire, shutter_release at 1. keep_rts H0. intros _ w1 H1.
    apply post_bind, post_read_cfg.
    keep keep_sleep_quiet H1. intros _ w2 H2.
    keep_rts H2. intros _ w3 H3.
    apply post_bind, post_read_cfg.
    keep keep_sleep_quiet H3. intros _ w4 H4.
    keep_rts H4. intros _ w5 H5.
    apply keep_timed_exposure, H5.
  - apply (keep_printf J J_ambient E), H0.
Qed.
End Steady.

Lemma called_steady l c : steady (called l c).
Proof.
  split; [split | ]; intros w x; try (intros [H1 H2]; split; assumption).
  - intros He [H1 H2]. split; [ | exact H2].
    rewrite calls_emit, H1. destruct x; simpl in He; try contradiction;
      apply app_nil_r.
  - intros [H1 H2]. split; [ | exact H2].
    rewrite calls_emit, app_nil_r. exact H1.
Qed.

Lemma call_called {A} m (body : M A) l c Q E S R w :
  called l c w ->
  (forall w', called (l ++ [m]) c w' -> post Q E S R (body w')) ->
  post Q E S R (call m body w).
Proof.
  intros [H1 H2] Hb. unfold call. apply post_bind. simpl. apply Hb.
  split; [ | exact H2]. rewrite calls_emit, H1. reflexivity.
Qed.

Lemma frame_called fuel i l c w :
  called l c w ->
  post (fun _ => called (l ++ frame_calls (dither_enabled c) i) c)
    anything anything anything (frame fuel i w).
Proof.
  intros Hw. pose proof Hw as [_ Hc].
  unfold frame. apply post_bind, post_read_cfg. apply post_bind.
  rewrite Hc. unfold frame_calls. fold (dither_enabled c).
  set (l1 := if negb (i =? 1) && dither_enabled c then [CallDither] else []).
  assert (Hd : post (fun _ : unit => called (l ++ l1) c) anything anything anything
                 ((if negb (i =? 1) && dither_enabled c
                   then bind (printf MsgDithering)
                          (fun _ => call CallDither phd_dither)
                   else ret tt) w)).
  { unfold l1. destruct (negb (i =? 1) && dither_enabled c).
    - apply post_bind.
      eapply post_mono;
        [ apply (keep_printf _ (sd_ambient _ (called_steady l c)) anything), Hw
        | simpl | | | ]; try (intros; exact I).
      intros _ w1 H1. apply (call_called _ _ l c); [exact H1 | ].
      intros w2 H2.
      eapply post_mono;
        [ apply (inv_phd_dither _ (sd_ambient _ (called_steady (l ++ [CallDither]) c))), H2
        | simpl | | | ]; try (intros; exact I). auto.
    - simpl. rewrite app_nil_r. exact Hw. }
  eapply post_mono; [exact Hd | simpl | | | ]; try (intros; exact I).
  intros _ w1 H1. apply post_bind, post_read_cfg. apply post_bind.
  eapply post_mono;
    [ apply (keep_stmt_passive _ (sd_ambient _ (called_steady (l ++ l1) c)) anything);
        [ intros w' H'; apply (am_g _ (sd_ambient _ (called_steady (l ++ l1) c))), H'
        | exact H1 ]
    | simpl | | | ]; try (intros; exact I).
  intros _ w2 H2. apply post_bind.
  set (l2 := if negb (i =? 1) then [CallPause] else []).
  assert (Hp : post (fun _ : unit => called ((l ++ l1) ++ l2) c)
                 anything anything anything
                 ((if negb (i =? 1)
                   then bind (read_cfg exp_pause)
                          (fun p => call CallPause (sleep_quiet p))
                   else ret tt) w2)).
  { unfold l2. destruct (negb (i =? 1)).
    - apply post_bind, post_read_cfg.
      apply (call_called _ _ (l ++ l1) c); [exact H2 | ]. intros w3 H3.
      eapply post_mono;
        [ apply (keep_sleep_quiet _ (sd_ambient _ (called_steady ((l ++ l1) ++ [CallPause]) c)) anything), H3
        | simpl | | | ]; try (intros; exact I). auto.
    - simpl. rewrite app_nil_r. exact H2. }
  eapply post_mono; [exact Hp | simpl | | | ]; try (intros; exact I).
  intros _ w3 H3. apply post_bind, post_read_cfg. apply post_bind.
  apply (call_called _ _ ((l ++ l1) ++ l2) c); [exact H3 | ]. intros w4 H4.
  eapply post_mono;
    [ apply (keep_expose _ (called_steady (((l ++ l1) ++ l2) ++ [CallExpose]) c) anything), H4
    | simpl | | | ]; try (intros; exact I).
  intros _ w5 H5.
  apply (call_called _ _ (((l ++ l1) ++ l2) ++ [CallExpose]) c); [exact H5 | ].
  intros w6 H6.
  eapply post_mono;
    [ apply (keep_log_exposure _ (sd_ambient _ (called_steady ((((l ++ l1) ++ l2) ++ [CallExpose]) ++ [CallLog]) c)) anything), H6
    | simpl | | | ]; try (intros; exact I).
  intros _ w7 H7.
  replace (l ++ l1 ++ l2 ++ [CallExpose; CallLog])
    with ((((l ++ l1) ++ l2) ++ [CallExpose]) ++ [CallLog]); [exact H7 | ].
  rewrite <- !app_assoc. reflexivity.
Qed.

Lemma main_loop_called fuel c turns : forall i l w,
  exp_count c < UINT_MAX -> 1 <= i <= exp_count c + 1 ->
  called l c w ->
  post (fun _ => called (l ++ schedule (dither_enabled c) i
                                (Z.to_nat (exp_count c + 1 - i))) c)
    anything anything anything (main_loop fuel turns i w).
Proof.
  induction turns as [ | turns IH]; intros i l w Hn Hi Hw;
    pose proof Hw as [_ Hc]; cbn [main_loop];
    apply post_bind, post_read_cfg; rewrite Hc;
    destruct (Z.leb_spec i (exp_count c)) as [Hle | Hgt]; try exact I.
  - replace (exp_count c + 1 - i) with 0 by lia.
    simpl. rewrite app_nil_r. exact Hw.
  - apply post_bind.
    eapply post_mono; [apply (frame_called fuel i l c w Hw) | simpl | | | ];
      try (intros; exact I).
    intros _ w1 H1.
    replace (Z.to_nat (exp_count c + 1 - i))
      with (S (Z.to_nat (exp_count c + 1 - (i + 1)))) by lia.
    cbn [schedule]. rewrite app_assoc.
    rewrite (to_uint_small (i + 1)) by lia.
    apply IH; [exact Hn | lia | exact H1].
  - replace (exp_count c + 1 - i) with 0 by lia.
    simpl. rewrite app_nil_r. exact Hw.
Qed.

Lemma main_called fuel c l w :
  1 <= exp_count c < UINT_MAX -> called l c w ->
  post (fun _ => called (l ++ schedule (dither_enabled c) 1
                                (Z.to_nat (exp_count c))) c)
    anything anything anything (main fuel w).
Proof.
  intros Hn Hw. unfold main. apply post_bind. unfold shutter_release.
  eapply post_mono;
    [ apply (keep_set_rts _ (called_steady l c) anything), Hw | simpl | | | ];
    try (intros; exact I).
  intros _ w1 H1. apply post_bind.
  eapply post_mono;
    [ apply (inv_phd_connect _ (sd_ambient _ (called_steady l c))), H1
    | simpl | | | ]; try (intros; exact I).
  intros _ w2 H2. apply post_bind.
  eapply post_mono;
    [ apply (main_loop_called fuel c fuel 1 l w2); [lia | lia | exact H2]
    | simpl | | | ]; try (intros; exact I).
  intros _ w3 H3. apply post_bind.
  replace (exp_count c + 1 - 1) with (exp_count c) in H3 by lia.
  eapply post_mono;
    [ apply (inv_phd_disconnect _
               (sd_ambient _ (called_steady
                 (l ++ schedule (dither_enabled c) 1 (Z.to_nat (exp_count c))) c))),
        H3
    | simpl | | | ]; try (intros; exact I).
  auto.
Qed.

Lemma schedule_dither_frames k : forall i,
  2 <= i -> i + Z.of_nat k <= UINT_MAX + 1 ->
  schedule true i k = List.concat (repeat dither_frame k).
Proof.
  induction k as [ | k IH]; intros i Hi Hk; [reflexivity | ].
  cbn [schedule repeat List.concat]. unfold frame_calls.
  destruct (Z.eqb_spec i 1) as [E | _]; [lia | ].
  destruct k as [ | k]; [reflexivity | ].
  rewrite (to_uint_small (i + 1)) by lia.
  rewrite IH by lia. reflexivity.
Qed.

Lemma count_dither_frames k :
  count_calls CallDither (List.concat (repeat dither_frame k)) = k.
Proof.
  unfold count_calls. induction k as [ | k IH]; [reflexivity | ].
  cbn [repeat List.concat]. rewrite filter_app, length_app, IH. reflexivity.
Qed.

(** The schedule of a run of [n] frames with dither enabled. *)
Lemma schedule_with_dither n :
  (1 <= n)%nat -> Z.of_nat n < UINT_MAX ->
  schedule true 1 n
  = [CallExpose; CallLog] ++ List.concat (repeat dither_frame (n - 1)).
Proof.
  intros H1 Hn. destruct n as [ | k]; [lia | ].
  cbn [schedule]. change (to_uint (1 + 1)) with 2.
  rewrite schedule_dither_frames by lia.
  replace (S k - 1)%nat with k by lia. reflexivity.
Qed.

(** ** Runs that nothing disturbs complete *)

Lemma benign_calm w : benign w -> calm w.
Proof. intros H. exact (f_equal sigint H). Qed.

Lemma benign_env w w' :
  with_eintr [] (env w') = with_eintr [] (env w) -> benign w -> benign w'.
Proof. unfold benign. intros E H. rewrite E. exact H. Qed.

Lemma benign_waited ns w w' : waited ns w w' -> benign w -> benign w'.
Proof. intros H. apply benign_env, (wt_env _ _ _ H). Qed.

Lemma phd_dither_benign w :
  benign w -> 0 <= phd_dither_size (cfg w) <= 4 ->
  exists b,
    nth_error phd_cmds (Z.to_nat (phd_dither_size (cfg w))) = Some b /\
    phd_dither w = Ret tt (emit EvRead (emit (EvWrite b) w)).
Proof.
  intros Hb Hs. pose proof (benign_calm w Hb) as Hc.
  pose proof (f_equal io_rets Hb) as Hio. simpl in Hio.
  assert (Hnth : exists b,
            nth_error phd_cmds (Z.to_nat (phd_dither_size (cfg w))) = Some b).
  { assert (Hcase : phd_dither_size (cfg w) = 0 \/ phd_dither_size (cfg w) = 1 \/
                    phd_dither_size (cfg w) = 2 \/ phd_dither_size (cfg w) = 3 \/
                    phd_dither_size (cfg w) = 4) by lia.
    destruct Hcase as [E | [E | [E | [E | E]]]]; rewrite E; simpl; eauto. }
  destruct Hnth as [b Hnth]. exists b. split; [exact Hnth | ].
  unfold phd_dither.
  rewrite (bind_Ret (read_cfg phd_dither_size) _ w _ w eq_refl).
  assert (Hload : load_phd_cmd (phd_dither_size (cfg w)) w = Ret b w)
    by (unfold load_phd_cmd; rewrite Hnth; reflexivity).
  rewrite (bind_Ret _ _ _ _ _ Hload).
  assert (Hw : write_byte b w = Ret 1 (emit (EvWrite b) w)).
  { unfold write_byte. rewrite (bind_Ret _ _ _ _ _ (tick_calm w Hc)).
    unfold bind, syscall_ret. rewrite Hio. reflexivity. }
  rewrite (bind_Ret _ _ _ _ _ Hw). change (negb (1 =? 1)) with false. cbv iota.
  assert (Hr : read_byte (emit (EvWrite b) w)
               = Ret 1 (emit EvRead (emit (EvWrite b) w))).
  { unfold read_byte.
    rewrite (bind_Ret _ _ _ _ _ (tick_calm (emit (EvWrite b) w) Hc)).
    unfold bind, syscall_ret. simpl. rewrite Hio. reflexivity. }
  rewrite (bind_Ret _ _ _ _ _ Hr). reflexivity.
Qed.

Lemma expose_benign fuel msec w :
  benign w -> valid_config (cfg w) ->
  exp_time (cfg w) / ANIMATION_STEP <= Z.of_nat fuel ->
  exists w', expose fuel msec w = Ret tt w' /\ cfg w' = cfg w /\ benign w'.
Proof.
  intros Hb [Hn Ht Hp Hd Hs] Hf. pose proof (benign_calm w Hb) as Hc.
  destruct (Z.eqb_spec (mlu_method (cfg w)) 1) as [E1 | N1];
    [ | destruct (Z.eqb_spec (mlu_method (cfg w)) 2) as [E2 | N2]].
  - destruct (expose_method_1 fuel msec w Hc E1 Hd Ht Hf)
      as (w' & R & C & En & _).
    exists w'. split; [exact R | ]. split; [exact C | ].
    exact (benign_env _ _ En Hb).
  - destruct (expose_method_2 fuel msec w Hc E2 Hs Hd Ht Hf)
      as (w' & R & C & En & _).
    exists w'. split; [exact R | ]. split; [exact C | ].
    exact (benign_env _ _ En Hb).
  - exists (emit (EvPrintf (MsgUnknownMLU (mlu_method (cfg w)))) w).
    split; [ | split; [reflexivity | exact Hb]].
    unfold expose. rewrite (bind_Ret (read_cfg mlu_method) _ w _ w eq_refl).
    destruct (Z.eqb_spec (mlu_method (cfg w)) 1); [contradiction | ].
    destruct (Z.eqb_spec (mlu_method (cfg w)) 2); [contradiction | ].
    unfold printf. apply stmt_calm, Hc.
Qed.

Lemma log_exposure_calm w :
  calm w ->
  exists w', log_exposure w = Ret tt w' /\ cfg w' = cfg w /\ env w' = env w /\
             g w' = g w /\ dev w' = dev w.
Proof.
  intros Hc. unfold log_exposure. rewrite (stmt_calm _ w Hc).
  eexists. split; [reflexivity | ].
  destruct (log_target (cfg w)); [destruct (fopen_ok (env w)) | ];
    repeat split.
Qed.

Lemma call_eq {A} c (m : M A) w :
  call c m w = m (emit (EvCall c (line_state w)) w).
Proof. reflexivity. Qed.

Lemma bind_call {A B} c (m : M A) (k : A -> M B) w :
  bind (call c m) k w = bind m k (emit (EvCall c (line_state w)) w).
Proof. reflexivity. Qed.

Lemma frame_benign fuel i w :
  benign w -> valid_config (cfg w) -> 0 <= phd_dither_size (cfg w) <= 4 ->
  exp_time (cfg w) / ANIMATION_STEP <= Z.of_nat fuel ->
  exists w', frame fuel i w = Ret tt w' /\ cfg w' = cfg w /\ benign w'.
Proof.
  intros Hb Hv Hs Hf. pose proof (benign_calm w Hb) as Hc.
  unfold frame.
  rewrite (bind_Ret (read_cfg phd_dither_size) _ w _ w eq_refl).
  assert (Hd : exists w1,
            (if negb (i =? 1) && negb (phd_dither_size (cfg w) =? 0)
             then bind (printf MsgDithering) (fun _ => call CallDither phd_dither)
             else ret tt) w = Ret tt w1 /\ cfg w1 = cfg w /\ benign w1).
  { destruct (negb (i =? 1) && negb (phd_dither_size (cfg w) =? 0)).
    - unfold printf. rewrite (bind_Ret _ _ _ _ _ (stmt_calm _ w Hc)).
      unfold call.
      rewrite (bind_Ret (fun w0 => Ret tt (emit (EvCall CallDither (line_state w0)) w0))
                 _ _ _ _ eq_refl).
      set (w0 := emit _ (emit _ w)).
      destruct (phd_dither_benign w0 Hb Hs) as [b [_ R]].
      rewrite R. eexists. split; [reflexivity | ].
      split; [reflexivity | exact Hb].
    - exists w. repeat split. exact Hb. }
  destruct Hd as (w1 & R1 & C1 & B1).
  rewrite (bind_Ret _ _ _ _ _ R1).
  rewrite (bind_Ret (read_cfg exp_count) _ w1 _ w1 eq_refl).
  rewrite (bind_Ret _ _ _ _ _ (stmt_calm _ w1 (benign_calm _ B1))).
  set (w2 := set_g _ w1).
  assert (B2 : benign w2) by exact B1.
  assert (C2 : cfg w2 = cfg w) by exact C1.
  assert (Hp : exists w3,
            (if negb (i =? 1)
             then bind (read_cfg exp_pause) (fun p => call CallPause (sleep_quiet p))
             else ret tt) w2 = Ret tt w3 /\ cfg w3 = cfg w /\ benign w3).
  { destruct (negb (i =? 1)).
    - rewrite (bind_Ret (read_cfg exp_pause) _ w2 _ w2 eq_refl).
      unfold call.
      rewrite (bind_Ret (fun w0 => Ret tt (emit (EvCall CallPause (line_state w0)) w0))
                 _ _ _ _ eq_refl).
      set (w0 := emit _ w2).
      destruct (sleep_quiet_waited (exp_pause (cfg w2)) w0 (benign_calm _ B2))
        as [w3 [R3 W3]].
      { rewrite C2. exact (vc_pause _ Hv). }
      exists w3. split; [exact R3 | ].
      split; [rewrite (wt_cfg _ _ _ W3); exact C2 | ].
      exact (benign_waited _ _ _ W3 B2).
    - exists w2. repeat split; assumption. }
  destruct Hp as (w3 & R3 & C3 & B3).
  rewrite (bind_Ret _ _ _ _ _ R3).
  rewrite (bind_Ret (read_cfg exp_time) _ w3 _ w3 eq_refl).
  rewrite bind_call.
  set (w4 := emit _ w3).
  destruct (expose_benign fuel (exp_time (cfg w3)) w4) as (w5 & R5 & C5 & B5).
  { exact B3. }
  { change (cfg w4) with (cfg w3). rewrite C3. exact Hv. }
  { change (cfg w4) with (cfg w3). rewrite C3. exact Hf. }
  rewrite (bind_Ret _ _ _ _ _ R5).
  rewrite call_eq.
  set (w6 := emit _ w5).
  destruct (log_exposure_calm w6 (benign_calm _ B5)) as (w7 & R7 & C7 & E7 & _).
  exists w7. split; [exact R7 | ].
  split.
  - rewrite C7. change (cfg w6) with (cfg w5). rewrite C5. exact C3.
  - unfold benign. rewrite E7. exact B5.
Qed.

Lemma main_loop_benign fuel turns : forall i w,
  benign w -> valid_config (cfg w) -> 0 <= phd_dither_size (cfg w) <= 4 ->
  exp_time (cfg w) / ANIMATION_STEP <= Z.of_nat fuel ->
  1 <= i <= exp_count (cfg w) + 1 ->
  exp_count (cfg w) + 1 - i <= Z.of_nat turns ->
  exists w', main_loop fuel turns i w = Ret tt w' /\ cfg w' = cfg w /\ benign w'.
Proof.
  induction turns as [ | turns IH]; intros i w Hb Hv Hs Hf Hi Ht;
    cbn [main_loop];
    rewrite (bind_Ret (read_cfg exp_count) _ w _ w eq_refl);
    destruct (Z.leb_spec i (exp_count (cfg w))) as [Hle | Hgt];
    try lia; try (exists w; repeat split; assumption).
  destruct (frame_benign fuel i w Hb Hv Hs Hf) as (w1 & R1 & C1 & B1).
  rewrite (bind_Ret _ _ _ _ _ R1).
  pose proof (vc_count _ Hv) as Hn.
  rewrite (to_uint_small (i + 1)) by lia.
  destruct (IH (i + 1) w1) as (w2 & R2 & C2 & B2);
    try rewrite C1; try assumption; try lia.
  exists w2. split; [exact R2 | ]. split; [congruence | exact B2].
Qed.

Lemma phd_connect_benign w :
  benign w ->
  exists w', phd_connect w = Ret tt w' /\ cfg w' = cfg w /\ benign w'.
Proof.
  intros Hb. pose proof (benign_calm w Hb) as Hc.
  pose proof (f_equal socket_ok Hb) as H1.
  pose proof (f_equal resolve_ok Hb) as H2.
  pose proof (f_equal connect_ok Hb) as H3. simpl in H1, H2, H3.
  unfold phd_connect.
  rewrite (bind_Ret (read_cfg phd_dither_size) _ w _ w eq_refl).
  destruct (phd_dither_size (cfg w) =? 0).
  { exists w. repeat split. exact Hb. }
  assert (Hs : socket_call w
               = Ret SOCK_FD (emit EvSocket (set_dev (with_sock_open true) w))).
  { unfold socket_call. rewrite (bind_Ret _ _ _ _ _ (tick_calm w Hc)).
    rewrite H1. reflexivity. }
  rewrite (bind_Ret _ _ _ _ _ Hs).
  set (w1 := emit _ _).
  rewrite (bind_Ret (fun w0 => Ret tt (set_g (with_phd_fd SOCK_FD) w0))
             _ w1 _ _ eq_refl).
  set (w2 := set_g _ w1). change (SOCK_FD =? -1) with false. cbv iota.
  assert (Hg : gethostbyname w2 = Ret true w2).
  { unfold gethostbyname. rewrite (bind_Ret _ _ _ _ _ (tick_calm w2 Hc)).
    change (resolve_ok (env w2)) with (resolve_ok (env w)). rewrite H2.
    reflexivity. }
  rewrite (bind_Ret _ _ _ _ _ Hg). cbv iota. change (negb true) with false.
  cbv iota.
  assert (Hk : connect_call w2 = Ret 0 (emit EvConnect w2)).
  { unfold connect_call. rewrite (bind_Ret _ _ _ _ _ (tick_calm w2 Hc)).
    change (connect_ok (env w2)) with (connect_ok (env w)). rewrite H3.
    reflexivity. }
  rewrite (bind_Ret _ _ _ _ _ Hk). change (0 =? -1) with false. cbv iota.
  eexists. split; [reflexivity | ]. split; [reflexivity | exact Hb].
Qed.

Lemma main_benign fuel w :
  benign w -> valid_config (cfg w) -> 0 <= phd_dither_size (cfg w) <= 4 ->
  exp_time (cfg w) / ANIMATION_STEP <= Z.of_nat fuel ->
  exp_count (cfg w) <= Z.of_nat fuel ->
  exists w', main fuel w = Ret 0 w'.
Proof.
  intros Hb Hv Hs Hf Hn. pose proof (benign_calm w Hb) as Hc.
  unfold main, shutter_release.
  rewrite (bind_Ret _ _ _ _ _ (set_rts_calm 0 w Hc)).
  set (w1 := emit _ _).
  destruct (phd_connect_benign w1 Hb) as (w2 & R2 & C2 & B2).
  rewrite (bind_Ret _ _ _ _ _ R2).
  change (cfg w1) with (cfg w) in C2.
  destruct (main_loop_benign fuel fuel 1 w2) as (w3 & R3 & C3 & B3);
    try rewrite C2; try assumption; try lia.
  { pose proof (vc_count _ Hv). lia. }
  rewrite (bind_Ret _ _ _ _ _ R3).
  assert (Hd : exists w4, phd_disconnect w3 = Ret tt w4).
  { unfold phd_disconnect.
    rewrite (bind_Ret (read_g phd_fd) _ w3 _ w3 eq_refl).
    destruct (phd_fd (g w3) =? -1).
    - eexists. reflexivity.
    - unfold close. rewrite (stmt_calm _ w3 (benign_calm _ B3)).
      eexists. reflexivity. }
  destruct Hd as [w4 R4]. rewrite (bind_Ret _ _ _ _ _ R4).
  exists w4. reflexivity.
Qed.

(** With [exp_count = UINT_MAX] the test [i <= exp_count] of the loop
    holds for every value of the counter. *)
Lemma main_loop_UINT_MAX fuel c turns : forall i l w,
  exp_count c = UINT_MAX -> 0 <= i <= UINT_MAX -> called l c w ->
  post (fun _ _ => False) anything anything anything (main_loop fuel turns i w).
Proof.
  induction turns as [ | turns IH]; intros i l w Hn Hi Hw;
    pose proof Hw as [_ Hc]; cbn [main_loop];
    apply post_bind, post_read_cfg; rewrite Hc, Hn;
    destruct (Z.leb_spec i UINT_MAX) as [_ | Hgt]; try lia; try exact I.
  apply post_bind.
  eapply post_mono; [apply (frame_called fuel i l c w Hw) | simpl | | | ];
    try (intros; exact I).
  intros _ w1 H1.
  apply (IH _ _ w1 Hn (to_uint_range (i + 1)) H1).
Qed.

Lemma main_UINT_MAX fuel c l w :
  exp_count c = UINT_MAX -> called l c w ->
  post (fun _ _ => False) anything anything anything (main fuel w).
Proof.
  intros Hn Hw. unfold main. apply post_bind. unfold shutter_release.
  eapply post_mono;
    [ apply (keep_set_rts _ (called_steady l c) anything), Hw | simpl | | | ];
    try (intros; exact I).
  intros _ w1 H1. apply post_bind.
  eapply post_mono;
    [ apply (inv_phd_connect _ (sd_ambient _ (called_steady l c))), H1
    | simpl | | | ]; try (intros; exact I).
  intros _ w2 H2. apply post_bind.
  eapply post_mono;
    [ apply (main_loop_UINT_MAX fuel c fuel 1 l w2 Hn); [unfold UINT_MAX; lia | exact H2]
    | simpl | | | ]; try (intros; exact I).
  intros _ w3 [].
Qed.

(** C7, as the code has it.  For every run with dither enabled and
    [exp_count = n], [1 <= n < UINT_MAX], that [main] carries to its end,
    the calls of the loop body are: exposure and logging for frame 1, then
    for each of the [n - 1] further frames dither, pause, exposure and
    logging, in this order; dither is called [n - 1] times.  Such runs
    exist: with nothing going wrong outside, a configuration within range
    and a dither amount of at most 4, [main] returns 0. *)
Theorem dither_then_pause_then_exposure (fuel : nat) (w : world) :
  phd_dither_size (cfg w) <> 0 ->
  1 <= exp_count (cfg w) < UINT_MAX ->
  let n := Z.to_nat (exp_count (cfg w)) in
  let sched :=
    [CallExpose; CallLog] ++ List.concat (repeat dither_frame (n - 1)) in
  (forall r w', main fuel w = Ret r w' ->
     calls (history w') = calls (history w) ++ sched) /\
  count_calls CallDither sched = (n - 1)%nat /\
  (benign w -> valid_config (cfg w) -> 0 <= phd_dither_size (cfg w) <= 4 ->
   exp_time (cfg w) / ANIMATION_STEP <= Z.of_nat fuel ->
   exp_count (cfg w) <= Z.of_nat fuel ->
   exists w', main fuel w = Ret 0 w').
Proof.
  intros Hd Hn n sched. split; [ | split].
  - intros r w' Hrun.
    pose proof (main_called fuel (cfg w) (calls (history w)) w Hn
                  (conj eq_refl eq_refl)) as H.
    rewrite Hrun in H. destruct H as [H _]. rewrite H. f_equal.
    assert (Hen : dither_enabled (cfg w) = true).
    { unfold dither_enabled.
      destruct (Z.eqb_spec (phd_dither_size (cfg w)) 0); [contradiction | ].
      reflexivity. }
    rewrite Hen. apply schedule_with_dither; unfold n; lia.
  - unfold sched, count_calls. cbn [app filter callee_eqb].
    apply count_dither_frames.
  - intros Hb Hv Hs Hf Ht. apply main_benign; assumption.
Qed.

Lemma dither_then_pause_then_exposure_witness :
  phd_dither_size (cfg world3) <> 0 /\
  exists w',
    main 3 world3 = Ret 0 w' /\
    calls (history w')
    = [CallExpose; CallLog;
       CallDither; CallPause; CallExpose; CallLog;
       CallDither; CallPause; CallExpose; CallLog].
Proof.
  split; [discriminate | ].
  destruct (dither_then_pause_then_exposure 3 world3) as (Hcalls & _ & Hruns).
  - discriminate.
  - unfold UINT_MAX. simpl. lia.
  - destruct Hruns as [w' Hrun].
    + reflexivity.
    + split; unfold UINT_MAX, INT_MAX, ANIMATION_STEP; simpl; lia.
    + simpl. lia.
    + vm_compute. discriminate.
    + simpl. lia.
    + exists w'. split; [exact Hrun | ]. exact (Hcalls 0 w' Hrun).
Defined.

(** C7 as stated fails at [exp_count = UINT_MAX], which option [-c -1]
    sets: the loop test then holds for every value of the counter, so no
    run ends, whatever the fuel, and the calls of dither go on after the
    [n - 1] of the claim. *)
Lemma run_of_UINT_MAX_frames_never_ends :
  exp_count (cfg world_max) = UINT_MAX /\
  (forall fuel,
     post (fun _ _ => False) anything anything anything (main fuel world_max)).
Proof.
  split; [reflexivity | ]. intros fuel.
  apply (main_UINT_MAX fuel (cfg world_max) [] world_max);
    [reflexivity | split; reflexivity].
Qed.

(** ** An unknown MLU method *)

(** C5 as stated fails: in a labelled run of two frames with method 3,
    every frame hands a record to the log, stamped with the zero time
    stamps the globals start with, while the line is never engaged. *)
Lemma unknown_mlu_method_is_logged :
  exists w',
    ssc 2 world_bad = Exit 0 w' /\
    log_lines (history w')
    = [log_line "M31" zero_tv zero_tv; log_line "M31" zero_tv zero_tv] /\
    shutter_view (history w') = [(0, Line Released)].
Proof.
  exists (outcome_world (ssc 2 world_bad)).
  split; [vm_compute; reflexivity | ].
  split; vm_compute; reflexivity.
Qed.

(** ** Termination by SIGINT *)

Lemma exposure_flag_wait_stable b s : wait_stable (exposure_flag b s).
Proof.
  split; [intros w x H | intros w x H | intros w x H | intros w x _ H];
    exact H.
Qed.

(** C6 as stated fails between the statements that take a time stamp and
    those that set or clear the flag.  In a labelled one-pulse run: a
    SIGINT that arrives once the start stamp is taken, before [exposing] is
    set, ends the run with the start stamped and nothing logged; one that
    arrives once the timed wait is over and the end stamp taken, while the
    line is being released, ends it with a complete exposure and nothing
    logged. *)
Lemma sigint_after_stamp_logs_nothing :
  (exists w',
     ssc 2 (world_sigint 7) = Exit 0 w' /\
     exp_start (g w') = {| tv_sec := 2; tv_usec := 0 |} /\
     shutter_view (history w')
     = [(0, Line Released); (0, Line Engaged); (2000000000, Start);
        (2000000000, Line Released)] /\
     log_lines (history w') = []) /\
  (exists w',
     ssc 2 (world_sigint 12) = Exit 0 w' /\
     shutter_view (history w')
     = [(0, Line Released); (0, Line Engaged); (2000000000, Start);
        (3000000000, End); (3000000000, Line Released)] /\
     log_lines (history w') = []).
Proof.
  split.
  - exists (outcome_world (ssc 2 (world_sigint 7))).
    split; [vm_compute; reflexivity | ].
    split; [vm_compute; reflexivity | ].
    split; vm_compute; reflexivity.
  - exists (outcome_world (ssc 2 (world_sigint 12))).
    split; [vm_compute; reflexivity | ].
    split; vm_compute; reflexivity.
Qed.

(** * The rest of the program: properties *)

(** ** Command line *)

Lemma to_uint_of_int (x : Z) :
  INT_MIN <= x <= INT_MAX ->
  to_uint x = if x <? 0 then x + 4294967296 else x.
Proof.
  unfold INT_MIN, INT_MAX, to_uint. intros H.
  destruct (Z.ltb_spec x 0).
  - symmetry. apply (Z.mod_unique _ _ (-1)); lia.
  - apply Z.mod_small. lia.
Qed.

Lemma to_int_range (x : Z) : INT_MIN <= to_int x <= INT_MAX.
Proof.
  unfold to_int, INT_MIN, INT_MAX.
  pose proof (Z.mod_pos_bound (x + 2147483648) 4294967296 ltac:(lia)). lia.
Qed.

(** A whole number of seconds, in milliseconds, leaves room for the last
    half-second tick of the timed wait. *)
Lemma seconds_fit (k : Z) :
  INT_MIN <= k * 1000 <= INT_MAX ->
  0 <= to_uint (k * 1000) <= UINT_MAX - ANIMATION_STEP.
Proof.
  intros H. rewrite (to_uint_of_int _ H).
  unfold INT_MIN, INT_MAX, UINT_MAX, ANIMATION_STEP in *.
  destruct (Z.ltb_spec (k * 1000) 0); lia.
Qed.

Section CommandLineFacts.
Variable atoi : string -> Z.

(** The ranges the option loop keeps. *)
Let in_range (o : options) : Prop :=
  0 <= exp_time (o_cfg o) <= UINT_MAX - ANIMATION_STEP /\
  0 <= exp_pause (o_cfg o) <= UINT_MAX - ANIMATION_STEP /\
  0 <= exp_count (o_cfg o) <= UINT_MAX /\
  0 <= phd_dither_size (o_cfg o) <= 5 /\
  INT_MIN <= mlu_delay (o_cfg o) <= INT_MAX /\
  INT_MIN <= shut_min_pulse (o_cfg o) <= INT_MAX.

Lemma option_step_in_range o c optarg o' :
  in_range o ->
  (in_seconds c = true -> INT_MIN <= atoi optarg * 1000 <= INT_MAX) ->
  option_step atoi o c optarg = Some o' -> in_range o'.
Proof.
  unfold in_range. intros (H1 & H2 & H3 & H4 & H5 & H6) Hov.
  unfold option_step.
  repeat match goal with
         | |- (if Ascii.eqb c ?x then _ else _) = _ -> _ =>
             destruct (Ascii.eqb_spec c x)
         end;
    try (destruct (Z.gtb_spec (to_uint (atoi optarg)) 5));
    try (destruct (split_colon optarg) as [host [port | ]]);
    intros E; try discriminate E; injection E as <-; simpl;
    try (subst c; pose proof (seconds_fit (atoi optarg) (Hov eq_refl)));
    pose proof (to_uint_range (atoi optarg));
    pose proof (to_int_range (atoi optarg * 1000));
    pose proof (to_int_range (atoi optarg));
    unfold UINT_MAX, ANIMATION_STEP, INT_MIN, INT_MAX in *;
    repeat split; lia.
Qed.

Lemma option_loop_in_range l : forall o o',
  in_range o ->
  Forall (fun co => in_seconds (fst co) = true ->
                    INT_MIN <= atoi (snd co) * 1000 <= INT_MAX) l ->
  option_loop atoi o l = Some o' -> in_range o'.
Proof.
  induction l as [ | [c optarg] l IH]; intros o o' Hr Hov; simpl.
  - intros E. injection E as <-. exact Hr.
  - destruct (option_step atoi o c optarg) as [o1 | ] eqn:Hs; [ | discriminate].
    inversion Hov as [ | ? ? Hc Hl]; subst.
    apply IH; [ | exact Hl].
    exact (option_step_in_range o c optarg o1 Hr Hc Hs).
Qed.

(** X1.  Whatever options the program accepts, if none of the products
    [atoi(optarg) * 1000] that [main] forms (for [-t], [-p], [-M] and the
    operand) overflows, the configuration it starts with has an
    exposure time of at most [UINT_MAX - 500] ms, so that the timed wait
    comes to its end, a dither amount of at most 5, and a lockup delay and
    a pulse width that are [int]s. *)
Theorem parsed_options_in_range
    (l : list (ascii * string)) (operand : option string) (o : options) :
  no_overflow atoi l operand ->
  parse_args atoi l operand = Some o ->
  0 <= exp_time (o_cfg o) <= UINT_MAX - ANIMATION_STEP /\
  0 <= phd_dither_size (o_cfg o) <= 5 /\
  INT_MIN <= mlu_delay (o_cfg o) <= INT_MAX /\
  INT_MIN <= shut_min_pulse (o_cfg o) <= INT_MAX /\
  forall fuel w,
    cfg w = o_cfg o -> calm w ->
    exp_time (o_cfg o) / ANIMATION_STEP <= Z.of_nat fuel ->
    exists w', sleep_verbose fuel (exp_time (cfg w)) w = Ret tt w' /\
               clock (dev w') = clock (dev w) + ms (exp_time (cfg w)).
Proof.
  intros [Hl Ho] Hp. unfold parse_args in Hp.
  destruct (option_loop atoi default_options l) as [o1 | ] eqn:Hloop;
    [ | discriminate].
  assert (Hr : in_range o1).
  { apply (option_loop_in_range l default_options o1); [ | exact Hl | exact Hloop].
    unfold in_range, UINT_MAX, INT_MIN, INT_MAX, ANIMATION_STEP. simpl. lia. }
  assert (Hr' : in_range o).
  { injection Hp as <-. destruct operand as [a | ]; [ | exact Hr].
    destruct Hr as (H1 & H2 & H3 & H4 & H5 & H6).
    pose proof (seconds_fit (atoi a) Ho).
    unfold in_range. simpl.
    unfold UINT_MAX, ANIMATION_STEP, INT_MIN, INT_MAX in *.
    repeat split; lia. }
  destruct Hr' as (H1 & H2 & H3 & H4 & H5 & H6).
  split; [exact H1 | ]. split; [exact H4 | ].
  split; [exact H5 | ]. split; [exact H6 | ].
  intros fuel w Hc Hcalm Hf. rewrite Hc.
  destruct (sleep_verbose_waited fuel (exp_time (o_cfg o)) w Hcalm H1 Hf)
    as [w' [Hrun Hw]].
  exists w'. split; [exact Hrun | ].
  exact (proj1 (waited_device _ _ _ Hw)).
Qed.

Lemma option_loop_serial_port l : forall o o',
  Forall (fun co => getopt_knows (fst co) = true \/ fst co = "?"%char) l ->
  option_loop atoi o l = Some o' -> serial_port o' = serial_port o.
Proof.
  induction l as [ | [c optarg] l IH]; intros o o' Hk; simpl.
  - intros E. injection E as <-. reflexivity.
  - destruct (option_step atoi o c optarg) as [o1 | ] eqn:Hs; [ | discriminate].
    inversion Hk as [ | ? ? Hc Hl]; subst. simpl in Hc.
    intros E. rewrite (IH o1 o' Hl E).
    revert Hs. unfold option_step.
    destruct (Ascii.eqb_spec c "s") as [-> | _].
    { destruct Hc as [Hc | Hc]; discriminate Hc. }
    repeat match goal with
           | |- (if Ascii.eqb c ?x then _ else _) = _ -> _ =>
               destruct (Ascii.eqb c x)
           end;
      try (destruct (to_uint (atoi optarg) >? 5));
      try (destruct (split_colon optarg) as [host [port | ]]);
      intros E'; try discriminate E'; injection E' as <-; reflexivity.
Qed.

(** X2.  The [optstring] handed to [getopt] does not list [s]: [getopt]
    returns only letters of the [optstring] or ['?'], so the [case 's'] of
    the [switch] is never taken and every accepted command line leaves the
    serial port at its default. *)
Theorem serial_port_is_never_set
    (l : list (ascii * string)) (operand : option string) (o : options) :
  Forall (fun co => getopt_knows (fst co) = true \/ fst co = "?"%char) l ->
  parse_args atoi l operand = Some o ->
  getopt_knows "s" = false /\ serial_port o = "/dev/ttyS0"%string.
Proof.
  intros Hk Hp. split; [reflexivity | ]. unfold parse_args in Hp.
  destruct (option_loop atoi default_options l) as [o1 | ] eqn:Hloop;
    [ | discriminate].
  injection Hp as <-.
  destruct operand; simpl;
    rewrite (option_loop_serial_port l default_options o1 Hk Hloop);
    reflexivity.
Qed.

Lemma option_loop_app l1 : forall o l2,
  option_loop atoi o (l1 ++ l2) =
  match option_loop atoi o l1 with
  | Some o' => option_loop atoi o' l2
  | None => None
  end.
Proof.
  induction l1 as [ | [c optarg] l1 IH]; intros o l2; simpl; [reflexivity | ].
  destruct (option_step atoi o c optarg); [apply IH | reflexivity].
Qed.

(** X3.  Option [-h], an option [getopt] does not know (it reports ['?'])
    and a dither amount that is negative or above 5 end the program with
    the usage text, wherever they stand on the command line and whatever
    follows; a dither amount from 0 to 5 is taken as it is. *)
Theorem usage_ends_the_option_loop
    (l1 l2 : list (ascii * string)) (c : ascii) (optarg : string)
    (operand : option string) :
  c = "h"%char \/ c = "?"%char \/
  (c = "d"%char /\ INT_MIN <= atoi optarg <= INT_MAX /\
   ~ 0 <= atoi optarg <= 5) ->
  parse_args atoi (l1 ++ (c, optarg) :: l2) operand = None /\
  forall o, 0 <= atoi optarg <= 5 ->
    option_step atoi o "d" optarg
    = Some (with_cfg (with_dither (atoi optarg)) o).
Proof.
  intros Hc. split.
  - assert (Hstep : forall o, option_step atoi o c optarg = None).
    { intros o. destruct Hc as [-> | [-> | (-> & Hr & Hn)]]; try reflexivity.
      unfold option_step. simpl. rewrite (to_uint_of_int _ Hr).
      unfold INT_MIN, INT_MAX in Hr.
      destruct (Z.ltb_spec (atoi optarg) 0);
        match goal with
        | |- (if ?x >? 5 then _ else _) = _ => destruct (Z.gtb_spec x 5)
        end; try reflexivity; lia. }
    unfold parse_args. rewrite option_loop_app.
    destruct (option_loop atoi default_options l1) as [o1 | ]; [ | reflexivity].
    simpl. rewrite Hstep. reflexivity.
  - intros o Hr. unfold option_step. simpl.
    rewrite (to_uint_small (atoi optarg)) by (unfold UINT_MAX; lia).
    destruct (Z.gtb_spec (atoi optarg) 5); [lia | reflexivity].
Qed.

Lemma split_colon_app host port :
  occurs ":" host = false ->
  split_colon (host ++ String ":" port) = (host, Some port) /\
  split_colon host = (host, None).
Proof.
  induction host as [ | c host IH]; intros H; [split; reflexivity | ].
  change (occurs ":" (String c host))
    with (Ascii.eqb ":" c || occurs ":" host) in H.
  change (split_colon (String c host ++ String ":" port))
    with (if Ascii.eqb c ":"
          then (EmptyString, Some (host ++ String ":" port)%string)
          else let (h, p) := split_colon (host ++ String ":" port) in
               (String c h, p)).
  change (split_colon (String c host))
    with (if Ascii.eqb c ":" then (EmptyString, Some host)
          else let (h, p) := split_colon host in (String c h, p)).
  rewrite Ascii.eqb_sym in H.
  destruct (Ascii.eqb c ":"); [discriminate H | ].
  destruct (IH H) as [E1 E2]. rewrite E1, E2. split; reflexivity.
Qed.

(** X4.  Option [-P host:port] splits its argument at the first colon: a
    host name without colon and a port are read back as they were written,
    the port through [atoi]; without a colon the argument is the host and
    the port keeps its value. *)
Theorem guider_endpoint_round_trip (o : options) (host port : string) :
  occurs ":" host = false ->
  (exists o1,
     option_step atoi o "P" (host ++ String ":" port) = Some o1 /\
     phd_host o1 = host /\ phd_port o1 = to_int (atoi port) /\
     o_cfg o1 = o_cfg o) /\
  (exists o2,
     option_step atoi o "P" host = Some o2 /\
     phd_host o2 = host /\ phd_port o2 = phd_port o /\ o_cfg o2 = o_cfg o).
Proof.
  intros H. destruct (split_colon_app host port H) as [E1 E2].
  unfold option_step. simpl. rewrite E1, E2.
  split; eexists; repeat split.
Qed.
End CommandLineFacts.

Lemma parsed_options_in_range_witness :
  no_overflow decimal
    [("t"%char, "30"%string); ("l"%char, "20261030 M31"%string);
     ("d"%char, "5"%string)]
    (Some "60"%string) /\
  exists o,
    parse_args decimal
      [("t"%char, "30"%string); ("l"%char, "20261030 M31"%string);
       ("d"%char, "5"%string)]
      (Some "60"%string) = Some o /\
    0 <= exp_time (o_cfg o) <= UINT_MAX - ANIMATION_STEP /\
    0 <= phd_dither_size (o_cfg o) <= 5.
Proof.
  assert (H : no_overflow decimal
                [("t"%char, "30"%string); ("l"%char, "20261030 M31"%string);
                 ("d"%char, "5"%string)]
                (Some "60"%string)).
  { split.
    - apply Forall_cons; [ | apply Forall_cons; [ | apply Forall_cons;
        [ | apply Forall_nil]]];
        simpl; intros H; try discriminate H; vm_compute; split; discriminate.
    - vm_compute. split; discriminate. }
  split; [exact H | ].
  eexists. split; [reflexivity | ].
  destruct (parsed_options_in_range decimal _ _ _ H eq_refl) as (H1 & H2 & _).
  exact (conj H1 H2).
Defined.

Lemma serial_port_is_never_set_witness :
  exists o,
    parse_args decimal [("q"%char, ""%string); ("t"%char, "5"%string)] None
    = Some o /\
    serial_port o = "/dev/ttyS0"%string.
Proof.
  eexists. split; [reflexivity | ].
  apply (serial_port_is_never_set decimal
           [("q"%char, ""%string); ("t"%char, "5"%string)] None).
  - repeat constructor; left; reflexivity.
  - reflexivity.
Defined.

Lemma usage_ends_the_option_loop_witness :
  parse_args decimal
    ([("t"%char, "5"%string)] ++ ("d"%char, "-1"%string) :: [("q"%char, ""%string)])
    None = None.
Proof.
  apply (usage_ends_the_option_loop decimal).
  right. right. split; [reflexivity | ].
  split; [split; vm_compute; discriminate | ].
  vm_compute. intros [H _]. apply H. reflexivity.
Defined.

Lemma guider_endpoint_round_trip_witness :
  occurs ":" "guider" = false /\
  exists o1,
    option_step decimal default_options "P" "guider:4301" = Some o1 /\
    phd_host o1 = "guider"%string /\ phd_port o1 = 4301.
Proof.
  split; [reflexivity | ].
  destruct (guider_endpoint_round_trip decimal default_options "guider" "4301"
              eq_refl) as [(o1 & E & Hh & Hp & _) _].
  exists o1. split; [exact E | ]. split; [exact Hh | ].
  rewrite Hp. reflexivity.
Defined.

(** ** Logging *)

Lemma console_emit e w :
  console (history (emit e w))
  = console (history w) ++ match e with EvPrintf m => [m] | _ => [] end.
Proof.
  unfold console, history. simpl.
  rewrite flat_map_app. simpl. rewrite app_nil_r. reflexivity.
Qed.

Lemma guider_emit e w :
  guider (history (emit e w))
  = guider (history w) ++ (if guider_event e then [e] else []).
Proof.
  unfold guider, history. simpl.
  rewrite map_app, filter_app. simpl.
  destruct (guider_event e); reflexivity.
Qed.

Lemma timersub_spec a b :
  normal_tv a -> normal_tv b ->
  tv_us (timersub a b) = tv_us a - tv_us b /\ normal_tv (timersub a b).
Proof.
  unfold normal_tv, timersub, tv_us. intros Ha Hb.
  destruct (Z.ltb_spec (tv_usec a - tv_usec b) 0); simpl; lia.
Qed.

Lemma now_normal w : normal_tv (now w).
Proof.
  unfold normal_tv, now. simpl.
  pose proof (Z.mod_pos_bound (clock (dev w)) 1000000000 ltac:(lia)) as H.
  split.
  - apply Z.div_pos; lia.
  - apply Z.div_lt_upper_bound; lia.
Qed.

(** X6.  The line [log_exposure] writes for a start stamp [t0] and an end
    stamp [t1], both with their microseconds within a second and [t1] not
    before [t0], carries the two stamps, the time of day of the start
    within its ranges, and as duration the difference of the stamps in
    microseconds rounded to the nearest second, halves up. *)
Theorem log_line_rounds_to_seconds (label : string) (t0 t1 : timeval) :
  normal_tv t0 -> normal_tv t1 -> 0 <= tv_sec t0 -> tv_us t0 <= tv_us t1 ->
  exists hh mm ss,
    log_line label t0 t1
    = EvLog label hh mm ss ((tv_us t1 - tv_us t0 + 500000) / 1000000) t0 t1 /\
    0 <= (tv_us t1 - tv_us t0 + 500000) / 1000000 /\
    0 <= hh < 24 /\ 0 <= mm < 60 /\ 0 <= ss < 60 /\
    hh * 3600 + mm * 60 + ss = tv_sec t0 mod 86400.
Proof.
  intros H0 H1 Hs Hle.
  destruct (timersub_spec t1 t0 H1 H0) as [Hd Hn].
  unfold log_line. do 3 eexists. split; [ | split; [ | split; [ | split; [ | split]]]].
  - f_equal. rewrite <- Hd. unfold tv_us.
    replace (tv_sec (timersub t1 t0) * 1000000 + tv_usec (timersub t1 t0) + 500000)
      with (tv_usec (timersub t1 t0) + 500000 + tv_sec (timersub t1 t0) * 1000000)
      by lia.
    rewrite Z.div_add by lia. lia.
  - apply Z.div_pos; lia.
  - pose proof (Z.mod_pos_bound (tv_sec t0) 86400 ltac:(lia)).
    split; [apply Z.div_pos; lia | apply Z.div_lt_upper_bound; lia].
  - pose proof (Z.mod_pos_bound (tv_sec t0 mod 86400) 3600 ltac:(lia)).
    split; [apply Z.div_pos; lia | apply Z.div_lt_upper_bound; lia].
  - apply Z.mod_pos_bound. lia.
  - pose proof (Z.div_mod (tv_sec t0 mod 86400) 3600 ltac:(lia)) as E1.
    pose proof (Z.div_mod (tv_sec t0 mod 86400 mod 3600) 60 ltac:(lia)) as E2.
    assert (E3 : tv_sec t0 mod 86400 mod 3600 mod 60 = tv_sec t0 mod 86400 mod 60).
    { apply Z.mod_mod_divide. exists 60. reflexivity. }
    lia.
Qed.

Lemma log_line_rounds_to_seconds_witness :
  normal_tv {| tv_sec := 10; tv_usec := 400000 |} /\
  exists hh mm ss,
    log_line "M31" {| tv_sec := 10; tv_usec := 400000 |}
      {| tv_sec := 12; tv_usec := 100000 |}
    = EvLog "M31" hh mm ss 2 {| tv_sec := 10; tv_usec := 400000 |}
        {| tv_sec := 12; tv_usec := 100000 |}.
Proof.
  assert (N0 : normal_tv {| tv_sec := 10; tv_usec := 400000 |})
    by (unfold normal_tv; simpl; lia).
  assert (N1 : normal_tv {| tv_sec := 12; tv_usec := 100000 |})
    by (unfold normal_tv; simpl; lia).
  split; [exact N0 | ].
  destruct (log_line_rounds_to_seconds "M31" _ _ N0 N1)
    as (hh & mm & ss & E & _); [simpl; lia | unfold tv_us; simpl; lia | ].
  exists hh, mm, ss. exact E.
Defined.

(** ** Guider faults *)

Lemma bind_Exit {A B} (m : M A) (k : A -> M B) w s w' :
  m w = Exit s w' -> bind m k w = Exit s w'.
Proof. unfold bind. intros ->. reflexivity. Qed.

Lemma FATAL_calm {A} msg w :
  calm w -> @FATAL A msg w = Exit 1 (closed (emit (EvPrintf (MsgPerror msg)) w)).
Proof.
  intros Hc. unfold FATAL, printf.
  rewrite (bind_Ret _ _ _ _ _ (stmt_calm _ w Hc)).
  unfold exit.
  rewrite (bind_Ret _ _ _ _ _
             (tick_calm (emit (EvPrintf (MsgPerror msg)) w) Hc)).
  reflexivity.
Qed.

Lemma phd_connect_calm w :
  calm w -> phd_dither_size (cfg w) <> 0 ->
  phd_connect w =
  if socket_ok (env w) then
    let w1 := set_g (with_phd_fd SOCK_FD)
                (emit EvSocket (set_dev (with_sock_open true) w)) in
    if resolve_ok (env w) then
      if connect_ok (env w) then Ret tt (emit EvConnect w1)
      else Exit 1 (closed (emit (EvPrintf (MsgPerror "connect")) w1))
    else Exit 1 (closed (emit (EvPrintf (MsgPerror "gethostbyname")) w1))
  else Exit 1 (closed (emit (EvPrintf (MsgPerror "socket"))
                         (set_g (with_phd_fd (-1)) w))).
Proof.
  intros Hc Hs. unfold phd_connect.
  rewrite (bind_Ret (read_cfg phd_dither_size) _ w _ w eq_refl).
  destruct (Z.eqb_spec (phd_dither_size (cfg w)) 0); [contradiction | ].
  destruct (socket_ok (env w)) eqn:H1.
  - assert (Hsock : socket_call w
                    = Ret SOCK_FD (emit EvSocket (set_dev (with_sock_open true) w))).
    { unfold socket_call. rewrite (bind_Ret _ _ _ _ _ (tick_calm w Hc)).
      rewrite H1. reflexivity. }
    rewrite (bind_Ret _ _ _ _ _ Hsock).
    set (w0 := emit _ _).
    rewrite (bind_Ret (fun x => Ret tt (set_g (with_phd_fd SOCK_FD) x))
               _ w0 _ _ eq_refl).
    cbv zeta. set (w1 := set_g _ w0).
    change (SOCK_FD =? -1) with false. cbv iota.
    assert (Hg : gethostbyname w1 = Ret (resolve_ok (env w)) w1).
    { unfold gethostbyname. rewrite (bind_Ret _ _ _ _ _ (tick_calm w1 Hc)).
      reflexivity. }
    rewrite (bind_Ret _ _ _ _ _ Hg).
    destruct (resolve_ok (env w)); cbn [negb]; cbv iota;
      [ | apply FATAL_calm, Hc].
    destruct (connect_ok (env w)) eqn:H3.
    + assert (Hk : connect_call w1 = Ret 0 (emit EvConnect w1)).
      { unfold connect_call. rewrite (bind_Ret _ _ _ _ _ (tick_calm w1 Hc)).
        change (connect_ok (env w1)) with (connect_ok (env w)). rewrite H3.
        reflexivity. }
      rewrite (bind_Ret _ _ _ _ _ Hk). reflexivity.
    + assert (Hk : connect_call w1 = Ret (-1) w1).
      { unfold connect_call. rewrite (bind_Ret _ _ _ _ _ (tick_calm w1 Hc)).
        change (connect_ok (env w1)) with (connect_ok (env w)). rewrite H3.
        reflexivity. }
      rewrite (bind_Ret _ _ _ _ _ Hk). change (-1 =? -1) with true. cbv iota.
      apply FATAL_calm, Hc.
  - assert (Hsock : socket_call w = Ret (-1) w).
    { unfold socket_call. rewrite (bind_Ret _ _ _ _ _ (tick_calm w Hc)).
      rewrite H1. reflexivity. }
    rewrite (bind_Ret _ _ _ _ _ Hsock).
    rewrite (bind_Ret (fun x => Ret tt (set_g (with_phd_fd (-1)) x))
               _ w _ _ eq_refl).
    change (-1 =? -1) with true. cbv iota. apply FATAL_calm, Hc.
Qed.

(** X7.  With dither enabled, a guider that cannot be reached is fatal
    before the first frame: when [socket], [gethostbyname] or [connect]
    fails, the process ends with status 1 after the start-up release of the
    line and one [perror] naming the call that failed; no frame is started,
    the line is never engaged, and nothing was sent to the guider. *)
Theorem guider_connection_failure_is_fatal
    (fuel : nat) (c : config) (o : oracle) (bits t0 : Z) :
  sigint o = None -> phd_dither_size c <> 0 ->
  socket_ok o && resolve_ok o && connect_ok o = false ->
  exists w',
    ssc fuel (boot c o bits t0) = Exit 1 w' /\
    console (history w')
    = [MsgPerror (if negb (socket_ok o) then "socket"
                  else if negb (resolve_ok o) then "gethostbyname"
                  else "connect")] /\
    calls (history w') = [] /\
    shutter_view (history w') = [(t0, Line Released)] /\
    guider (history w') = (if socket_ok o then [EvSocket] else []) /\
    fd_open (dev w') = false /\ sock_open (dev w') = false.
Proof.
  intros Hc Hd Hfail.
  assert (Hssc : forall s w', main fuel (boot c o bits t0) = Exit s w' ->
                              ssc fuel (boot c o bits t0) = Exit s w').
  { intros s w' E. unfold ssc, run. rewrite (bind_Exit _ _ _ _ _ E).
    reflexivity. }
  assert (Hmain : forall s w',
            phd_connect (emit (EvTIOCMSET (rts_mask 0 bits))
                           (set_dev (with_cbits (rts_mask 0 bits))
                              (boot c o bits t0))) = Exit s w' ->
            main fuel (boot c o bits t0) = Exit s w').
  { intros s w' E. unfold main, shutter_release.
    rewrite (bind_Ret _ _ _ _ _ (set_rts_calm 0 (boot c o bits t0) Hc)).
    apply bind_Exit. exact E. }
  set (w1 := emit _ _) in Hmain.
  assert (Hview : shutter_view (history w1) = [(t0, Line Released)]).
  { unfold w1. rewrite shutter_view_emit. unfold observe. simpl.
    rewrite line_rts_mask. reflexivity. }
  pose proof (phd_connect_calm w1 Hc Hd) as Hconn.
  change (socket_ok (env w1)) with (socket_ok o) in Hconn.
  change (resolve_ok (env w1)) with (resolve_ok o) in Hconn.
  change (connect_ok (env w1)) with (connect_ok o) in Hconn.
  destruct (socket_ok o); [destruct (resolve_ok o); [destruct (connect_ok o) | ] | ];
    try discriminate Hfail; cbv zeta in Hconn;
    (eexists; split; [exact (Hssc _ _ (Hmain _ _ Hconn)) | ]);
    unfold closed;
    repeat rewrite ?history_set_dev, ?history_set_g, ?console_emit,
      ?calls_emit, ?shutter_view_emit, ?guider_emit;
    rewrite Hview; repeat split.
Qed.

Lemma guider_connection_failure_is_fatal_witness :
  exists w',
    ssc 1 (boot (with_dither 3 default_config) deaf_guider 0 0) = Exit 1 w' /\
    console (history w') = [MsgPerror "connect"] /\
    calls (history w') = [].
Proof.
  destruct (guider_connection_failure_is_fatal 1 (with_dither 3 default_config)
              deaf_guider 0 0) as (w' & R & C & K & _);
    [reflexivity | discriminate | reflexivity | ].
  exists w'. split; [exact R | ]. split; [exact C | exact K].
Defined.

(** X8.  A short or failed transfer to the guider is fatal.  With the
    command byte [b] in the table: if [write] does not return 1 the process
    ends with status 1 after [perror("write")], nothing sent and no read
    attempted; if [write] returns 1 and [read] does not, it ends with status
    1 after [perror("read")], the byte sent; if both return 1 the call
    returns, one byte sent and one read.  The line is not touched. *)
Theorem guider_io_failure_is_fatal (w : world) (b : Z) :
  calm w ->
  nth_error phd_cmds (Z.to_nat (phd_dither_size (cfg w))) = Some b ->
  let r1 := nth 0 (io_rets (env w)) 1 in
  let r2 := nth 1 (io_rets (env w)) 1 in
  exists w',
    phd_dither w
    = (if r1 =? 1 then if r2 =? 1 then Ret tt w' else Exit 1 w' else Exit 1 w') /\
    guider (history w')
    = guider (history w)
      ++ (if r1 =? 1 then EvWrite b :: (if r2 =? 1 then [EvRead] else []) else []) /\
    console (history w')
    = console (history w)
      ++ (if r1 =? 1 then if r2 =? 1 then [] else [MsgPerror "read"]
          else [MsgPerror "write"]) /\
    shutter_view (history w') = shutter_view (history w).
Proof.
  intros Hc Hb r1 r2. unfold phd_dither.
  rewrite (bind_Ret (read_cfg phd_dither_size) _ w _ w eq_refl).
  assert (Hload : load_phd_cmd (phd_dither_size (cfg w)) w = Ret b w)
    by (unfold load_phd_cmd; rewrite Hb; reflexivity).
  rewrite (bind_Ret _ _ _ _ _ Hload).
  set (w1 := set_env (with_io_rets (tl (io_rets (env w)))) w).
  assert (C1 : calm w1) by exact Hc.
  assert (Hw : write_byte b w
               = Ret r1 (if r1 =? 1 then emit (EvWrite b) w1 else w1)).
  { unfold write_byte. rewrite (bind_Ret _ _ _ _ _ (tick_calm w Hc)).
    unfold bind, syscall_ret, r1, w1.
    destruct (io_rets (env w)) as [ | r rest] eqn:E; simpl; [ | reflexivity].
    destruct w as [c gl d [s ei so re co io fo] tr]. simpl in E. subst io.
    reflexivity. }
  rewrite (bind_Ret _ _ _ _ _ Hw).
  destruct (Z.eqb_spec r1 1) as [E1 | N1]; cbn [negb]; cbv iota.
  - set (w2 := emit (EvWrite b) w1).
    set (w3 := set_env (with_io_rets (tl (io_rets (env w2)))) w2).
    assert (Hr : read_byte w2 = Ret r2 (if r2 =? 1 then emit EvRead w3 else w3)).
    { unfold read_byte. rewrite (bind_Ret _ _ _ _ _ (tick_calm w2 C1)).
      unfold bind, syscall_ret, r2, w3, w2, w1. simpl.
      destruct (io_rets (env w)) as [ | r rest] eqn:E; simpl.
      - destruct w as [c gl d [s ei so re co io fo] tr]. simpl in E. subst io.
        reflexivity.
      - destruct rest as [ | r' rest']; reflexivity. }
    rewrite (bind_Ret _ _ _ _ _ Hr).
    destruct (Z.eqb_spec r2 1) as [E2 | N2]; cbn [negb]; cbv iota.
    + eexists. split; [reflexivity | ].
      unfold w3, w2, w1.
      repeat rewrite ?history_set_env, ?guider_emit, ?console_emit,
        ?shutter_view_emit.
      simpl. rewrite <- !app_assoc, !app_nil_r. repeat split.
    + rewrite (FATAL_calm "read" w3 C1).
      eexists. split; [reflexivity | ].
      unfold closed, w3, w2, w1.
      repeat rewrite ?history_set_dev, ?history_set_env, ?guider_emit,
        ?console_emit, ?shutter_view_emit.
      simpl. rewrite ?app_nil_r. repeat split.
  - rewrite (FATAL_calm "write" w1 C1).
    eexists. split; [reflexivity | ].
    unfold closed, w1.
    repeat rewrite ?history_set_dev, ?history_set_env, ?guider_emit,
      ?console_emit, ?shutter_view_emit.
    simpl. rewrite ?app_nil_r. repeat split.
Qed.

Lemma guider_io_failure_is_fatal_witness :
  exists w',
    phd_dither (boot (with_dither 3 default_config) mute_guider 0 0) = Exit 1 w' /\
    guider (history w') = [EvWrite 12] /\
    console (history w') = [MsgPerror "read"].
Proof.
  destruct (guider_io_failure_is_fatal
              (boot (with_dither 3 default_config) mute_guider 0 0) 12)
    as (w' & R & G & C & _); [reflexivity | reflexivity | ].
  exists w'. split; [exact R | ]. split; [exact G | exact C].
Defined.

(** ** Waits *)

Lemma sleep_again_elapsed n : forall t w,
  (List.length (eintr (env w)) <= n)%nat -> 0 <= ts_ns t ->
  post (fun _ w' => clock (dev w') = clock (dev w) + ts_ns t)
       (fun _ => False)
       (fun w' => clock (dev w) <= clock (dev w') <= clock (dev w) + ts_ns t)
       (fun _ => False)
       (sleep_again n t w).
Proof.
  induction n as [ | n IH]; intros t w Hlen Ht; cbn [sleep_again];
    unfold bind, nanosleep;
    destruct (sigint (env w)) as [[[ | k] e] | ];
    try (simpl; split; [lia | reflexivity]);
    cbv zeta; simpl eintr in *;
    destruct (eintr (env w)) as [ | x rest] eqn:He; simpl in Hlen; try lia;
    try (simpl; lia);
    (destruct (Z.leb_spec 0 x), (Z.ltb_spec x (ts_ns t)); simpl; try lia);
    match goal with
    | |- post _ _ _ _ (sleep_again n ?t' ?w') =>
        eapply post_mono;
          [ apply (IH t' w'); [simpl; lia | rewrite ts_ns_of_ns; lia]
          | simpl; intros; rewrite ?ts_ns_of_ns in *; lia
          | auto
          | simpl; intros; rewrite ?ts_ns_of_ns in *; lia
          | auto ]
    end.
Qed.

(** X9.  [sleep_quiet] never sleeps longer than asked: for every duration
    an [unsigned int] holds, whatever spurious wake-ups and whichever
    SIGINT occur, it either returns, exactly [msec] ms after the call, or
    is cut by the SIGINT, then at most [msec] ms after the call.  It never
    ends the process itself. *)
Theorem sleep_quiet_never_oversleeps (msec : Z) (w : world) :
  0 <= msec <= UINT_MAX ->
  post (fun _ w' => clock (dev w') = clock (dev w) + ms msec)
       (fun _ => False)
       (fun w' => clock (dev w) <= clock (dev w') <= clock (dev w) + ms msec)
       (fun _ => False)
       (sleep_quiet msec w).
Proof.
  intros H. unfold sleep_quiet. rewrite <- (sleep_quiet_timespec msec H).
  apply sleep_again_elapsed; [lia | ].
  rewrite sleep_quiet_timespec by exact H. unfold ms. lia.
Qed.

Lemma sleep_quiet_never_oversleeps_witness :
  0 <= 1200 <= UINT_MAX /\
  clock (dev (outcome_world (sleep_quiet 1200 (boot default_config restless 0 0))))
  = 1200000000.
Proof.
  assert (H : 0 <= 1200 <= UINT_MAX) by (unfold UINT_MAX; lia).
  split; [exact H | ].
  pose proof (sleep_quiet_never_oversleeps 1200
                (boot default_config restless 0 0) H) as P.
  vm_compute in P. vm_compute. exact P.
Defined.

(** A [sleep_quiet] that no SIGINT cuts leaves the globals and the console
    as they are. *)
Lemma sleep_again_quiet n : forall t w,
  calm w -> (List.length (eintr (env w)) <= n)%nat ->
  exists w', sleep_again n t w = Ret tt w' /\ g w' = g w /\ calm w' /\
             console (history w') = console (history w).
Proof.
  induction n as [ | n IH]; intros t w Hc Hlen; cbn [sleep_again]; unfold bind;
    rewrite (nanosleep_calm t w Hc);
    destruct (eintr (env w)) as [ | e rest] eqn:He; simpl in Hlen; try lia;
    try (eexists; split; [reflexivity | ];
         split; [reflexivity | ]; split; [exact Hc | ];
         unfold slept; rewrite history_set_dev, console_emit, app_nil_r;
         reflexivity).
  destruct ((0 <=? e) && (e <? ts_ns t)).
  - destruct (IH (ts_of_ns (ts_ns t - e)) (slept e (set_env (with_eintr rest) w)))
      as (w' & R & G & C & K); [exact Hc | simpl; lia | ].
    exists w'. split; [exact R | ]. split; [exact G | ]. split; [exact C | ].
    rewrite K. unfold slept.
    rewrite history_set_dev, console_emit, app_nil_r. reflexivity.
  - eexists. split; [reflexivity | ].
    split; [reflexivity | ]. split; [exact Hc | ].
    unfold slept. rewrite history_set_dev, console_emit, app_nil_r.
    reflexivity.
Qed.

Lemma sleep_quiet_quiet msec w :
  calm w ->
  exists w', sleep_quiet msec w = Ret tt w' /\ g w' = g w /\ calm w' /\
             console (history w') = console (history w).
Proof. intros Hc. unfold sleep_quiet. apply sleep_again_quiet; [exact Hc | lia]. Qed.

Lemma percent_two_digits sofar msec :
  0 <= sofar -> sofar + ANIMATION_STEP <= msec ->
  0 <= to_uint (100 * sofar) / msec <= 99.
Proof.
  unfold ANIMATION_STEP, to_uint. intros H0 H1.
  pose proof (Z.mod_pos_bound (100 * sofar) 4294967296 ltac:(lia)) as Hb.
  pose proof (Z.mod_le (100 * sofar) 4294967296 ltac:(lia) ltac:(lia)) as Hle.
  split.
  - apply Z.div_pos; lia.
  - assert ((100 * sofar) mod 4294967296 / msec < 100); [ | lia].
    apply Z.div_lt_upper_bound; lia.
Qed.

Lemma glyph_in_animation a :
  0 <= a < ANIMATION_LEN -> In (nth (Z.to_nat a) animation " "%char) animation.
Proof.
  unfold ANIMATION_LEN. intros H. apply nth_In. simpl. lia.
Qed.

Lemma sleep_verbose_loop_reports fuel msec : forall sofar w,
  calm w -> 0 <= sofar <= msec -> msec <= UINT_MAX - ANIMATION_STEP ->
  (msec - sofar) / ANIMATION_STEP <= Z.of_nat fuel ->
  0 <= animation_step (g w) < ANIMATION_LEN ->
  exists sofar' w' reports,
    sleep_verbose_loop fuel msec sofar w = Ret sofar' w' /\
    console (history w') = console (history w) ++ reports /\
    List.length reports = Z.to_nat ((msec - sofar) / ANIMATION_STEP) /\
    Forall (progress_report (verbose (g w))) reports /\
    0 <= animation_step (g w') < ANIMATION_LEN /\
    verbose (g w') = verbose (g w) /\ calm w' /\
    0 <= msec - sofar' <= UINT_MAX.
Proof.
  induction fuel as [ | fuel IH]; intros sofar w Hc Hs Hm Hf Ha;
    cbn [sleep_verbose_loop];
    rewrite (to_uint_small (sofar + ANIMATION_STEP))
      by (unfold UINT_MAX, ANIMATION_STEP in *; lia);
    destruct (Z.leb_spec (sofar + ANIMATION_STEP) msec) as [Hle | Hgt].
  - exfalso.
    assert (1 <= (msec - sofar) / ANIMATION_STEP)
      by (apply Z.div_le_lower_bound; unfold ANIMATION_STEP in *; lia).
    lia.
  - exists sofar, w, []. split; [reflexivity | ].
    rewrite app_nil_r, Z.div_small by (unfold ANIMATION_STEP in *; lia).
    repeat split; try assumption; try constructor;
      unfold UINT_MAX, ANIMATION_STEP in *; lia.
  - rewrite (bind_Ret _ _ _ _ _ (stmt_calm _ w Hc)).
    set (m := MsgProgress _ _ _).
    set (w1 := emit _ (set_g _ w)).
    rewrite (bind_Ret _ _ _ _ _ (stmt_calm _ w1 Hc)).
    set (w2 := set_g _ w1).
    destruct (sleep_quiet_quiet ANIMATION_STEP w2 Hc) as (w3 & R3 & G3 & C3 & K3).
    rewrite (bind_Ret _ _ _ _ _ R3).
    assert (Ha3 : 0 <= animation_step (g w3) < ANIMATION_LEN).
    { rewrite G3. unfold w2, w1. simpl.
      pose proof (Z.rem_bound_pos (animation_step (g w) + 1) ANIMATION_LEN
                    ltac:(lia) ltac:(unfold ANIMATION_LEN; lia)).
      lia. }
    destruct (IH (sofar + ANIMATION_STEP) w3 C3) as
      (sofar' & w' & reports & R & K & L & F & A & V & C & B);
      try assumption; try (unfold ANIMATION_STEP in *; lia).
    { replace (msec - (sofar + ANIMATION_STEP))
        with ((msec - sofar) + (-1) * ANIMATION_STEP) by lia.
      rewrite Z.div_add by (unfold ANIMATION_STEP; lia). lia. }
    assert (V3 : verbose (g w3) = verbose (g w)) by (rewrite G3; reflexivity).
    exists sofar', w', (m :: reports). split; [exact R | ].
    split; [ | split; [ | split; [ | split; [ | split; [ | split]]]]];
      try assumption.
    + rewrite K, K3. unfold w2, w1.
      rewrite history_set_g, console_emit, history_set_g.
      rewrite <- app_assoc. reflexivity.
    + simpl List.length. rewrite L.
      replace (msec - (sofar + ANIMATION_STEP))
        with ((msec - sofar) + (-1) * ANIMATION_STEP) by lia.
      rewrite Z.div_add by (unfold ANIMATION_STEP; lia).
      assert (1 <= (msec - sofar) / ANIMATION_STEP)
        by (apply Z.div_le_lower_bound; unfold ANIMATION_STEP in *; lia).
      lia.
    + constructor.
      * eexists _, _. split; [reflexivity | ].
        split; [apply percent_two_digits; lia | apply glyph_in_animation, Ha].
      * rewrite <- V3. exact F.
    + congruence.
  - exists sofar, w, []. split; [reflexivity | ].
    rewrite app_nil_r, Z.div_small by (unfold ANIMATION_STEP in *; lia).
    repeat split; try assumption; try constructor;
      unfold UINT_MAX, ANIMATION_STEP in *; lia.
Qed.

(** X10.  The console feedback of the timed wait.  With the feedback on, a
    wait of [msec] ms (at most [UINT_MAX - 500]) that no SIGINT cuts prints
    one progress report per full half second, [msec / 500] in all, each
    with the label of the frame, a percentage from 0 to 99 and a glyph
    taken from within the animation table, and then the closing message;
    the animation counter is again an index of the table afterwards.  With
    [quiet] set it prints nothing. *)
Theorem sleep_verbose_feedback (fuel : nat) (msec : Z) (w : world) :
  calm w -> 0 <= msec <= UINT_MAX - ANIMATION_STEP ->
  msec / ANIMATION_STEP <= Z.of_nat fuel ->
  0 <= animation_step (g w) < ANIMATION_LEN ->
  exists w' reports,
    sleep_verbose fuel msec w = Ret tt w' /\
    0 <= animation_step (g w') < ANIMATION_LEN /\
    if quiet (cfg w) then console (history w') = console (history w)
    else
      console (history w')
      = console (history w) ++ reports ++ [MsgDone (verbose (g w))] /\
      List.length reports = Z.to_nat (msec / ANIMATION_STEP) /\
      Forall (progress_report (verbose (g w))) reports.
Proof.
  intros Hc Hm Hf Ha. unfold sleep_verbose.
  rewrite (bind_Ret (read_cfg quiet) _ w _ w eq_refl).
  destruct (quiet (cfg w)).
  - destruct (sleep_quiet_quiet msec w Hc) as (w' & R & G & C & K).
    exists w', []. split; [exact R | ]. rewrite G. split; [exact Ha | exact K].
  - destruct (sleep_verbose_loop_reports fuel msec 0 w Hc) as
      (sofar & w1 & reports & R & K & L & F & A & V & C & B);
      try assumption; try lia.
    { rewrite Z.sub_0_r. exact Hf. }
    rewrite (bind_Ret _ _ _ _ _ R).
    rewrite (to_uint_small (msec - sofar)) by exact B.
    destruct (sleep_quiet_quiet (msec - sofar) w1 C) as (w2 & R2 & G2 & C2 & K2).
    rewrite (bind_Ret _ _ _ _ _ R2).
    rewrite (bind_Ret (read_g verbose) _ w2 _ w2 eq_refl).
    unfold printf. rewrite (stmt_calm _ w2 C2).
    exists (emit (EvPrintf (MsgDone (verbose (g w2)))) w2), reports.
    split; [reflexivity | ]. split; [simpl; rewrite G2; exact A | ].
    split; [ | split; [ | exact F]].
    + rewrite console_emit, K2, K, G2, V, <- app_assoc. reflexivity.
    + rewrite L, Z.sub_0_r. reflexivity.
Qed.

Lemma sleep_verbose_feedback_witness :
  exists w' reports,
    sleep_verbose 4 1200 world0 = Ret tt w' /\
    console (history w') = reports ++ [MsgDone VEmpty] /\
    List.length reports = 2%nat.
Proof.
  destruct (sleep_verbose_feedback 4 1200 world0) as (w' & reports & R & _ & H).
  - reflexivity.
  - unfold UINT_MAX, ANIMATION_STEP. lia.
  - vm_compute. discriminate.
  - unfold ANIMATION_LEN. simpl. lia.
  - simpl in H. destruct H as (K & L & _).
    exists w', reports. split; [exact R | ]. split; [exact K | exact L].
Defined.

(** ** What the code outside the guider link keeps *)

Section Sturdy.
Variable J : world -> Prop.
Hypothesis J_sturdy : sturdy J.
Variable E : world -> Prop.

Let J_wait := su_wait J J_sturdy.
Let J_env := ws_env J J_wait.

Lemma sturdy_set_rts on w : J w -> post (fun _ => J) E J J (set_rts on w).
Proof.
  intros H. unfold set_rts, ioctl_TIOCMGET. apply post_bind.
  apply (post_tick_then J J_env); auto.
  intros w1 H1. simpl. unfold ioctl_TIOCMSET.
  apply (post_stmt J J_env); auto.
  intros w2 H2. apply (su_rts J J_sturdy), H2.
Qed.

Lemma sturdy_log_exposure w : J w -> post (fun _ => J) E J J (log_exposure w).
Proof.
  intros H. unfold log_exposure. apply (post_stmt J J_env); auto.
  intros w' H'. destruct (log_target (cfg w')); [ | exact H'].
  destruct (fopen_ok (env w')); [ | exact H'].
  apply (su_log J J_sturdy), H'.
Qed.

Ltac via L :=
  apply post_bind; eapply post_mono; [apply L | simpl | auto | auto | auto].

Lemma sturdy_timed_exposure fuel w :
  J w ->
  post (fun _ => J) E J J
    ((gettimeofday_exp_start ;;
      set_exposing true ;;
      t <- read_cfg exp_time ;;
      sleep_verbose fuel t ;;
      set_exposing false ;;
      gettimeofday_exp_end ;;
      shutter_release) w).
Proof.
  intros H0.
  unfold gettimeofday_exp_start, set_exposing, gettimeofday_exp_end.
  via (post_stmt J J_env E J J); [exact H0 | apply (su_start J J_sturdy) | ].
  intros _ w1 H1.
  via (post_stmt J J_env E J J);
    [exact H1 | intros w' H'; apply (su_exposing J J_sturdy), H' | ].
  intros _ w2 H2. apply post_bind, post_read_cfg.
  via (post_sleep_verbose J J_wait E); [exact H2 | ]. intros _ w3 H3.
  via (post_stmt J J_env E J J);
    [exact H3 | intros w' H'; apply (su_exposing J J_sturdy), H' | ].
  intros _ w4 H4.
  via (post_stmt J J_env E J J); [exact H4 | apply (su_end J J_sturdy) | ].
  intros _ w5 H5. apply sturdy_set_rts, H5.
Qed.

Lemma sturdy_expose fuel msec w :
  J w -> post (fun _ => J) E J J (expose fuel msec w).
Proof.
  intros H0. unfold expose. apply post_bind, post_read_cfg.
  destruct (mlu_method (cfg w) =? 1); [ | destruct (mlu_method (cfg w) =? 2)].
  - unfold shutter_fire. via sturdy_set_rts; [exact H0 | ]. intros _ w1 H1.
    apply post_bind, post_read_cfg.
    via (post_sleep_quiet J J_wait E); [exact H1 | ]. intros _ w2 H2.
    apply sturdy_timed_exposure, H2.
  - unfold shutter_fire, shutter_release at 1.
    via sturdy_set_rts; [exact H0 | ]. intros _ w1 H1.
    apply post_bind, post_read_cfg.
    via (post_sleep_quiet J J_wait E); [exact H1 | ]. intros _ w2 H2.
    via sturdy_set_rts; [exact H2 | ]. intros _ w3 H3.
    apply post_bind, post_read_cfg.
    via (post_sleep_quiet J J_wait E); [exact H3 | ]. intros _ w4 H4.
    via sturdy_set_rts; [exact H4 | ]. intros _ w5 H5.
    apply sturdy_timed_exposure, H5.
  - apply (post_printf J J_wait E), H0.
Qed.

Lemma sturdy_call {A} c (m : M A) Q S R w :
  J w -> (forall w', J w' -> post Q E S R (m w')) -> post Q E S R (call c m w).
Proof.
  intros H Hm. unfold call. apply post_bind. simpl.
  apply Hm, (su_call J J_sturdy), H.
Qed.

(** With dither disabled, no part of the program ends the process. *)
Hypothesis J_off : forall w, J w -> phd_dither_size (cfg w) = 0.
Hypothesis J_fd : forall w, J w -> phd_fd (g w) = -1.

Lemma sturdy_frame fuel i w : J w -> post (fun _ => J) E J J (frame fuel i w).
Proof.
  intros H0. unfold frame. apply post_bind, post_read_cfg.
  rewrite (J_off w H0). change (negb (0 =? 0)) with false.
  rewrite andb_false_r. apply post_bind. simpl.
  apply post_bind, post_read_cfg.
  via (post_stmt J J_env E J J);
    [exact H0 | intros w' H'; apply (su_verbose J J_sturdy), H' | ].
  intros _ w1 H1. apply post_bind.
  assert (Hp : post (fun _ : unit => J) E J J
                 ((if negb (i =? 1)
                   then bind (read_cfg exp_pause)
                          (fun p => call CallPause (sleep_quiet p))
                   else ret tt) w1)).
  { destruct (negb (i =? 1)); [ | exact H1].
    apply post_bind, post_read_cfg. apply sturdy_call; [exact H1 | ].
    intros w2 H2. apply (post_sleep_quiet J J_wait E), H2. }
  eapply post_mono; [exact Hp | simpl | auto | auto | auto].
  intros _ w2 H2. apply post_bind, post_read_cfg. apply post_bind.
  apply sturdy_call; [exact H2 | ]. intros w3 H3.
  eapply post_mono; [apply sturdy_expose, H3 | simpl | auto | auto | auto].
  intros _ w4 H4. apply sturdy_call; [exact H4 | ]. intros w5 H5.
  apply sturdy_log_exposure, H5.
Qed.

Lemma sturdy_main_loop fuel turns : forall i w,
  J w -> post (fun _ => J) E J J (main_loop fuel turns i w).
Proof.
  induction turns as [ | turns IH]; intros i w H0; cbn [main_loop];
    apply post_bind, post_read_cfg;
    destruct (i <=? exp_count (cfg w)); try exact H0.
  apply post_bind.
  eapply post_mono; [apply sturdy_frame, H0 | simpl | auto | auto | auto].
  intros _ w1 H1. apply IH, H1.
Qed.

Lemma sturdy_main fuel w :
  J w -> post (fun r w' => r = 0 /\ J w') E J J (main fuel w).
Proof.
  intros H0. unfold main, shutter_release.
  via sturdy_set_rts; [exact H0 | ]. intros _ w1 H1.
  apply post_bind. unfold phd_connect. apply post_bind, post_read_cfg.
  rewrite (J_off w1 H1). simpl.
  apply post_bind.
  eapply post_mono; [apply sturdy_main_loop, H1 | simpl | auto | auto | auto].
  intros _ w2 H2. apply post_bind. unfold phd_disconnect.
  apply post_bind, post_read_g. rewrite (J_fd w2 H2). simpl.
  split; [reflexivity | exact H2].
Qed.
End Sturdy.

Lemma sturdy_exit_cleanup {A} J dummy w :
  sturdy J -> J w -> calm w ->
  ends_with_status_0 J (@exit_cleanup A dummy w).
Proof.
  intros HJ H Hc. rewrite (exit_cleanup_calm dummy w Hc). cbv zeta.
  split; [reflexivity | ].
  apply (su_exit J HJ), (su_close J HJ).
  assert (H1 : J (emit (EvTIOCMSET (rts_mask 0 (cbits (dev w))))
                    (set_dev (with_cbits (rts_mask 0 (cbits (dev w)))) w)))
    by apply (su_rts J HJ), H.
  destruct (exposing (g w)); [ | exact H1].
  set (w1 := emit _ _) in *. cbv zeta.
  assert (H2 : J (emit (EvEnd (now (set_g (with_exposing false) w1)))
                    (set_g (with_exp_end (now (set_g (with_exposing false) w1)))
                       (set_g (with_exposing false) w1))))
    by apply (su_end J HJ), (su_exposing J HJ), H1.
  destruct (log_target (cfg w)) as [label | ]; [ | exact H2].
  destruct (fopen_ok (env w)); [ | exact H2].
  exact (su_log J HJ _ label H2).
Qed.

Lemma sturdy_ssc J fuel w :
  sturdy J ->
  (forall w, J w -> phd_dither_size (cfg w) = 0) ->
  (forall w, J w -> phd_fd (g w) = -1) ->
  J w -> ends_with_status_0 J (ssc fuel w).
Proof.
  intros HJ Hoff Hfd H0.
  pose proof (sturdy_main J HJ (fun _ => False) Hoff Hfd fuel w H0) as Hm.
  unfold ssc, run, bind.
  destruct (main fuel w) as [r w1 | s w1 | w1 | w1 | w1]; simpl in Hm;
    try contradiction.
  - destruct Hm as [-> H1].
    unfold exit, bind, tick.
    destruct (sigint (env w1)) as [[[ | k] e] | ] eqn:Hs; simpl.
    + apply sturdy_exit_cleanup; [exact HJ | | reflexivity].
      apply (ws_env J (su_wait J HJ)), H1.
    + split; [reflexivity | ].
      apply (su_exit J HJ), (ws_env J (su_wait J HJ)), H1.
    + split; [reflexivity | apply (su_exit J HJ), H1].
  - destruct Hm as [H1 Hc]. apply sturdy_exit_cleanup; assumption.
  - exact Hm.
Qed.

Lemma guider_unused_sturdy : sturdy guider_unused.
Proof.
  unfold guider_unused.
  split; [split | .. ]; intros; try exact H;
    repeat rewrite ?history_set_dev, ?history_set_g, ?history_set_env;
    try (rewrite guider_emit).
  - destruct e; try contradiction; simpl; rewrite app_nil_r; exact H0.
  - simpl. rewrite app_nil_r. exact H.
  - simpl. rewrite app_nil_r. exact H.
  - simpl. rewrite app_nil_r. exact H.
  - simpl. rewrite app_nil_r. exact H.
  - simpl. rewrite app_nil_r. exact H.
  - simpl. rewrite app_nil_r. exact H.
  - unfold closed. rewrite history_set_dev. simpl.
    destruct H as (H1 & H2 & H3 & H4). auto.
Qed.

(** X11 (main, lines 233 to 257; expose; log_exposure; phd_connect;
    phd_disconnect; exit_cleanup): with dither disabled (the default, or
    [-d 0]) the guider is never touched and nothing is fatal.  Whatever the
    environment does (a SIGINT at any statement, interrupted waits, a log
    file that cannot be opened), however far the run gets and whatever the
    MLU method, the process can only end with exit status 0, and up to that
    point no socket is opened and no byte is exchanged with the guider. *)
Theorem no_dither_no_guider_no_failure fuel w :
  guider_unused w -> ends_with_status_0 guider_unused (ssc fuel w).
Proof.
  intros H. apply sturdy_ssc; [apply guider_unused_sturdy | | | exact H];
    unfold guider_unused; tauto.
Qed.

Lemma no_dither_no_guider_no_failure_witness :
  guider_unused (world_sigint 5) /\
  ends_with_status_0 guider_unused (ssc 10 (world_sigint 5)).
Proof.
  assert (H : guider_unused (world_sigint 5))
    by (unfold guider_unused; vm_compute; auto).
  split; [exact H | apply (no_dither_no_guider_no_failure 10 _ H)].
Defined.

(** ** The stamps an exposure leaves *)

Lemma sturdy_start_normal J :
  sturdy J -> sturdy (fun w => J w /\ normal_tv (exp_start (g w))).
Proof.
  intros HJ. pose proof (su_wait J HJ) as HW.
  split; [split | .. ]; intros;
    repeat match goal with H : _ /\ _ |- _ => destruct H end;
    (split; [ | try assumption]).
  - apply (ws_env J HW). assumption.
  - apply (ws_clock J HW). assumption.
  - apply (ws_anim J HW). assumption.
  - apply (ws_emit J HW); assumption.
  - apply (su_rts J HJ). assumption.
  - apply (su_exposing J HJ). assumption.
  - apply (su_start J HJ). assumption.
  - apply now_normal.
  - apply (su_end J HJ). assumption.
  - apply (su_verbose J HJ). assumption.
  - apply (su_log J HJ). assumption.
  - apply (su_call J HJ). assumption.
  - apply (su_close J HJ). assumption.
  - apply (su_exit J HJ). assumption.
Qed.

Lemma sturdy_end_normal J :
  sturdy J -> sturdy (fun w => J w /\ normal_tv (exp_end (g w))).
Proof.
  intros HJ. pose proof (su_wait J HJ) as HW.
  split; [split | .. ]; intros;
    repeat match goal with H : _ /\ _ |- _ => destruct H end;
    (split; [ | try assumption]).
  - apply (ws_env J HW). assumption.
  - apply (ws_clock J HW). assumption.
  - apply (ws_anim J HW). assumption.
  - apply (ws_emit J HW); assumption.
  - apply (su_rts J HJ). assumption.
  - apply (su_exposing J HJ). assumption.
  - apply (su_start J HJ). assumption.
  - apply (su_end J HJ). assumption.
  - apply now_normal.
  - apply (su_verbose J HJ). assumption.
  - apply (su_log J HJ). assumption.
  - apply (su_call J HJ). assumption.
  - apply (su_close J HJ). assumption.
  - apply (su_exit J HJ). assumption.
Qed.

Section Stamps.
Variable J : world -> Prop.
Hypothesis J_sturdy : sturdy J.
Variable E : world -> Prop.

Let J1 := fun w => J w /\ normal_tv (exp_start (g w)).
Let J2 := fun w => J1 w /\ normal_tv (exp_end (g w)).
Let J1_sturdy : sturdy J1 := sturdy_start_normal J J_sturdy.
Let J2_sturdy : sturdy J2 := sturdy_end_normal J1 J1_sturdy.
Let J_env := ws_env J (su_wait J J_sturdy).
Let J1_env := ws_env J1 (su_wait J1 J1_sturdy).

Ltac step L :=
  apply post_bind; eapply post_mono;
  [apply L | simpl
   | intros; tauto | unfold J2, J1; intros; tauto
   | unfold J2, J1; intros; tauto].

Lemma stamped_timed_exposure fuel w :
  J w ->
  post (fun _ w' => J w' /\ stamps_normal w') E J J
    ((gettimeofday_exp_start ;;
      set_exposing true ;;
      t <- read_cfg exp_time ;;
      sleep_verbose fuel t ;;
      set_exposing false ;;
      gettimeofday_exp_end ;;
      shutter_release) w).
Proof.
  intros H0.
  unfold gettimeofday_exp_start, set_exposing, gettimeofday_exp_end.
  step (post_stmt J J_env E J J1); [exact H0 | | ].
  { intros w' H'. split; [apply (su_start J J_sturdy), H' | apply now_normal]. }
  intros _ w1 H1.
  step (post_stmt J1 J1_env E J1 J1);
    [exact H1 | intros w' H'; apply (su_exposing J1 J1_sturdy), H' | ].
  intros _ w2 H2. apply post_bind, post_read_cfg.
  step (post_sleep_verbose J1 (su_wait J1 J1_sturdy) E); [exact H2 | ].
  intros _ w3 H3.
  step (post_stmt J1 J1_env E J1 J1);
    [exact H3 | intros w' H'; apply (su_exposing J1 J1_sturdy), H' | ].
  intros _ w4 H4.
  step (post_stmt J1 J1_env E J1 J2); [exact H4 | | ].
  { intros w' H'. split; [apply (su_end J1 J1_sturdy), H' | apply now_normal]. }
  intros _ w5 H5.
  eapply post_mono; [apply (sturdy_set_rts J2 J2_sturdy E), H5 | simpl | .. ];
    unfold stamps_normal, J2, J1; intros; tauto.
Qed.

Lemma stamped_expose fuel msec w :
  J w -> mlu_method (cfg w) = 1 \/ mlu_method (cfg w) = 2 ->
  post (fun _ w' => J w' /\ stamps_normal w') E J J (expose fuel msec w).
Proof.
  intros H0 Hm. unfold expose. apply post_bind, post_read_cfg.
  destruct (Z.eqb_spec (mlu_method (cfg w)) 1) as [_ | N1];
    [ | destruct (Z.eqb_spec (mlu_method (cfg w)) 2) as [_ | N2]; [ | lia]].
  - unfold shutter_fire.
    step (sturdy_set_rts J J_sturdy E); [exact H0 | ]. intros _ w1 H1.
    apply post_bind, post_read_cfg.
    step (post_sleep_quiet J (su_wait J J_sturdy) E); [exact H1 | ].
    intros _ w2 H2. apply stamped_timed_exposure, H2.
  - unfold shutter_fire, shutter_release at 1.
    step (sturdy_set_rts J J_sturdy E); [exact H0 | ]. intros _ w1 H1.
    apply post_bind, post_read_cfg.
    step (post_sleep_quiet J (su_wait J J_sturdy) E); [exact H1 | ].
    intros _ w2 H2.
    step (sturdy_set_rts J J_sturdy E); [exact H2 | ]. intros _ w3 H3.
    apply post_bind, post_read_cfg.
    step (post_sleep_quiet J (su_wait J J_sturdy) E); [exact H3 | ].
    intros _ w4 H4.
    step (sturdy_set_rts J J_sturdy E); [exact H4 | ]. intros _ w5 H5.
    apply stamped_timed_exposure, H5.
Qed.
End Stamps.

(** ** An undisturbed run, frame by frame *)

Lemma guider_idle_sturdy l fd : sturdy (guider_idle l fd).
Proof.
  unfold guider_idle.
  split; [split | .. ]; intros; try exact H;
    repeat rewrite ?history_set_dev, ?history_set_g, ?history_set_env;
    try (rewrite guider_emit).
  - destruct e; try contradiction; simpl; rewrite app_nil_r; exact H0.
  - simpl. rewrite app_nil_r. exact H.
  - simpl. rewrite app_nil_r. exact H.
  - simpl. rewrite app_nil_r. exact H.
  - simpl. rewrite app_nil_r. exact H.
  - simpl. rewrite app_nil_r. exact H.
  - simpl. rewrite app_nil_r. exact H.
Qed.

Lemma silent_trace_no_guider tr :
  Forall (fun te : Z * event => silent (snd te)) tr ->
  filter guider_event (map snd tr) = [].
Proof.
  induction 1 as [ | [t e] tr He _ IH]; [reflexivity | ].
  simpl in *. rewrite IH. destruct e; try contradiction; reflexivity.
Qed.

Lemma waited_guider ns w w' :
  waited ns w w' -> guider (history w') = guider (history w).
Proof.
  intros [_ _ _ _ [tr [Htr Hs]]]. unfold guider, history.
  rewrite Htr, rev_app_distr, map_app, filter_app.
  rewrite (silent_trace_no_guider (rev tr)) by (apply Forall_rev, Hs).
  apply app_nil_r.
Qed.

Lemma ms_add a b : ms (a + b) = ms a + ms b.
Proof. unfold ms. lia. Qed.

Lemma expose_known J fuel msec w :
  sturdy J -> J w -> benign w -> valid_config (cfg w) ->
  mlu_method (cfg w) = 1 \/ mlu_method (cfg w) = 2 ->
  exp_time (cfg w) / ANIMATION_STEP <= Z.of_nat fuel ->
  exists w',
    expose fuel msec w = Ret tt w' /\ cfg w' = cfg w /\ benign w' /\
    J w' /\ stamps_normal w' /\
    clock (dev w') = clock (dev w) + ms (lockup (cfg w) + exp_time (cfg w)) /\
    tv_us (exp_end (g w')) - tv_us (exp_start (g w')) = 1000 * exp_time (cfg w) /\
    log_lines (history w') = log_lines (history w).
Proof.
  intros HJ H0 Hb [Hn Ht Hp Hd Hs] Hm Hf. pose proof (benign_calm w Hb) as Hc.
  pose proof (stamped_expose J HJ (fun _ => False) fuel msec w H0 Hm) as HP.
  unfold lockup. destruct Hm as [E1 | E2].
  - pose proof (expose_method_1 fuel msec w Hc E1 Hd Ht Hf) as X.
    cbv zeta in X.
    destruct X as (w' & R & C & En & Ck & _ & _ & S0 & S1 & _ & _ & Lg).
    rewrite R in HP. simpl in HP. destruct HP as [HJ' HN].
    exists w'. rewrite E1. change (1 =? 1) with true. cbv iota.
    rewrite !ms_add.
    split; [exact R | ]. split; [exact C | ].
    split; [exact (benign_env _ _ En Hb) | ].
    split; [exact HJ' | ]. split; [exact HN | ].
    split; [lia | ]. split; [lia | exact Lg].
  - pose proof (expose_method_2 fuel msec w Hc E2 Hs Hd Ht Hf) as X.
    cbv zeta in X.
    destruct X as (w' & R & C & En & Ck & _ & _ & S0 & S1 & _ & _ & Lg).
    rewrite R in HP. simpl in HP. destruct HP as [HJ' HN].
    exists w'. rewrite E2. change (2 =? 1) with false. cbv iota.
    rewrite !ms_add.
    split; [exact R | ]. split; [exact C | ].
    split; [exact (benign_env _ _ En Hb) | ].
    split; [exact HJ' | ]. split; [exact HN | ].
    split; [lia | ]. split; [lia | exact Lg].
Qed.

Lemma log_exposure_benign w :
  benign w ->
  log_exposure w
  = Ret tt (match log_target (cfg w) with
            | Some label =>
                emit (log_line label (exp_start (g w)) (exp_end (g w))) w
            | None => w
            end).
Proof.
  intros Hb. unfold log_exposure.
  rewrite (stmt_calm _ w (benign_calm _ Hb)).
  pose proof (f_equal fopen_ok Hb) as Hf. simpl in Hf. rewrite Hf.
  reflexivity.
Qed.

Lemma log_seconds_line label t0 t1 :
  normal_tv t0 -> normal_tv t1 ->
  log_seconds (log_line label t0 t1)
  = (tv_us t1 - tv_us t0 + 500000) / 1000000.
Proof.
  intros H0 H1. destruct (timersub_spec t1 t0 H1 H0) as [Hd Hn].
  unfold log_line, log_seconds. cbv zeta. rewrite <- Hd. unfold tv_us.
  replace (tv_sec (timersub t1 t0) * 1000000 + tv_usec (timersub t1 t0) + 500000)
    with (tv_usec (timersub t1 t0) + 500000 + tv_sec (timersub t1 t0) * 1000000)
    by lia.
  rewrite Z.div_add by lia. lia.
Qed.

Lemma round_to_seconds t :
  (1000 * t + 500000) / 1000000 = (t + 500) / 1000.
Proof.
  replace (1000 * t + 500000) with ((t + 500) * 1000) by lia.
  change 1000000 with (1000 * 1000).
  apply Z.div_mul_cancel_r; lia.
Qed.

Lemma frame_run fuel i w :
  benign w -> valid_config (cfg w) -> 0 <= phd_dither_size (cfg w) <= 4 ->
  mlu_method (cfg w) = 1 \/ mlu_method (cfg w) = 2 ->
  exp_time (cfg w) / ANIMATION_STEP <= Z.of_nat fuel ->
  exists w',
    frame fuel i w = Ret tt w' /\ cfg w' = cfg w /\ benign w' /\
    phd_fd (g w') = phd_fd (g w) /\
    clock (dev w') = clock (dev w) + ms (frame_ms (cfg w) i) /\
    guider (history w') = guider (history w) ++ frame_guider (cfg w) i /\
    map log_seconds (log_lines (history w'))
    = map log_seconds (log_lines (history w)) ++ frame_log (cfg w).
Proof.
  intros Hb Hv Hs Hm Hf. pose proof (benign_calm w Hb) as Hc.
  unfold frame.
  rewrite (bind_Ret (read_cfg phd_dither_size) _ w _ w eq_refl).
  assert (Hd : exists w1,
            (if negb (i =? 1) && negb (phd_dither_size (cfg w) =? 0)
             then bind (printf MsgDithering) (fun _ => call CallDither phd_dither)
             else ret tt) w = Ret tt w1 /\ cfg w1 = cfg w /\ benign w1 /\
            g w1 = g w /\ clock (dev w1) = clock (dev w) /\
            guider (history w1) = guider (history w) ++ frame_guider (cfg w) i /\
            log_lines (history w1) = log_lines (history w)).
  { unfold frame_guider.
    destruct (negb (i =? 1) && negb (phd_dither_size (cfg w) =? 0)).
    - unfold printf. rewrite (bind_Ret _ _ _ _ _ (stmt_calm _ w Hc)).
      unfold call.
      rewrite (bind_Ret (fun w0 => Ret tt (emit (EvCall CallDither (line_state w0)) w0))
                 _ _ _ _ eq_refl).
      set (w0 := emit _ (emit _ w)).
      destruct (phd_dither_benign w0 Hb Hs) as [b [Hb0 R]].
      rewrite R. eexists. split; [reflexivity | ].
      split; [reflexivity | ]. split; [exact Hb | ].
      split; [reflexivity | ]. split; [reflexivity | ].
      unfold dither_exchange. change (cfg w0) with (cfg w) in Hb0. rewrite Hb0.
      unfold w0. rewrite !guider_emit, !log_lines_emit. simpl.
      rewrite !app_nil_r, <- app_assoc. split; reflexivity.
    - exists w. rewrite app_nil_r. repeat split. exact Hb. }
  destruct Hd as (w1 & R1 & C1 & B1 & G1 & K1 & U1 & L1).
  rewrite (bind_Ret _ _ _ _ _ R1).
  rewrite (bind_Ret (read_cfg exp_count) _ w1 _ w1 eq_refl).
  rewrite (bind_Ret _ _ _ _ _ (stmt_calm _ w1 (benign_calm _ B1))).
  set (w2 := set_g _ w1).
  assert (B2 : benign w2) by exact B1.
  assert (C2 : cfg w2 = cfg w) by exact C1.
  assert (Hp : exists w3,
            (if negb (i =? 1)
             then bind (read_cfg exp_pause) (fun p => call CallPause (sleep_quiet p))
             else ret tt) w2 = Ret tt w3 /\ cfg w3 = cfg w /\ benign w3 /\
            phd_fd (g w3) = phd_fd (g w) /\
            clock (dev w3)
            = clock (dev w) + ms (if i =? 1 then 0 else exp_pause (cfg w)) /\
            guider (history w3) = guider (history w) ++ frame_guider (cfg w) i /\
            log_lines (history w3) = log_lines (history w)).
  { destruct (i =? 1); cbn [negb].
    - exists w2. split; [reflexivity | ]. split; [exact C2 | ].
      split; [exact B2 | ]. split; [exact (f_equal phd_fd G1) | ].
      split; [change (clock (dev w2)) with (clock (dev w1)); unfold ms; lia | ].
      split; [exact U1 | exact L1].
    - rewrite (bind_Ret (read_cfg exp_pause) _ w2 _ w2 eq_refl).
      unfold call.
      rewrite (bind_Ret (fun w0 => Ret tt (emit (EvCall CallPause (line_state w0)) w0))
                 _ _ _ _ eq_refl).
      set (w0 := emit _ w2).
      destruct (sleep_quiet_waited (exp_pause (cfg w2)) w0 (benign_calm _ B2))
        as [w3 [R3 W3]].
      { rewrite C2. exact (vc_pause _ Hv). }
      destruct (waited_globals _ _ _ W3) as (_ & _ & _ & G3 & _).
      destruct (waited_device _ _ _ W3) as (D3 & _).
      destruct (waited_unseen _ _ _ W3) as (_ & _ & V3).
      exists w3. split; [exact R3 | ].
      split; [rewrite (wt_cfg _ _ _ W3); exact C2 | ].
      split; [exact (benign_waited _ _ _ W3 B2) | ].
      split; [rewrite G3; exact (f_equal phd_fd G1) | ].
      split.
      { rewrite D3, C2. change (clock (dev w0)) with (clock (dev w1)). lia. }
      split.
      { rewrite (waited_guider _ _ _ W3). unfold w0.
        rewrite guider_emit. simpl. rewrite app_nil_r. exact U1. }
      rewrite V3. unfold w0. rewrite log_lines_emit. simpl.
      rewrite app_nil_r. exact L1. }
  destruct Hp as (w3 & R3 & C3 & B3 & G3 & K3 & U3 & L3).
  rewrite (bind_Ret _ _ _ _ _ R3).
  rewrite (bind_Ret (read_cfg exp_time) _ w3 _ w3 eq_refl).
  rewrite bind_call.
  set (w4 := emit _ w3).
  destruct (expose_known (guider_idle (guider (history w3)) (phd_fd (g w3)))
              fuel (exp_time (cfg w3)) w4)
    as (w5 & R5 & C5 & B5 & [U5 G5] & N5 & K5 & S5 & L5).
  { apply guider_idle_sturdy. }
  { split; [ | reflexivity]. unfold w4. rewrite guider_emit. simpl.
    apply app_nil_r. }
  { exact B3. }
  { change (cfg w4) with (cfg w3). rewrite C3. exact Hv. }
  { change (cfg w4) with (cfg w3). rewrite C3. exact Hm. }
  { change (cfg w4) with (cfg w3). rewrite C3. exact Hf. }
  change (cfg w4) with (cfg w3) in *. rewrite C3 in *.
  rewrite (bind_Ret _ _ _ _ _ R5).
  rewrite call_eq.
  set (w6 := emit _ w5).
  rewrite (log_exposure_benign w6 B5).
  eexists. split; [reflexivity | ].
  change (cfg w6) with (cfg w5). change (g w6) with (g w5). rewrite C5.
  assert (K6 : clock (dev w5) = clock (dev w) + ms (frame_ms (cfg w) i)).
  { rewrite K5. change (clock (dev w4)) with (clock (dev w3)). rewrite K3.
    unfold frame_ms. rewrite !ms_add. lia. }
  assert (U6 : guider (history w6) = guider (history w) ++ frame_guider (cfg w) i).
  { unfold w6. rewrite guider_emit. simpl. rewrite app_nil_r, U5. exact U3. }
  assert (L6 : log_lines (history w6) = log_lines (history w)).
  { unfold w6. rewrite log_lines_emit. simpl. rewrite app_nil_r, L5.
    unfold w4. rewrite log_lines_emit. simpl. rewrite app_nil_r. exact L3. }
  unfold frame_log.
  destruct (log_target (cfg w)) as [label | ].
  - split; [exact C5 | ]. split; [exact B5 | ].
    split; [rewrite <- G3; exact G5 | ]. split; [exact K6 | ].
    split.
    { rewrite guider_emit. simpl. rewrite app_nil_r. exact U6. }
    rewrite log_lines_emit. simpl. rewrite map_app, L6. f_equal.
    change (map log_seconds [log_line label (exp_start (g w5)) (exp_end (g w5))])
      with [log_seconds (log_line label (exp_start (g w5)) (exp_end (g w5)))].
    destruct N5 as [N0 N1].
    rewrite (log_seconds_line label _ _ N0 N1), S5, round_to_seconds.
    reflexivity.
  - split; [exact C5 | ]. split; [exact B5 | ].
    split; [rewrite <- G3; exact G5 | ]. split; [exact K6 | ].
    split; [exact U6 | ]. rewrite L6, app_nil_r. reflexivity.
Qed.

Lemma frame_later c i :
  i <> 1 -> frame_ms c i = frame_ms c 2 /\ frame_guider c i = frame_guider c 2.
Proof.
  intros H. unfold frame_ms, frame_guider.
  destruct (Z.eqb_spec i 1); [contradiction | ]. split; reflexivity.
Qed.

Lemma main_loop_rest fuel turns : forall k i w,
  benign w -> valid_config (cfg w) -> 0 <= phd_dither_size (cfg w) <= 4 ->
  mlu_method (cfg w) = 1 \/ mlu_method (cfg w) = 2 ->
  exp_time (cfg w) / ANIMATION_STEP <= Z.of_nat fuel ->
  2 <= i -> exp_count (cfg w) + 1 - i = Z.of_nat k -> (k <= turns)%nat ->
  exists w',
    main_loop fuel turns i w = Ret tt w' /\ benign w' /\
    phd_fd (g w') = phd_fd (g w) /\
    clock (dev w') = clock (dev w) + ms (Z.of_nat k * frame_ms (cfg w) 2) /\
    guider (history w')
    = guider (history w) ++ List.concat (repeat (frame_guider (cfg w) 2) k) /\
    map log_seconds (log_lines (history w'))
    = map log_seconds (log_lines (history w))
      ++ List.concat (repeat (frame_log (cfg w)) k).
Proof.
  induction turns as [ | turns IH]; intros k i w Hb Hv Hs Hm Hf Hi Hk Ht;
    cbn [main_loop];
    rewrite (bind_Ret (read_cfg exp_count) _ w _ w eq_refl);
    destruct (Z.leb_spec i (exp_count (cfg w))) as [Hle | Hgt];
    try lia;
    try (assert (k = 0%nat) by lia; subst k; exists w;
         split; [reflexivity | ]; split; [exact Hb | ]; split; [reflexivity | ];
         split; [unfold ms; simpl; lia | ];
         split; simpl; rewrite app_nil_r; reflexivity).
  destruct k as [ | k]; [lia | ].
  destruct (frame_run fuel i w Hb Hv Hs Hm Hf)
    as (w1 & R1 & C1 & B1 & G1 & K1 & U1 & L1).
  rewrite (bind_Ret _ _ _ _ _ R1).
  pose proof (vc_count _ Hv) as Hn.
  rewrite (to_uint_small (i + 1)) by lia.
  destruct (frame_later (cfg w) i ltac:(lia)) as [Fm Fg].
  rewrite Fm in K1. rewrite Fg in U1.
  destruct (IH k (i + 1) w1) as (w2 & R2 & B2 & G2 & K2 & U2 & L2);
    try rewrite C1; try assumption; try lia.
  rewrite C1 in *.
  exists w2. split; [exact R2 | ]. split; [exact B2 | ].
  split; [congruence | ].
  split.
  { rewrite K2, K1, Nat2Z.inj_succ. unfold ms. lia. }
  split.
  { rewrite U2, U1. cbn [repeat List.concat]. rewrite <- !app_assoc.
    reflexivity. }
  rewrite L2, L1. cbn [repeat List.concat]. rewrite <- !app_assoc.
  reflexivity.
Qed.

Lemma phd_connect_run w :
  benign w ->
  exists w',
    phd_connect w = Ret tt w' /\ cfg w' = cfg w /\ benign w' /\
    clock (dev w') = clock (dev w) /\
    phd_fd (g w')
    = (if phd_dither_size (cfg w) =? 0 then phd_fd (g w) else SOCK_FD) /\
    guider (history w')
    = guider (history w)
      ++ (if phd_dither_size (cfg w) =? 0 then [] else [EvSocket; EvConnect]) /\
    log_lines (history w') = log_lines (history w).
Proof.
  intros Hb. pose proof (benign_calm w Hb) as Hc.
  pose proof (f_equal socket_ok Hb) as H1.
  pose proof (f_equal resolve_ok Hb) as H2.
  pose proof (f_equal connect_ok Hb) as H3. simpl in H1, H2, H3.
  destruct (Z.eqb_spec (phd_dither_size (cfg w)) 0) as [E0 | N0].
  - exists w. unfold phd_connect.
    rewrite (bind_Ret (read_cfg phd_dither_size) _ w _ w eq_refl), E0.
    rewrite app_nil_r. repeat split. exact Hb.
  - rewrite (phd_connect_calm w Hc N0), H1, H2, H3. cbv zeta.
    eexists. split; [reflexivity | ]. split; [reflexivity | ].
    split; [exact Hb | ]. split; [reflexivity | ]. split; [reflexivity | ].
    rewrite guider_emit, log_lines_emit, history_set_g, guider_emit,
      log_lines_emit, history_set_dev. simpl.
    rewrite !app_nil_r, <- app_assoc. split; reflexivity.
Qed.

Lemma phd_disconnect_run w :
  benign w ->
  exists w',
    phd_disconnect w = Ret tt w' /\ benign w' /\
    clock (dev w') = clock (dev w) /\
    guider (history w')
    = guider (history w)
      ++ (if phd_fd (g w) =? -1 then [] else [EvClose FdSocket]) /\
    log_lines (history w') = log_lines (history w).
Proof.
  intros Hb. unfold phd_disconnect.
  rewrite (bind_Ret (read_g phd_fd) _ w _ w eq_refl).
  destruct (phd_fd (g w) =? -1).
  - exists w. rewrite app_nil_r. repeat split. exact Hb.
  - unfold close. rewrite (stmt_calm _ w (benign_calm _ Hb)).
    eexists. split; [reflexivity | ]. split; [exact Hb | ].
    split; [reflexivity | ].
    rewrite guider_emit, log_lines_emit, history_set_dev. simpl.
    rewrite app_nil_r. split; reflexivity.
Qed.

Lemma concat_repeat_nil {A} k : List.concat (repeat (@nil A) k) = [].
Proof. induction k; simpl; auto. Qed.

Lemma main_run fuel w :
  undisturbed fuel w ->
  let c := cfg w in
  let n := exp_count c in
  exists w',
    main fuel w = Ret 0 w' /\ benign w' /\
    clock (dev w')
    = clock (dev w) + ms (n * (lockup c + exp_time c) + (n - 1) * exp_pause c) /\
    (phd_fd (g w) = -1 ->
     guider (history w') = guider (history w) ++ session c (Z.to_nat n)) /\
    map log_seconds (log_lines (history w'))
    = map log_seconds (log_lines (history w))
      ++ List.concat (repeat (frame_log c) (Z.to_nat n)).
Proof.
  intros [Hb Hv Hs Hm Hf Hn] c n. pose proof (benign_calm w Hb) as Hc.
  assert (Hcount : 1 <= n < UINT_MAX) by exact (vc_count _ Hv).
  assert (Hturns : n <= Z.of_nat fuel) by exact Hn.
  unfold main, shutter_release.
  rewrite (bind_Ret _ _ _ _ _ (set_rts_calm 0 w Hc)).
  set (w1 := emit _ _).
  assert (U1 : guider (history w1) = guider (history w)).
  { unfold w1. rewrite guider_emit, history_set_dev. simpl. apply app_nil_r. }
  assert (L1 : log_lines (history w1) = log_lines (history w)).
  { unfold w1. rewrite log_lines_emit, history_set_dev. simpl. apply app_nil_r. }
  destruct (phd_connect_run w1 Hb) as (w2 & R2 & C2 & B2 & K2 & G2 & U2 & L2).
  rewrite (bind_Ret _ _ _ _ _ R2).
  change (cfg w1) with c in *. change (clock (dev w1)) with (clock (dev w)) in K2.
  change (phd_fd (g w1)) with (phd_fd (g w)) in G2.
  destruct fuel as [ | turns]; [lia | ].
  assert (Hloop : exists w4,
            main_loop (S turns) (S turns) 1 w2 = Ret tt w4 /\ benign w4 /\
            phd_fd (g w4) = phd_fd (g w2) /\
            clock (dev w4)
            = clock (dev w2) + ms (frame_ms c 1 + (n - 1) * frame_ms c 2) /\
            guider (history w4)
            = guider (history w2)
              ++ List.concat (repeat (frame_guider c 2) (Z.to_nat n - 1)) /\
            map log_seconds (log_lines (history w4))
            = map log_seconds (log_lines (history w2))
              ++ List.concat (repeat (frame_log c) (Z.to_nat n))).
  { cbn [main_loop].
    rewrite (bind_Ret (read_cfg exp_count) _ w2 _ w2 eq_refl), C2.
    fold n. destruct (Z.leb_spec 1 n) as [_ | ]; [ | lia].
    destruct (frame_run (S turns) 1 w2) as (w3 & R3 & C3 & B3 & G3 & K3 & U3 & L3);
      try rewrite C2; try assumption.
    rewrite C2 in *. rewrite (bind_Ret _ _ _ _ _ R3).
    change (to_uint (1 + 1)) with 2.
    destruct (main_loop_rest (S turns) turns (Z.to_nat n - 1) 2 w3)
      as (w4 & R4 & B4 & G4 & K4 & U4 & L4);
      try rewrite C3; try assumption; try lia.
    rewrite C3 in *.
    exists w4. split; [exact R4 | ]. split; [exact B4 | ].
    split; [congruence | ].
    split.
    { rewrite K4, K3. replace (Z.of_nat (Z.to_nat n - 1)) with (n - 1) by lia.
      rewrite ms_add. lia. }
    split.
    { rewrite U4, U3. unfold frame_guider at 1. change (1 =? 1) with true.
      simpl negb. cbv iota. rewrite app_nil_r. reflexivity. }
    rewrite L4, L3. rewrite <- app_assoc. f_equal.
    replace (Z.to_nat n) with (S (Z.to_nat n - 1)) at 2 by lia.
    reflexivity. }
  destruct Hloop as (w4 & R4 & B4 & G4 & K4 & U4 & L4).
  rewrite (bind_Ret _ _ _ _ _ R4).
  destruct (phd_disconnect_run w4 B4) as (w5 & R5 & B5 & K5 & U5 & L5).
  rewrite (bind_Ret _ _ _ _ _ R5).
  exists w5. split; [reflexivity | ]. split; [exact B5 | ].
  split.
  { rewrite K5, K4, K2. f_equal. f_equal. unfold frame_ms.
    change (1 =? 1) with true. change (2 =? 1) with false. cbv iota. lia. }
  split.
  { intros Hfd. rewrite U5, U4, U2, U1, G4, G2, Hfd. unfold session, frame_guider.
    change (2 =? 1) with false. simpl negb.
    destruct (phd_dither_size c =? 0).
    - simpl. rewrite concat_repeat_nil. rewrite !app_nil_r. reflexivity.
    - change (SOCK_FD =? -1) with false. cbv iota. simpl andb. cbv iota.
      rewrite <- !app_assoc. reflexivity. }
  rewrite L5, L4, L2, L1. reflexivity.
Qed.

Lemma ssc_of_main fuel w status w' :
  main fuel w = Ret status w' -> calm w' ->
  ssc fuel w = Exit status (closed w').
Proof.
  intros Hm Hc. unfold ssc, run.
  rewrite (bind_Ret _ _ _ _ _ Hm). unfold exit.
  rewrite (bind_Ret _ _ _ _ _ (tick_calm w' Hc)). reflexivity.
Qed.

Lemma concat_repeat_singleton {A} (x : A) k :
  List.concat (repeat [x] k) = repeat x k.
Proof. induction k as [ | k IH]; simpl; [ | rewrite IH]; reflexivity. Qed.

Lemma undisturbed_world_session : undisturbed 3 world_session.
Proof.
  split.
  - reflexivity.
  - split; unfold UINT_MAX, INT_MAX, ANIMATION_STEP; simpl; lia.
  - simpl. lia.
  - right. reflexivity.
  - vm_compute. discriminate.
  - simpl. lia.
Defined.

(** X12 (main, lines 233 to 257; expose; sleep_quiet; sleep_verbose): the
    waits of an undisturbed run add up.  A run of [n] frames that nothing
    disturbs ends with exit status 0 after it has waited, in all, [n] times
    the lock-up and the exposure time, and [n - 1] times the pause: the
    first frame is not preceded by a pause, and no wait is cut short or
    repeated. *)
Theorem undisturbed_run_time (fuel : nat) (w : world) :
  undisturbed fuel w ->
  let c := cfg w in
  let n := exp_count c in
  exists w',
    ssc fuel w = Exit 0 w' /\
    clock (dev w')
    = clock (dev w) + ms (n * (lockup c + exp_time c) + (n - 1) * exp_pause c).
Proof.
  intros H c n.
  destruct (main_run fuel w H) as (w1 & R & B & K & _).
  exists (closed w1). split; [ | exact K].
  apply ssc_of_main; [exact R | exact (benign_calm _ B)].
Qed.

Lemma undisturbed_run_time_witness :
  undisturbed 3 world_session /\
  exists w',
    ssc 3 world_session = Exit 0 w' /\ clock (dev w') = 19600 * 1000000.
Proof.
  split; [exact undisturbed_world_session | ].
  destruct (undisturbed_run_time 3 world_session undisturbed_world_session)
    as (w' & R & K).
  exists w'. split; [exact R | ]. rewrite K. reflexivity.
Defined.

(** X13 (phd_connect, phd_dither, phd_disconnect, main): the guider session
    of an undisturbed run.  With dither enabled the run opens one socket and
    connects once, then before every frame but the first sends the command
    byte of the level and reads one byte back, and closes the socket after
    the last frame; with dither disabled there is no traffic at all. *)
Theorem undisturbed_run_guider_session (fuel : nat) (w : world) :
  undisturbed fuel w -> phd_fd (g w) = -1 ->
  exists w',
    ssc fuel w = Exit 0 w' /\
    guider (history w')
    = guider (history w) ++ session (cfg w) (Z.to_nat (exp_count (cfg w))).
Proof.
  intros H Hfd.
  destruct (main_run fuel w H) as (w1 & R & B & _ & U & _).
  exists (closed w1). split; [ | exact (U Hfd)].
  apply ssc_of_main; [exact R | exact (benign_calm _ B)].
Qed.

Lemma undisturbed_run_guider_session_witness :
  undisturbed 3 world_session /\ phd_fd (g world_session) = -1 /\
  exists w',
    ssc 3 world_session = Exit 0 w' /\
    guider (history w')
    = [EvSocket; EvConnect; EvWrite 12; EvRead; EvWrite 12; EvRead;
       EvClose FdSocket].
Proof.
  split; [exact undisturbed_world_session | ]. split; [reflexivity | ].
  destruct (undisturbed_run_guider_session 3 world_session
              undisturbed_world_session eq_refl) as (w' & R & U).
  exists w'. split; [exact R | ]. rewrite U. reflexivity.
Defined.

(** X14 (log_exposure, expose, main): the log of an undisturbed run.  A run
    of [n] frames with a label appends [n] records to the log, one per
    frame, and each carries as duration the exposure time rounded to the
    nearest second; without a label nothing is logged. *)
Theorem undisturbed_run_log (fuel : nat) (w : world) :
  undisturbed fuel w ->
  let c := cfg w in
  exists w',
    ssc fuel w = Exit 0 w' /\
    map log_seconds (log_lines (history w'))
    = map log_seconds (log_lines (history w))
      ++ match log_target c with
         | Some _ => repeat ((exp_time c + 500) / 1000) (Z.to_nat (exp_count c))
         | None => []
         end.
Proof.
  intros H c.
  destruct (main_run fuel w H) as (w1 & R & B & _ & _ & L).
  exists (closed w1). split.
  - apply ssc_of_main; [exact R | exact (benign_calm _ B)].
  - unfold closed. rewrite history_set_dev, L. f_equal. unfold frame_log.
    fold c. destruct (log_target c).
    + apply concat_repeat_singleton.
    + apply concat_repeat_nil.
Qed.

Lemma undisturbed_run_log_witness :
  undisturbed 3 world_session /\
  exists w',
    ssc 3 world_session = Exit 0 w' /\
    map log_seconds (log_lines (history w')) = [1; 1; 1].
Proof.
  split; [exact undisturbed_world_session | ].
  destruct (undisturbed_run_log 3 world_session undisturbed_world_session)
    as (w' & R & L).
  exists w'. split; [exact R | ]. rewrite L. reflexivity.
Defined.

(** * The timed wait at the width of [unsigned int] *)

(** While no sum [sofar + ANIMATION_STEP] wraps, the loop of
    [sleep_verbose] ends, [sofar] within a tick of [msec]. *)
Lemma sleep_verbose_loop_no_wrap fuel msec : forall sofar w,
  calm w -> 0 <= sofar <= msec ->
  sofar + ((msec - sofar) / ANIMATION_STEP + 1) * ANIMATION_STEP <= UINT_MAX ->
  (msec - sofar) / ANIMATION_STEP <= Z.of_nat fuel ->
  exists sofar' w',
    sleep_verbose_loop fuel msec sofar w = Ret sofar' w' /\
    sofar <= sofar' <= msec /\ msec - sofar' < ANIMATION_STEP /\
    waited (ms (sofar' - sofar)) w w'.
Proof.
  unfold UINT_MAX, ANIMATION_STEP.
  induction fuel as [ | fuel IH]; intros sofar w Hc Hs Hm Hf;
    cbn [sleep_verbose_loop]; unfold ANIMATION_STEP;
    assert (Hq : 0 <= (msec - sofar) / 500) by (apply Z.div_pos; lia);
    rewrite (to_uint_small (sofar + 500)) by (unfold UINT_MAX; lia);
    destruct (Z.leb_spec (sofar + 500) msec) as [Hle | Hgt].
  - exfalso.
    assert (1 <= (msec - sofar) / 500) by (apply Z.div_le_lower_bound; lia).
    lia.
  - exists sofar, w. split; [reflexivity | ].
    split; [lia | split; [lia | ]].
    replace (sofar - sofar) with 0 by lia. apply waited_refl.
  - unfold bind at 1. rewrite stmt_calm by exact Hc.
    set (w1 := emit _ (set_g _ w)).
    assert (W1 : waited 0 w w1) by apply waited_progress.
    assert (C1 : calm w1) by exact Hc.
    unfold bind at 1. rewrite stmt_calm by exact C1. cbv beta.
    set (w2 := set_g _ w1).
    assert (W2 : waited 0 w1 w2) by apply waited_animation_step.
    assert (C2 : calm w2) by exact Hc.
    unfold bind at 1.
    destruct (sleep_quiet_waited 500 w2 C2 ltac:(unfold UINT_MAX; lia))
      as [w3 [Hrun W3]].
    unfold ANIMATION_STEP. rewrite Hrun.
    assert (Hd : (msec - (sofar + 500)) / 500 = (msec - sofar) / 500 - 1).
    { replace (msec - (sofar + 500)) with ((msec - sofar) + (-1) * 500) by lia.
      rewrite Z.div_add by lia. lia. }
    destruct (IH (sofar + 500) w3) as [sofar' [w' [Hloop [Hb [Hlt Hw]]]]].
    + exact (waited_calm _ _ _ W3 C2).
    + lia.
    + rewrite Hd. lia.
    + rewrite Hd. lia.
    + exists sofar', w'. split; [exact Hloop | ].
      split; [lia | split; [lia | ]].
      replace (ms (sofar' - sofar))
        with (0 + 0 + ms 500 + ms (sofar' - (sofar + 500))) by (unfold ms; lia).
      eapply waited_trans; [ | exact Hw].
      eapply waited_trans; [ | exact W3].
      eapply waited_trans; [exact W1 | exact W2].
  - exists sofar, w. split; [reflexivity | ].
    split; [lia | split; [lia | ]].
    replace (sofar - sofar) with 0 by lia. apply waited_refl.
Qed.

Lemma sleep_verbose_below_wrap fuel msec w :
  calm w -> 0 <= msec < WRAP_MSEC ->
  msec / ANIMATION_STEP <= Z.of_nat fuel ->
  exists w', sleep_verbose fuel msec w = Ret tt w' /\ waited (ms msec) w w'.
Proof.
  intros Hc Hm Hf. unfold sleep_verbose, bind at 1, read_cfg.
  assert (Hu : 0 <= msec <= UINT_MAX)
    by (unfold WRAP_MSEC, UINT_MAX, ANIMATION_STEP in *; simpl in Hm; lia).
  destruct (quiet (cfg w)); [apply sleep_quiet_waited; assumption | ].
  destruct (sleep_verbose_loop_no_wrap fuel msec 0 w Hc)
    as [sofar [w1 [Hloop [Hb [Hlt W1]]]]]; try lia.
  { rewrite Z.sub_0_r, Z.add_0_l.
    assert (msec / ANIMATION_STEP < 8589934).
    { apply Z.div_lt_upper_bound; unfold ANIMATION_STEP; [lia | ].
      unfold WRAP_MSEC, UINT_MAX, ANIMATION_STEP in Hm. simpl in Hm. lia. }
    unfold ANIMATION_STEP, UINT_MAX in *. lia. }
  { rewrite Z.sub_0_r. exact Hf. }
  unfold bind at 1. rewrite Hloop. unfold bind at 1.
  assert (C1 : calm w1) by exact (waited_calm _ _ _ W1 Hc).
  rewrite (to_uint_small (msec - sofar)) by lia.
  destruct (sleep_quiet_waited (msec - sofar) w1 C1 ltac:(lia)) as [w2 [Hq W2]].
  rewrite Hq. unfold bind, read_g, printf.
  assert (C2 : calm w2) by exact (waited_calm _ _ _ W2 C1).
  rewrite stmt_calm by exact C2.
  eexists. split; [reflexivity | ].
  replace (ms msec) with (ms (sofar - 0) + ms (msec - sofar) + 0)
    by (unfold ms; lia).
  eapply waited_trans; [ | apply waited_printf].
  eapply waited_trans; [exact W1 | exact W2].
Qed.

(** One turn of the loop: a wait of one tick. *)
Lemma sleep_verbose_loop_turn fuel msec sofar w :
  calm w -> to_uint (sofar + ANIMATION_STEP) <= msec ->
  exists w',
    calm w' /\ clock (dev w') = clock (dev w) + ms ANIMATION_STEP /\
    sleep_verbose_loop (S fuel) msec sofar w
    = sleep_verbose_loop fuel msec (to_uint (sofar + ANIMATION_STEP)) w'.
Proof.
  intros Hc Hle. cbn [sleep_verbose_loop].
  destruct (Z.leb_spec (to_uint (sofar + ANIMATION_STEP)) msec) as [_ | ];
    [ | lia].
  unfold bind at 1. rewrite stmt_calm by exact Hc.
  set (w1 := emit _ (set_g _ w)).
  unfold bind at 1. rewrite (stmt_calm _ w1 Hc). cbv beta.
  set (w2 := set_g _ w1).
  assert (C2 : calm w2) by exact Hc.
  unfold bind at 1.
  destruct (sleep_quiet_waited ANIMATION_STEP w2 C2
              ltac:(unfold ANIMATION_STEP, UINT_MAX; lia)) as [w3 [Hrun W3]].
  rewrite Hrun. exists w3.
  split; [exact (waited_calm _ _ _ W3 C2) | ].
  split; [exact (proj1 (waited_device _ _ _ W3)) | reflexivity].
Qed.

(** The loop makes every turn whose sum stays within [msec] without
    wrapping. *)
Lemma sleep_verbose_loop_turns msec : forall (n fuel : nat) sofar w,
  calm w -> 0 <= sofar ->
  sofar + ANIMATION_STEP * Z.of_nat n <= msec -> msec <= UINT_MAX ->
  ((fuel < n)%nat ->
   exists w', sleep_verbose_loop fuel msec sofar w = Running w') /\
  ((n <= fuel)%nat ->
   exists w',
     calm w' /\
     clock (dev w') = clock (dev w) + ms (ANIMATION_STEP * Z.of_nat n) /\
     sleep_verbose_loop fuel msec sofar w
     = sleep_verbose_loop (fuel - n) msec
         (sofar + ANIMATION_STEP * Z.of_nat n) w').
Proof.
  induction n as [ | n IH]; intros fuel sofar w Hc Hs Hm Hu.
  - split; [lia | ]. intros _. exists w. split; [exact Hc | ].
    split; [unfold ms; simpl; lia | ].
    rewrite Nat.sub_0_r. f_equal. simpl. lia.
  - assert (Hsmall : to_uint (sofar + ANIMATION_STEP) = sofar + ANIMATION_STEP)
      by (apply to_uint_small; unfold ANIMATION_STEP in *; lia).
    destruct fuel as [ | fuel].
    { split; [ | lia]. intros _. exists w. cbn [sleep_verbose_loop].
      rewrite Hsmall.
      destruct (Z.leb_spec (sofar + ANIMATION_STEP) msec) as [_ | ];
        [reflexivity | unfold ANIMATION_STEP in *; lia]. }
    destruct (sleep_verbose_loop_turn fuel msec sofar w Hc)
      as (w1 & C1 & K1 & E1).
    { rewrite Hsmall. unfold ANIMATION_STEP in *. lia. }
    rewrite E1, Hsmall.
    destruct (IH fuel (sofar + ANIMATION_STEP) w1 C1) as [IH1 IH2];
      try (unfold ANIMATION_STEP in *; lia).
    split.
    + intros Hlt. apply IH1. lia.
    + intros Hle. destruct (IH2 ltac:(lia)) as (w' & C' & K' & E').
      exists w'. split; [exact C' | ]. split.
      * rewrite K', K1. unfold ms. lia.
      * rewrite E'. cbn [Nat.sub]. f_equal. lia.
Qed.

(** Under [calm] the loop never sets the clock back. *)
Lemma sleep_verbose_loop_onward msec : forall fuel sofar w,
  calm w ->
  match sleep_verbose_loop fuel msec sofar w with
  | Ret _ w' => calm w' /\ clock (dev w) <= clock (dev w')
  | Running _ => True
  | _ => False
  end.
Proof.
  induction fuel as [ | fuel IH]; intros sofar w Hc.
  - cbn [sleep_verbose_loop].
    destruct (to_uint (sofar + ANIMATION_STEP) <=? msec);
      [exact I | simpl; split; [exact Hc | lia]].
  - destruct (Z.le_gt_cases (to_uint (sofar + ANIMATION_STEP)) msec)
      as [Hle | Hgt].
    + destruct (sleep_verbose_loop_turn fuel msec sofar w Hc Hle)
        as (w1 & C1 & K1 & E1).
      rewrite E1.
      specialize (IH (to_uint (sofar + ANIMATION_STEP)) w1 C1).
      destruct (sleep_verbose_loop fuel msec (to_uint (sofar + ANIMATION_STEP)) w1);
        try exact IH.
      destruct IH as [C' K']. split; [exact C' | ].
      rewrite K1 in K'. unfold ms, ANIMATION_STEP in K'. lia.
    + cbn [sleep_verbose_loop].
      destruct (Z.leb_spec (to_uint (sofar + ANIMATION_STEP)) msec); [lia | ].
      simpl. split; [exact Hc | lia].
Qed.

(** From [WRAP_MSEC] on, the sum wraps before the loop is over: the wait
    with feedback goes on for at least one tick more than [WRAP_MSEC]. *)
Lemma sleep_verbose_from_wrap fuel msec w :
  calm w -> quiet (cfg w) = false -> WRAP_MSEC <= msec <= UINT_MAX ->
  match sleep_verbose fuel msec w with
  | Ret _ w' =>
      clock (dev w) + ms (WRAP_MSEC + ANIMATION_STEP) <= clock (dev w')
  | Running _ => True
  | _ => False
  end.
Proof.
  intros Hc Hq Hm. unfold sleep_verbose, bind at 1, read_cfg. rewrite Hq.
  remember (Z.to_nat 8589934) as turns eqn:Hturns.
  assert (HW : WRAP_MSEC = ANIMATION_STEP * Z.of_nat turns).
  { subst turns. rewrite Z2Nat.id by lia. reflexivity. }
  clear Hturns.
  assert (Hfacts : 204 <= msec /\ 0 <= WRAP_MSEC).
  { unfold WRAP_MSEC, UINT_MAX, ANIMATION_STEP in Hm |- *. simpl in Hm |- *. lia. }
  destruct (sleep_verbose_loop_turns msec turns fuel 0 w Hc) as [T1 T2];
    try lia.
  destruct (Nat.lt_ge_cases fuel turns) as [Hlt | Hge].
  { destruct (T1 Hlt) as [w' R]. unfold bind. rewrite R. exact I. }
  destruct (T2 Hge) as (w1 & C1 & K1 & E1). clear T1 T2.
  rewrite Z.add_0_l, <- HW in E1. rewrite <- HW in K1.
  unfold bind at 1. rewrite E1.
  destruct (fuel - turns)%nat as [ | rest].
  { cbn [sleep_verbose_loop].
    change (to_uint (WRAP_MSEC + ANIMATION_STEP)) with 204.
    destruct (Z.leb_spec 204 msec); [exact I | lia]. }
  destruct (sleep_verbose_loop_turn rest msec WRAP_MSEC w1 C1)
    as (w4 & C4 & K4 & E4).
  { change (to_uint (WRAP_MSEC + ANIMATION_STEP)) with 204. lia. }
  rewrite E4.
  pose proof (sleep_verbose_loop_onward msec rest
                (to_uint (WRAP_MSEC + ANIMATION_STEP)) w4 C4) as Hon.
  destruct (sleep_verbose_loop rest msec (to_uint (WRAP_MSEC + ANIMATION_STEP)) w4)
    as [sofar w5 | | | | ]; try exact Hon.
  destruct Hon as [C5 K5].
  destruct (sleep_quiet_waited (to_uint (msec - sofar)) w5 C5
              (to_uint_range _)) as [w6 [Hq6 W6]].
  unfold bind at 1. rewrite Hq6. unfold bind, read_g, printf.
  rewrite stmt_calm by exact (waited_calm _ _ _ W6 C5).
  destruct (waited_device _ _ _ W6) as (D6 & _).
  pose proof (to_uint_range (msec - sofar)) as Hr.
  change (clock (dev (emit (EvPrintf (MsgDone (verbose (g w6)))) w6)))
    with (clock (dev w6)).
  rewrite D6. rewrite K4, K1 in K5. rewrite ms_add. unfold ms in *. lia.
Qed.

(** C9, as the code has it.  For every duration [msec] below 4294967000
    ([WRAP_MSEC]; every value [main] can pass without an overflow of its
    own is one), with the feedback on or off and whatever spurious wake-ups
    occur, the timed wait [sleep_verbose msec] returns after exactly [msec]
    milliseconds, as [sleep_quiet msec] does, and like it changes nothing
    but the clock: the modem bits are untouched and only sleeps and console
    output are added to the trace.  From 4294967000 on the two differ:
    [sleep_quiet msec] still waits [msec], while with the feedback on the
    loop test wraps and [sleep_verbose msec], if it returns at all, returns
    later than after any time an [unsigned int] of milliseconds can
    express. *)
Theorem sleep_verbose_waits_msec (fuel : nat) (msec : Z) (w : world) :
  calm w ->
  0 <= msec <= UINT_MAX ->
  (exists wq, sleep_quiet msec w = Ret tt wq /\ waited (ms msec) w wq) /\
  (msec < WRAP_MSEC -> msec / ANIMATION_STEP <= Z.of_nat fuel ->
   exists wv, sleep_verbose fuel msec w = Ret tt wv /\ waited (ms msec) w wv) /\
  (WRAP_MSEC <= msec -> quiet (cfg w) = false ->
   match sleep_verbose fuel msec w with
   | Ret _ wv => clock (dev w) + ms UINT_MAX < clock (dev wv)
   | Running _ => True
   | _ => False
   end).
Proof.
  intros Hc Hm. split; [ | split].
  - apply sleep_quiet_waited; assumption.
  - intros Hlt Hf. apply sleep_verbose_below_wrap; [exact Hc | lia | exact Hf].
  - intros Hge Hq.
    pose proof (sleep_verbose_from_wrap fuel msec w Hc Hq (conj Hge (proj2 Hm)))
      as H.
    destruct (sleep_verbose fuel msec w); try exact H.
    unfold WRAP_MSEC, UINT_MAX, ANIMATION_STEP, ms in *. simpl in H. lia.
Qed.

Lemma sleep_verbose_waits_msec_witness :
  calm world0 /\
  exists wv wq,
    sleep_verbose 4 1200 world0 = Ret tt wv /\ waited (ms 1200) world0 wv /\
    sleep_quiet 1200 world0 = Ret tt wq /\ waited (ms 1200) world0 wq.
Proof.
  split; [reflexivity | ].
  destruct (sleep_verbose_waits_msec 4 1200 world0) as ((wq & Rq & Wq) & Hv & _).
  - reflexivity.
  - unfold UINT_MAX. lia.
  - destruct Hv as (wv & Rv & Wv).
    + reflexivity.
    + vm_compute. discriminate.
    + exists wv, wq. exact (conj Rv (conj Wv (conj Rq Wq))).
Defined.

(** * An unknown MLU method, through the run *)

Lemma mlu_reports_emit e w :
  mlu_reports (history (emit e w))
  = mlu_reports (history w)
    ++ match e with EvPrintf (MsgUnknownMLU x) => [x] | _ => [] end.
Proof.
  unfold mlu_reports. rewrite console_emit, flat_map_app. f_equal.
  destruct e as [ | | | | m | | | | | | | ]; try reflexivity.
  destruct m; reflexivity.
Qed.

Lemma expose_unknown fuel msec w :
  mlu_method (cfg w) <> 1 -> mlu_method (cfg w) <> 2 ->
  expose fuel msec w = printf (MsgUnknownMLU (mlu_method (cfg w))) w.
Proof.
  intros N1 N2. unfold expose.
  rewrite (bind_Ret (read_cfg mlu_method) _ w _ w eq_refl).
  destruct (Z.eqb_spec (mlu_method (cfg w)) 1); [contradiction | ].
  destruct (Z.eqb_spec (mlu_method (cfg w)) 2); [contradiction | ].
  reflexivity.
Qed.

(** What a world keeps while frames are skipped. *)
Lemma frame_skipped fuel i w :
  benign w -> valid_config (cfg w) -> 0 <= phd_dither_size (cfg w) <= 4 ->
  mlu_method (cfg w) <> 1 -> mlu_method (cfg w) <> 2 ->
  exists w',
    frame fuel i w = Ret tt w' /\ cfg w' = cfg w /\ benign w' /\
    exp_start (g w') = exp_start (g w) /\ exp_end (g w') = exp_end (g w) /\
    phd_fd (g w') = phd_fd (g w) /\
    shutter_view (history w') = shutter_view (history w) /\
    mlu_reports (history w')
    = mlu_reports (history w) ++ [mlu_method (cfg w)] /\
    log_lines (history w')
    = log_lines (history w)
      ++ stale_log (cfg w) (exp_start (g w)) (exp_end (g w)).
Proof.
  intros Hb Hv Hs N1 N2. pose proof (benign_calm w Hb) as Hc.
  unfold frame.
  rewrite (bind_Ret (read_cfg phd_dither_size) _ w _ w eq_refl).
  assert (Hd : exists w1,
            (if negb (i =? 1) && negb (phd_dither_size (cfg w) =? 0)
             then bind (printf MsgDithering) (fun _ => call CallDither phd_dither)
             else ret tt) w = Ret tt w1 /\ cfg w1 = cfg w /\ benign w1 /\
            g w1 = g w /\
            shutter_view (history w1) = shutter_view (history w) /\
            mlu_reports (history w1) = mlu_reports (history w) /\
            log_lines (history w1) = log_lines (history w)).
  { destruct (negb (i =? 1) && negb (phd_dither_size (cfg w) =? 0)).
    - unfold printf. rewrite (bind_Ret _ _ _ _ _ (stmt_calm _ w Hc)).
      unfold call.
      rewrite (bind_Ret (fun w0 => Ret tt (emit (EvCall CallDither (line_state w0)) w0))
                 _ _ _ _ eq_refl).
      set (w0 := emit _ (emit _ w)).
      destruct (phd_dither_benign w0 Hb Hs) as [b [_ R]].
      rewrite R. eexists. split; [reflexivity | ].
      split; [reflexivity | ]. split; [exact Hb | ].
      split; [reflexivity | ].
      unfold w0.
      rewrite !shutter_view_emit, !mlu_reports_emit, !log_lines_emit. simpl.
      rewrite !app_nil_r. repeat split.
    - exists w. repeat split. exact Hb. }
  destruct Hd as (w1 & R1 & C1 & B1 & G1 & V1 & M1 & L1).
  rewrite (bind_Ret _ _ _ _ _ R1).
  rewrite (bind_Ret (read_cfg exp_count) _ w1 _ w1 eq_refl).
  rewrite (bind_Ret _ _ _ _ _ (stmt_calm _ w1 (benign_calm _ B1))).
  set (w2 := set_g _ w1).
  assert (B2 : benign w2) by exact B1.
  assert (C2 : cfg w2 = cfg w) by exact C1.
  assert (Hp : exists w3,
            (if negb (i =? 1)
             then bind (read_cfg exp_pause) (fun p => call CallPause (sleep_quiet p))
             else ret tt) w2 = Ret tt w3 /\ cfg w3 = cfg w /\ benign w3 /\
            exp_start (g w3) = exp_start (g w) /\
            exp_end (g w3) = exp_end (g w) /\ phd_fd (g w3) = phd_fd (g w) /\
            shutter_view (history w3) = shutter_view (history w) /\
            mlu_reports (history w3) = mlu_reports (history w) /\
            log_lines (history w3) = log_lines (history w)).
  { destruct (negb (i =? 1)).
    - rewrite (bind_Ret (read_cfg exp_pause) _ w2 _ w2 eq_refl).
      unfold call.
      rewrite (bind_Ret (fun w0 => Ret tt (emit (EvCall CallPause (line_state w0)) w0))
                 _ _ _ _ eq_refl).
      set (w0 := emit _ w2).
      destruct (sleep_quiet_waited (exp_pause (cfg w2)) w0 (benign_calm _ B2))
        as [w3 [R3 W3]].
      { rewrite C2. exact (vc_pause _ Hv). }
      destruct (sleep_quiet_quiet (exp_pause (cfg w2)) w0 (benign_calm _ B2))
        as (w3' & R3' & _ & _ & K3).
      rewrite R3 in R3'. injection R3' as <-.
      destruct (waited_globals _ _ _ W3) as (_ & G3a & G3b & G3c & _).
      destruct (waited_unseen _ _ _ W3) as (V3 & _ & L3).
      exists w3. split; [exact R3 | ].
      split; [rewrite (wt_cfg _ _ _ W3); exact C2 | ].
      split; [exact (benign_waited _ _ _ W3 B2) | ].
      split; [rewrite G3a; exact (f_equal exp_start G1) | ].
      split; [rewrite G3b; exact (f_equal exp_end G1) | ].
      split; [rewrite G3c; exact (f_equal phd_fd G1) | ].
      split.
      { rewrite V3. unfold w0. rewrite shutter_view_emit. simpl.
        rewrite app_nil_r. exact V1. }
      split.
      { unfold mlu_reports. rewrite K3. fold (mlu_reports (history w0)).
        unfold w0. rewrite mlu_reports_emit. simpl. rewrite app_nil_r.
        exact M1. }
      rewrite L3. unfold w0. rewrite log_lines_emit. simpl.
      rewrite app_nil_r. exact L1.
    - exists w2. split; [reflexivity | ]. split; [exact C2 | ].
      split; [exact B2 | ].
      split; [exact (f_equal exp_start G1) | ].
      split; [exact (f_equal exp_end G1) | ].
      split; [exact (f_equal phd_fd G1) | ].
      split; [exact V1 | ]. split; [exact M1 | exact L1]. }
  destruct Hp as (w3 & R3 & C3 & B3 & S3 & E3 & F3 & V3 & M3 & L3).
  rewrite (bind_Ret _ _ _ _ _ R3).
  rewrite (bind_Ret (read_cfg exp_time) _ w3 _ w3 eq_refl).
  rewrite bind_call.
  set (w4 := emit _ w3).
  rewrite (bind_Ret _ _ w4 _ _
             (eq_trans (expose_unknown fuel (exp_time (cfg w3)) w4
                          ltac:(change (cfg w4) with (cfg w3); rewrite C3; exact N1)
                          ltac:(change (cfg w4) with (cfg w3); rewrite C3; exact N2))
                       (stmt_calm _ w4 (benign_calm _ B3)))).
  change (cfg w4) with (cfg w3). rewrite C3.
  set (w5 := emit _ w4).
  rewrite call_eq.
  set (w6 := emit _ w5).
  assert (B6 : benign w6) by exact B3.
  rewrite (log_exposure_benign w6 B6).
  change (cfg w6) with (cfg w3). change (g w6) with (g w3).
  rewrite C3, S3, E3.
  assert (V6 : shutter_view (history w6) = shutter_view (history w)).
  { unfold w6, w5, w4. rewrite !shutter_view_emit. simpl.
    rewrite !app_nil_r. exact V3. }
  assert (M6 : mlu_reports (history w6)
               = mlu_reports (history w) ++ [mlu_method (cfg w)]).
  { unfold w6, w5, w4. rewrite !mlu_reports_emit. simpl.
    rewrite !app_nil_r, M3. reflexivity. }
  assert (L6 : log_lines (history w6) = log_lines (history w)).
  { unfold w6, w5, w4. rewrite !log_lines_emit. simpl.
    rewrite !app_nil_r. exact L3. }
  eexists. split; [reflexivity | ].
  unfold stale_log.
  destruct (log_target (cfg w)) as [label | ].
  - split; [exact C3 | ]. split; [exact B6 | ].
    split; [exact S3 | ]. split; [exact E3 | ]. split; [exact F3 | ].
    rewrite shutter_view_emit, mlu_reports_emit, log_lines_emit. simpl.
    rewrite !app_nil_r, V6, M6, L6. repeat split.
  - split; [exact C3 | ]. split; [exact B6 | ].
    split; [exact S3 | ]. split; [exact E3 | ]. split; [exact F3 | ].
    rewrite app_nil_r. split; [exact V6 | ]. split; [exact M6 | exact L6].
Qed.

Lemma main_loop_skipped fuel turns : forall k i w,
  benign w -> valid_config (cfg w) -> 0 <= phd_dither_size (cfg w) <= 4 ->
  mlu_method (cfg w) <> 1 -> mlu_method (cfg w) <> 2 ->
  1 <= i -> exp_count (cfg w) + 1 - i = Z.of_nat k -> (k <= turns)%nat ->
  exists w',
    main_loop fuel turns i w = Ret tt w' /\ benign w' /\
    exp_start (g w') = exp_start (g w) /\ exp_end (g w') = exp_end (g w) /\
    phd_fd (g w') = phd_fd (g w) /\
    shutter_view (history w') = shutter_view (history w) /\
    mlu_reports (history w')
    = mlu_reports (history w) ++ repeat (mlu_method (cfg w)) k /\
    log_lines (history w')
    = log_lines (history w)
      ++ List.concat
           (repeat (stale_log (cfg w) (exp_start (g w)) (exp_end (g w))) k).
Proof.
  induction turns as [ | turns IH]; intros k i w Hb Hv Hs N1 N2 Hi Hk Ht;
    cbn [main_loop];
    rewrite (bind_Ret (read_cfg exp_count) _ w _ w eq_refl);
    destruct (Z.leb_spec i (exp_count (cfg w))) as [Hle | Hgt];
    try lia;
    try (assert (k = 0%nat) by lia; subst k; exists w;
         split; [reflexivity | ]; split; [exact Hb | ];
         simpl; rewrite !app_nil_r; repeat split).
  destruct k as [ | k]; [lia | ].
  destruct (frame_skipped fuel i w Hb Hv Hs N1 N2)
    as (w1 & R1 & C1 & B1 & S1 & E1 & F1 & V1 & M1 & L1).
  rewrite (bind_Ret _ _ _ _ _ R1).
  pose proof (vc_count _ Hv) as Hn.
  rewrite (to_uint_small (i + 1)) by lia.
  destruct (IH k (i + 1) w1) as (w2 & R2 & B2 & S2 & E2 & F2 & V2 & M2 & L2);
    try rewrite C1; try assumption; try lia.
  rewrite C1, S1, E1 in *.
  exists w2. split; [exact R2 | ]. split; [exact B2 | ].
  split; [exact S2 | ]. split; [exact E2 | ]. split; [congruence | ].
  split; [congruence | ].
  split.
  { rewrite M2, M1, <- app_assoc. reflexivity. }
  rewrite L2, L1. cbn [repeat List.concat]. rewrite <- !app_assoc.
  reflexivity.
Qed.

Lemma main_skipped fuel w :
  benign w -> valid_config (cfg w) -> 0 <= phd_dither_size (cfg w) <= 4 ->
  mlu_method (cfg w) <> 1 -> mlu_method (cfg w) <> 2 ->
  exp_count (cfg w) <= Z.of_nat fuel ->
  let c := cfg w in
  let n := Z.to_nat (exp_count c) in
  exists w',
    main fuel w = Ret 0 w' /\ benign w' /\
    exp_start (g w') = exp_start (g w) /\ exp_end (g w') = exp_end (g w) /\
    shutter_view (history w')
    = shutter_view (history w) ++ [(clock (dev w), Line Released)] /\
    mlu_reports (history w')
    = mlu_reports (history w) ++ repeat (mlu_method c) n /\
    log_lines (history w')
    = log_lines (history w)
      ++ List.concat (repeat (stale_log c (exp_start (g w)) (exp_end (g w))) n).
Proof.
  intros Hb Hv Hs N1 N2 Hn c n. pose proof (benign_calm w Hb) as Hc.
  pose proof (vc_count _ Hv) as Hcount.
  unfold main, shutter_release.
  rewrite (bind_Ret _ _ _ _ _ (set_rts_calm 0 w Hc)).
  set (w1 := emit _ _).
  assert (V1 : shutter_view (history w1)
               = shutter_view (history w) ++ [(clock (dev w), Line Released)]).
  { unfold w1. rewrite shutter_view_emit, history_set_dev. unfold observe.
    simpl. rewrite line_rts_mask. reflexivity. }
  assert (M1 : mlu_reports (history w1) = mlu_reports (history w)).
  { unfold w1. rewrite mlu_reports_emit, history_set_dev. apply app_nil_r. }
  assert (L1 : log_lines (history w1) = log_lines (history w)).
  { unfold w1. rewrite log_lines_emit, history_set_dev. apply app_nil_r. }
  assert (Hconn : exists w2,
            phd_connect w1 = Ret tt w2 /\ cfg w2 = c /\ benign w2 /\
            exp_start (g w2) = exp_start (g w) /\
            exp_end (g w2) = exp_end (g w) /\
            shutter_view (history w2) = shutter_view (history w1) /\
            mlu_reports (history w2) = mlu_reports (history w1) /\
            log_lines (history w2) = log_lines (history w1)).
  { pose proof (f_equal socket_ok Hb) as H1.
    pose proof (f_equal resolve_ok Hb) as H2.
    pose proof (f_equal connect_ok Hb) as H3. simpl in H1, H2, H3.
    destruct (Z.eqb_spec (phd_dither_size (cfg w1)) 0) as [E0 | N0].
    - exists w1. unfold phd_connect.
      rewrite (bind_Ret (read_cfg phd_dither_size) _ w1 _ w1 eq_refl), E0.
      repeat split. exact Hb.
    - rewrite (phd_connect_calm w1 Hc N0).
      change (env w1) with (env w). rewrite H1, H2, H3. cbv zeta.
      eexists. split; [reflexivity | ]. split; [reflexivity | ].
      split; [exact Hb | ]. split; [reflexivity | ]. split; [reflexivity | ].
      rewrite shutter_view_emit, mlu_reports_emit, log_lines_emit,
        history_set_g, shutter_view_emit, mlu_reports_emit, log_lines_emit,
        history_set_dev. simpl.
      rewrite !app_nil_r. repeat split. }
  destruct Hconn as (w2 & R2 & C2 & B2 & S2 & E2 & V2 & M2 & L2).
  rewrite (bind_Ret _ _ _ _ _ R2).
  destruct (main_loop_skipped fuel fuel n 1 w2)
    as (w3 & R3 & B3 & S3 & E3 & _ & V3 & M3 & L3);
    try rewrite C2; try assumption; try (unfold n, c; lia).
  rewrite C2, S2, E2 in *.
  rewrite (bind_Ret _ _ _ _ _ R3).
  assert (Hdisc : exists w4,
            phd_disconnect w3 = Ret tt w4 /\ benign w4 /\ g w4 = g w3 /\
            shutter_view (history w4) = shutter_view (history w3) /\
            mlu_reports (history w4) = mlu_reports (history w3) /\
            log_lines (history w4) = log_lines (history w3)).
  { unfold phd_disconnect.
    rewrite (bind_Ret (read_g phd_fd) _ w3 _ w3 eq_refl).
    destruct (phd_fd (g w3) =? -1).
    - exists w3. repeat split. exact B3.
    - unfold close. rewrite (stmt_calm _ w3 (benign_calm _ B3)).
      eexists. split; [reflexivity | ]. split; [exact B3 | ].
      split; [reflexivity | ].
      rewrite shutter_view_emit, mlu_reports_emit, log_lines_emit,
        history_set_dev. simpl.
      rewrite !app_nil_r. repeat split. }
  destruct Hdisc as (w4 & R4 & B4 & G4 & V4 & M4 & L4).
  rewrite (bind_Ret _ _ _ _ _ R4).
  exists w4. split; [reflexivity | ]. split; [exact B4 | ].
  rewrite G4.
  split; [exact S3 | ]. split; [exact E3 | ].
  split; [rewrite V4, V3, V2; exact V1 | ].
  split; [rewrite M4, M3, M2, M1; reflexivity | ].
  rewrite L4, L3, L2, L1. reflexivity.
Qed.

(** C5, as the code has it.  With an MLU method other than 1 and 2,
    [expose] moves nothing: it returns having printed the report and
    nothing else (or a SIGINT comes first); the device and the globals, the
    two time stamps among them, are as before.  It has no way to tell its
    caller, so in the run every frame goes on as after any exposure.  A run
    of [n] frames that nothing disturbs ends with exit status 0, the line
    never moved after the release at the start, all its calls made as for
    any MLU method, the condition reported [n] times; and when a label is
    set, [log_exposure] has appended [n] lines, one per frame, each made of
    the time stamps the run started with. *)
Theorem unknown_mlu_method_moves_nothing (fuel : nat) (w : world) :
  mlu_method (cfg w) <> 1 -> mlu_method (cfg w) <> 2 ->
  let c := cfg w in
  let n := Z.to_nat (exp_count c) in
  (forall msec w0,
     cfg w0 = c ->
     post (fun _ w' =>
             dev w' = dev w0 /\ g w' = g w0 /\
             trace w' = (clock (dev w0), EvPrintf (MsgUnknownMLU (mlu_method c)))
                        :: trace w0)
          (fun _ => False)
          (fun w' => dev w' = dev w0 /\ g w' = g w0 /\ trace w' = trace w0)
          (fun _ => False)
          (expose fuel msec w0)) /\
  (benign w -> valid_config c -> 0 <= phd_dither_size c <= 4 ->
   exp_count c <= Z.of_nat fuel ->
   exists w',
     ssc fuel w = Exit 0 w' /\
     shutter_view (history w')
     = shutter_view (history w) ++ [(clock (dev w), Line Released)] /\
     calls (history w')
     = calls (history w) ++ schedule (dither_enabled c) 1 n /\
     mlu_reports (history w')
     = mlu_reports (history w) ++ repeat (mlu_method c) n /\
     log_lines (history w')
     = log_lines (history w)
       ++ match log_target c with
          | Some label =>
              repeat (log_line label (exp_start (g w)) (exp_end (g w))) n
          | None => []
          end).
Proof.
  intros N1 N2 c n. split.
  - intros msec w0 C0.
    rewrite (expose_unknown fuel msec w0) by (rewrite C0; assumption).
    rewrite C0. unfold printf, stmt, bind, tick.
    destruct (sigint (env w0)) as [[[ | k] e] | ]; simpl; repeat split.
  - intros Hb Hv Hs Hn.
    destruct (main_skipped fuel w Hb Hv Hs N1 N2 Hn)
      as (w1 & R & B & _ & _ & V & M & L).
    exists (closed w1). split.
    { apply ssc_of_main; [exact R | exact (benign_calm _ B)]. }
    unfold closed. rewrite history_set_dev.
    split; [exact V | ]. split.
    { pose proof (main_called fuel c (calls (history w)) w (vc_count _ Hv)
                    (conj eq_refl eq_refl)) as H.
      rewrite R in H. exact (proj1 H). }
    split; [exact M | ].
    rewrite L. f_equal. unfold stale_log. fold c.
    destruct (log_target c).
    + apply concat_repeat_singleton.
    + apply concat_repeat_nil.
Qed.

Lemma unknown_mlu_method_moves_nothing_witness :
  mlu_method (cfg world_bad) <> 1 /\ mlu_method (cfg world_bad) <> 2 /\
  exists w',
    ssc 2 world_bad = Exit 0 w' /\
    shutter_view (history w') = [(0, Line Released)] /\
    calls (history w') = [CallExpose; CallLog; CallPause; CallExpose; CallLog] /\
    mlu_reports (history w') = [3; 3] /\
    log_lines (history w')
    = [log_line "M31" zero_tv zero_tv; log_line "M31" zero_tv zero_tv].
Proof.
  split; [discriminate | ]. split; [discriminate | ].
  destruct (unknown_mlu_method_moves_nothing 2 world_bad) as [_ H];
    try discriminate.
  destruct H as (w' & R & V & K & M & L).
  - reflexivity.
  - split; unfold UINT_MAX, INT_MAX, ANIMATION_STEP; simpl; lia.
  - simpl. lia.
  - simpl. lia.
  - exists w'. split; [exact R | ]. split; [exact V | ].
    split; [exact K | ]. split; [exact M | exact L].
Defined.

(** * A SIGINT, through the run *)

Lemma post_conj {A} (Q1 Q2 : A -> world -> Prop) E1 E2 S1 S2 R1 R2 o :
  post Q1 E1 S1 R1 o -> post Q2 E2 S2 R2 o ->
  post (fun a w => Q1 a w /\ Q2 a w) (fun w => E1 w /\ E2 w)
       (fun w => S1 w /\ S2 w) (fun w => R1 w /\ R2 w) o.
Proof. destruct o; simpl; tauto. Qed.

Lemma silent_unstamped e : silent e -> unstamped e.
Proof. destruct e; simpl; auto. Qed.

Lemma restful_wait_stable J : restful J -> wait_stable J.
Proof.
  intros H. split.
  - apply (rf_env J H).
  - intros w c. apply (rf_dev J H).
  - apply (rf_anim J H).
  - intros w e He. apply (rf_emit J H), silent_unstamped, He.
Qed.

Lemma at_rest_restful c : restful (at_rest c).
Proof.
  unfold at_rest. split; intros; try exact H.
  destruct H0 as (H1 & H2 & H3). split; [exact H1 | ]. split; [exact H2 | ].
  destruct e; try contradiction; exact H3.
Qed.

Lemma stamped_wait_stable c flag t0 s : wait_stable (stamped c flag t0 s).
Proof.
  unfold stamped. split; intros; try exact H.
  destruct H0 as (H1 & H2 & H3 & H4).
  split; [exact H1 | ]. split; [exact H2 | ]. split; [ | exact H4].
  destruct e; try contradiction; exact H3.
Qed.

Section Restful.
Variable J : world -> Prop.
Hypothesis J_rest : restful J.

Let J_wait := restful_wait_stable J J_rest.
Let J_env := rf_env J J_rest.

Lemma rest_stmt f w :
  J w -> (forall w', J w' -> J (f w')) ->
  post (fun _ => J) anything J anything (stmt f w).
Proof. intros H Hf. apply (post_stmt J J_env); assumption. Qed.

Lemma rest_set_rts on w :
  J w -> post (fun _ => J) anything J anything (set_rts on w).
Proof.
  intros H. unfold set_rts, ioctl_TIOCMGET. apply post_bind.
  apply (post_tick_then J J_env); auto.
  intros w1 H1. simpl. unfold ioctl_TIOCMSET.
  apply (post_stmt J J_env); auto.
  intros w2 H2. apply (rf_emit J J_rest); [exact I | ].
  apply (rf_dev J J_rest), H2.
Qed.

Lemma rest_sleep_quiet msec w :
  J w -> post (fun _ => J) anything J anything (sleep_quiet msec w).
Proof.
  intros H.
  eapply post_mono; [apply (post_sleep_quiet J J_wait anything), H | .. ];
    unfold anything; auto.
Qed.

Lemma rest_printf m w :
  J w -> post (fun _ => J) anything J anything (printf m w).
Proof.
  intros H. apply rest_stmt; [exact H | ].
  intros w' H'. apply (rf_emit J J_rest); [exact I | exact H'].
Qed.

Lemma rest_call {A} c (m : M A) Q S w :
  J w -> (forall w', J w' -> post Q anything S anything (m w')) ->
  post Q anything S anything (call c m w).
Proof.
  intros H Hm. unfold call. apply post_bind. simpl.
  apply Hm, (rf_emit J J_rest); [exact I | exact H].
Qed.

Lemma rest_log_exposure w :
  J w -> post (fun _ => J) anything J anything (log_exposure w).
Proof.
  intros H. apply rest_stmt; [exact H | ].
  intros w' H'. destruct (log_target (cfg w')); [ | exact H'].
  destruct (fopen_ok (env w')); [ | exact H'].
  apply (rf_emit J J_rest); [exact I | exact H'].
Qed.

Lemma rest_FATAL {A} msg (Q : A -> world -> Prop) w :
  J w -> post Q anything J anything (@FATAL A msg w).
Proof.
  intros H. unfold FATAL. apply post_bind.
  eapply post_mono; [apply rest_printf, H | simpl | auto | auto | auto].
  intros _ w' H'. unfold exit.
  apply (post_tick_then J J_env); auto.
  intros w2 H2. exact I.
Qed.

Lemma rest_phd_connect w :
  J w -> post (fun _ => J) anything J anything (phd_connect w).
Proof.
  intros H. unfold phd_connect. apply post_bind, post_read_cfg.
  destruct (phd_dither_size (cfg w) =? 0); [exact H | ].
  apply post_bind. unfold socket_call.
  apply (post_tick_then J J_env); auto. intros w1 H1.
  assert (Hrest : forall w2, J w2 ->
            post (fun (_ : unit) => J) anything J anything
              (bind gethostbyname (fun he =>
                 if negb he then FATAL "gethostbyname"%string
                 else bind connect_call (fun r =>
                        if r =? -1 then FATAL "connect"%string else ret tt)) w2)).
  { intros w2 H2. apply post_bind. unfold gethostbyname.
    apply (post_tick_then J J_env); auto. intros w3 H3. simpl.
    destruct (resolve_ok (env w3)); simpl; [ | apply rest_FATAL, H3].
    apply post_bind. unfold connect_call.
    apply (post_tick_then J J_env); auto. intros w4 H4.
    destruct (connect_ok (env w4)); simpl.
    - apply (rf_emit J J_rest); [exact I | exact H4].
    - apply rest_FATAL, H4. }
  destruct (socket_ok (env w1)); simpl; apply post_bind; simpl.
  - apply Hrest.
    apply (rf_phd_fd J J_rest), (rf_emit J J_rest); [exact I | ].
    apply (rf_dev J J_rest), H1.
  - apply rest_FATAL. apply (rf_phd_fd J J_rest), H1.
Qed.

Lemma rest_phd_disconnect w :
  J w -> post (fun _ => J) anything J anything (phd_disconnect w).
Proof.
  intros H. unfold phd_disconnect. apply post_bind, post_read_g.
  destruct (phd_fd (g w) =? -1); [exact H | ].
  unfold close. apply rest_stmt; [exact H | ].
  intros w' H'. apply (rf_emit J J_rest); [exact I | ].
  apply (rf_dev J J_rest), H'.
Qed.

Lemma rest_syscall_ret w :
  J w -> post (fun _ => J) anything J anything (syscall_ret w).
Proof.
  intros H. unfold syscall_ret.
  destruct (io_rets (env w)); simpl; auto.
Qed.

Lemma rest_phd_dither w :
  J w -> post (fun _ => J) anything J anything (phd_dither w).
Proof.
  intros H. unfold phd_dither. apply post_bind, post_read_cfg.
  apply post_bind. unfold load_phd_cmd.
  destruct (nth_error phd_cmds (Z.to_nat (phd_dither_size (cfg w))));
    simpl; [ | exact I].
  apply post_bind. unfold write_byte.
  apply (post_tick_then J J_env); auto. intros w1 H1. apply post_bind.
  eapply post_mono; [apply rest_syscall_ret, H1 | simpl | auto | auto | auto].
  intros r w2 H2.
  assert (H3 : J (if r =? 1 then emit (EvWrite z) w2 else w2)).
  { destruct (r =? 1); [ | exact H2].
    apply (rf_emit J J_rest); [exact I | exact H2]. }
  destruct (negb (r =? 1)); [apply rest_FATAL, H3 | ].
  apply post_bind. unfold read_byte.
  apply (post_tick_then J J_env); auto. intros w4 H4. apply post_bind.
  eapply post_mono; [apply rest_syscall_ret, H4 | simpl | auto | auto | auto].
  intros r' w5 H5.
  assert (H6 : J (if r' =? 1 then emit EvRead w5 else w5)).
  { destruct (r' =? 1); [ | exact H5].
    apply (rf_emit J J_rest); [exact I | exact H5]. }
  destruct (negb (r' =? 1)); [apply rest_FATAL, H6 | exact H6].
Qed.
End Restful.

(** ** How long the waits take, whatever the environment does *)

Lemma sleep_quiet_elapsed msec w c0 :
  0 <= msec <= UINT_MAX -> clock (dev w) = c0 ->
  post (fun _ w' => clock (dev w') = c0 + ms msec)
       (fun _ => False)
       (fun w' => c0 <= clock (dev w') <= c0 + ms msec)
       (fun _ => False)
       (sleep_quiet msec w).
Proof.
  intros H <-. unfold sleep_quiet. rewrite <- (sleep_quiet_timespec msec H).
  apply sleep_again_elapsed; [lia | ].
  rewrite sleep_quiet_timespec by exact H. unfold ms. lia.
Qed.

Lemma clock_set_env c w f : clock (dev w) = c -> clock (dev (set_env f w)) = c.
Proof. exact (fun H => H). Qed.

(** The loop of [sleep_verbose], [c0] the instant the wait began at. *)
Lemma sleep_verbose_loop_elapsed msec c0 : forall fuel sofar w,
  0 <= sofar <= msec ->
  sofar + ((msec - sofar) / ANIMATION_STEP + 1) * ANIMATION_STEP <= UINT_MAX ->
  clock (dev w) = c0 + ms sofar ->
  post (fun sofar' w' =>
          sofar <= sofar' <= msec /\ clock (dev w') = c0 + ms sofar')
       (fun _ => False)
       (fun w' => c0 <= clock (dev w') <= c0 + ms msec)
       anything
       (sleep_verbose_loop fuel msec sofar w).
Proof.
  induction fuel as [ | fuel IH]; intros sofar w Hs Hm Hk;
    cbn [sleep_verbose_loop];
    assert (Hq : 0 <= (msec - sofar) / ANIMATION_STEP)
      by (apply Z.div_pos; unfold ANIMATION_STEP; lia);
    rewrite (to_uint_small (sofar + ANIMATION_STEP))
      by (unfold ANIMATION_STEP, UINT_MAX in *; lia);
    destruct (Z.leb_spec (sofar + ANIMATION_STEP) msec) as [Hle | Hgt];
    try exact I; try (simpl; split; [lia | exact Hk]).
  set (J := fun w' : world => clock (dev w') = c0 + ms sofar).
  assert (J_env : forall w' f, J w' -> J (set_env f w'))
    by (intros w' f H'; exact H').
  assert (HS : forall w', J w' -> c0 <= clock (dev w') <= c0 + ms msec).
  { unfold J, ms. intros w' ->. lia. }
  apply post_bind.
  eapply post_mono;
    [ apply (post_stmt J J_env (fun _ => False) anything J); [exact Hk | ]
    | simpl | auto | exact HS | auto ].
  { intros w' H'. exact H'. }
  intros _ w1 H1. apply post_bind.
  eapply post_mono;
    [ apply (post_stmt J J_env (fun _ => False) anything J); [exact H1 | ]
    | simpl | auto | exact HS | auto ].
  { intros w' H'. exact H'. }
  intros _ w2 H2. apply post_bind.
  eapply post_mono;
    [ apply (sleep_quiet_elapsed ANIMATION_STEP w2 (c0 + ms sofar));
      [unfold ANIMATION_STEP, UINT_MAX; lia | exact H2]
    | simpl | auto
    | unfold ms, ANIMATION_STEP in *; intros; lia
    | contradiction ].
  intros _ w3 H3.
  assert (Hd : (msec - (sofar + ANIMATION_STEP)) / ANIMATION_STEP
               = (msec - sofar) / ANIMATION_STEP - 1).
  { replace (msec - (sofar + ANIMATION_STEP))
      with ((msec - sofar) + (-1) * ANIMATION_STEP) by lia.
    rewrite Z.div_add by (unfold ANIMATION_STEP; lia). lia. }
  eapply post_mono;
    [ apply (IH (sofar + ANIMATION_STEP) w3)
    | simpl | auto | auto | auto ].
  - unfold ANIMATION_STEP in *. lia.
  - rewrite Hd. lia.
  - rewrite H3. unfold ms, ANIMATION_STEP. lia.
  - intros sofar' w' [Hb Hc']. split; [unfold ANIMATION_STEP in *; lia | exact Hc'].
Qed.

Lemma sleep_verbose_elapsed fuel msec w c0 :
  0 <= msec < WRAP_MSEC -> clock (dev w) = c0 ->
  post (fun _ w' => clock (dev w') = c0 + ms msec)
       (fun _ => False)
       (fun w' => c0 <= clock (dev w') <= c0 + ms msec)
       anything
       (sleep_verbose fuel msec w).
Proof.
  intros Hm Hk.
  assert (Hu : 0 <= msec <= UINT_MAX)
    by (unfold WRAP_MSEC, UINT_MAX, ANIMATION_STEP in *; simpl in Hm; lia).
  unfold sleep_verbose. apply post_bind, post_read_cfg.
  destruct (quiet (cfg w)).
  { eapply post_mono; [apply (sleep_quiet_elapsed msec w c0 Hu Hk) | .. ];
      auto; contradiction. }
  apply post_bind.
  eapply post_mono;
    [ apply (sleep_verbose_loop_elapsed msec c0 fuel 0 w)
    | simpl | auto | auto | auto ].
  - lia.
  - rewrite Z.sub_0_r, Z.add_0_l.
    assert (msec / ANIMATION_STEP < 8589934).
    { apply Z.div_lt_upper_bound; unfold ANIMATION_STEP; [lia | ].
      unfold WRAP_MSEC, UINT_MAX, ANIMATION_STEP in Hm. simpl in Hm. lia. }
    unfold ANIMATION_STEP, UINT_MAX in *. lia.
  - rewrite Hk. unfold ms. lia.
  - intros sofar w1 [Hb K1]. apply post_bind.
    rewrite (to_uint_small (msec - sofar)) by lia.
    eapply post_mono;
      [ apply (sleep_quiet_elapsed (msec - sofar) w1 (c0 + ms sofar));
        [lia | exact K1]
      | simpl | auto
      | unfold ms; intros; lia
      | contradiction ].
    intros _ w2 K2. apply post_bind, post_read_g. unfold printf.
    set (J := fun w' : world => clock (dev w') = c0 + ms msec).
    assert (J_env : forall w' f, J w' -> J (set_env f w'))
      by (intros w' f H'; exact H').
    eapply post_mono;
      [ apply (post_stmt J J_env (fun _ => False) anything J)
      | simpl | auto | unfold J, ms; intros w' ->; lia | auto ].
    + unfold J. rewrite K2. unfold ms. lia.
    + intros w' H'. exact H'.
    + intros _ w' H'. exact H'.
Qed.

(** ** Where a SIGINT can find the run *)

Lemma at_rest_interrupted c w : at_rest c w -> interrupted c w.
Proof.
  intros (H1 & H2 & H3). split; [exact H1 | ]. rewrite H3. exact H2.
Qed.

Lemma stamped_interrupted c flag t0 s w :
  stamped c flag t0 s w ->
  t0 <= clock (dev w) <= t0 + ms (exp_time c) ->
  (flag = false ->
   clock (dev w) = t0 \/ clock (dev w) = t0 + ms (exp_time c)) ->
  interrupted c w.
Proof.
  intros (H1 & H2 & H3 & H4) Hb Hf. split; [exact H1 | ]. rewrite H3.
  split; [exact Hb | ]. split; [exact H4 | ].
  intros Hin. rewrite H2. destruct flag; [reflexivity | ].
  destruct (Hf eq_refl); lia.
Qed.

Lemma timed_exposure_interrupted fuel c w :
  at_rest c w -> 0 <= exp_time c < WRAP_MSEC ->
  post (fun _ => at_rest c) anything (interrupted c) anything
    ((gettimeofday_exp_start ;;
      set_exposing true ;;
      t <- read_cfg exp_time ;;
      sleep_verbose fuel t ;;
      set_exposing false ;;
      gettimeofday_exp_end ;;
      shutter_release) w).
Proof.
  intros H0 Ht.
  set (t0 := clock (dev w)). set (s := now w).
  set (t1 := t0 + ms (exp_time c)).
  assert (Hms : 0 <= ms (exp_time c)) by (unfold ms; lia).
  unfold gettimeofday_exp_start, set_exposing, gettimeofday_exp_end.
  (* the start stamp *)
  set (J0 := fun w' : world => at_rest c w' /\ dev w' = dev w).
  set (J1 := fun w' : world => stamped c false t0 s w' /\ clock (dev w') = t0).
  set (J2 := fun w' : world => stamped c true t0 s w' /\ clock (dev w') = t0).
  set (J3 := fun w' : world => stamped c true t0 s w' /\ clock (dev w') = t1).
  set (J4 := fun w' : world => stamped c false t0 s w' /\ clock (dev w') = t1).
  assert (E0 : forall w' f, J0 w' -> J0 (set_env f w')) by (intros ? ? H; exact H).
  assert (E1 : forall w' f, J1 w' -> J1 (set_env f w')) by (intros ? ? H; exact H).
  assert (E3 : forall w' f, J3 w' -> J3 (set_env f w')) by (intros ? ? H; exact H).
  assert (E4 : forall w' f, J4 w' -> J4 (set_env f w')) by (intros ? ? H; exact H).
  assert (S1 : forall w', J1 w' -> interrupted c w').
  { intros w' [Hs Hk]. apply (stamped_interrupted c false t0 s w' Hs); lia. }
  assert (S3 : forall w', J3 w' -> interrupted c w').
  { intros w' [Hs Hk]. apply (stamped_interrupted c true t0 s w' Hs);
      [unfold t1 in Hk; lia | discriminate]. }
  assert (S4 : forall w', J4 w' -> interrupted c w').
  { intros w' [Hs Hk]. apply (stamped_interrupted c false t0 s w' Hs);
      unfold t1 in Hk; [lia | intros _; right; exact Hk]. }
  apply post_bind.
  eapply post_mono;
    [ apply (post_stmt J0 E0 anything anything J1); [exact (conj H0 eq_refl) | ]
    | simpl | auto
    | intros w' [H' _]; exact (at_rest_interrupted c w' H') | auto ].
  { intros w' [(C' & X' & P') D']. unfold J1, stamped, now. simpl.
    rewrite D'. repeat split; assumption. }
  intros _ w1 H1. apply post_bind.
  eapply post_mono;
    [ apply (post_stmt J1 E1 anything anything J2); [exact H1 | ]
    | simpl | auto | exact S1 | auto ].
  { intros w' [(C' & X' & P' & G') K']. unfold J2, stamped. simpl.
    repeat split; assumption. }
  intros _ w2 [Hs2 K2]. apply post_bind, post_read_cfg.
  replace (exp_time (cfg w2)) with (exp_time c)
    by (destruct Hs2 as [C2 _]; rewrite C2; reflexivity).
  apply post_bind.
  eapply post_mono;
    [ apply (post_conj _ _ _ _ _ _ _ _ _
               (post_sleep_verbose (stamped c true t0 s)
                  (stamped_wait_stable c true t0 s) anything
                  fuel (exp_time c) w2 Hs2)
               (sleep_verbose_elapsed fuel (exp_time c) w2 t0 Ht K2))
    | simpl | unfold anything; auto | | unfold anything; auto ].
  2: { intros w' [Hs' Hk']. apply (stamped_interrupted c true t0 s w' Hs');
         [exact Hk' | discriminate]. }
  intros _ w3 H3. apply post_bind.
  eapply post_mono;
    [ apply (post_stmt J3 E3 anything anything J4); [exact H3 | ]
    | simpl | auto | exact S3 | auto ].
  { intros w' [(C' & X' & P' & G') K']. unfold J4, stamped. simpl.
    repeat split; assumption. }
  intros _ w4 H4. apply post_bind.
  eapply post_mono;
    [ apply (post_stmt J4 E4 anything anything (at_rest c)); [exact H4 | ]
    | simpl | auto | exact S4 | auto ].
  { intros w' [(C' & X' & P' & G') K']. unfold at_rest. simpl.
    repeat split; assumption. }
  intros _ w5 H5. unfold shutter_release.
  eapply post_mono;
    [ apply (rest_set_rts (at_rest c) (at_rest_restful c)), H5
    | auto | auto | exact (at_rest_interrupted c) | auto ].
Qed.

Section Interrupted.
Variable c : config.
Hypothesis exp_time_fits : 0 <= exp_time c < WRAP_MSEC.

Let rest := at_rest_restful c.

Ltac resting L :=
  apply post_bind; eapply post_mono;
  [ apply L | simpl | auto | exact (at_rest_interrupted c) | auto ].

Lemma expose_interrupted fuel msec w :
  at_rest c w ->
  post (fun _ => at_rest c) anything (interrupted c) anything
    (expose fuel msec w).
Proof.
  intros H0. unfold expose. apply post_bind, post_read_cfg.
  destruct (mlu_method (cfg w) =? 1); [ | destruct (mlu_method (cfg w) =? 2)].
  - unfold shutter_fire.
    resting (rest_set_rts (at_rest c) rest); [exact H0 | ]. intros _ w1 H1.
    apply post_bind, post_read_cfg.
    resting (rest_sleep_quiet (at_rest c) rest); [exact H1 | ].
    intros _ w2 H2. apply timed_exposure_interrupted; assumption.
  - unfold shutter_fire, shutter_release at 1.
    resting (rest_set_rts (at_rest c) rest); [exact H0 | ]. intros _ w1 H1.
    apply post_bind, post_read_cfg.
    resting (rest_sleep_quiet (at_rest c) rest); [exact H1 | ].
    intros _ w2 H2.
    resting (rest_set_rts (at_rest c) rest); [exact H2 | ]. intros _ w3 H3.
    apply post_bind, post_read_cfg.
    resting (rest_sleep_quiet (at_rest c) rest); [exact H3 | ].
    intros _ w4 H4.
    resting (rest_set_rts (at_rest c) rest); [exact H4 | ]. intros _ w5 H5.
    apply timed_exposure_interrupted; assumption.
  - eapply post_mono;
      [ apply (rest_printf (at_rest c) rest), H0
      | auto | auto | exact (at_rest_interrupted c) | auto ].
Qed.

Lemma frame_interrupted fuel i w :
  at_rest c w ->
  post (fun _ => at_rest c) anything (interrupted c) anything (frame fuel i w).
Proof.
  intros H0. unfold frame. apply post_bind, post_read_cfg.
  apply post_bind.
  assert (Hd : post (fun _ : unit => at_rest c) anything (interrupted c) anything
                 ((if negb (i =? 1) && negb (phd_dither_size (cfg w) =? 0)
                   then bind (printf MsgDithering)
                          (fun _ => call CallDither phd_dither)
                   else ret tt) w)).
  { destruct (negb (i =? 1) && negb (phd_dither_size (cfg w) =? 0));
      [ | exact H0].
    resting (rest_printf (at_rest c) rest); [exact H0 | ]. intros _ w1 H1.
    apply (rest_call (at_rest c) rest); [exact H1 | ]. intros w2 H2.
    eapply post_mono;
      [ apply (rest_phd_dither (at_rest c) rest), H2
      | auto | auto | exact (at_rest_interrupted c) | auto ]. }
  eapply post_mono; [exact Hd | simpl | auto | auto | auto].
  intros _ w1 H1. apply post_bind, post_read_cfg.
  resting (rest_stmt (at_rest c) rest); [exact H1 | | ].
  { intros w' H'. apply (rf_verbose (at_rest c) rest), H'. }
  intros _ w2 H2. apply post_bind.
  assert (Hp : post (fun _ : unit => at_rest c) anything (interrupted c) anything
                 ((if negb (i =? 1)
                   then bind (read_cfg exp_pause)
                          (fun p => call CallPause (sleep_quiet p))
                   else ret tt) w2)).
  { destruct (negb (i =? 1)); [ | exact H2].
    apply post_bind, post_read_cfg.
    apply (rest_call (at_rest c) rest); [exact H2 | ]. intros w3 H3.
    eapply post_mono;
      [ apply (rest_sleep_quiet (at_rest c) rest), H3
      | auto | auto | exact (at_rest_interrupted c) | auto ]. }
  eapply post_mono; [exact Hp | simpl | auto | auto | auto].
  intros _ w3 H3. apply post_bind, post_read_cfg. apply post_bind.
  apply (rest_call (at_rest c) rest); [exact H3 | ]. intros w4 H4.
  eapply post_mono; [apply expose_interrupted, H4 | simpl | auto | auto | auto].
  intros _ w5 H5.
  apply (rest_call (at_rest c) rest); [exact H5 | ]. intros w6 H6.
  eapply post_mono;
    [ apply (rest_log_exposure (at_rest c) rest), H6
    | auto | auto | exact (at_rest_interrupted c) | auto ].
Qed.

Lemma main_loop_interrupted fuel turns : forall i w,
  at_rest c w ->
  post (fun _ => at_rest c) anything (interrupted c) anything
    (main_loop fuel turns i w).
Proof.
  induction turns as [ | turns IH]; intros i w H0; cbn [main_loop];
    apply post_bind, post_read_cfg;
    destruct (i <=? exp_count (cfg w)); try exact H0; try exact I.
  apply post_bind.
  eapply post_mono; [apply frame_interrupted, H0 | simpl | auto | auto | auto].
  intros _ w1 H1. apply IH, H1.
Qed.

Lemma main_interrupted fuel w :
  at_rest c w ->
  post (fun _ => at_rest c) anything (interrupted c) anything (main fuel w).
Proof.
  intros H0. unfold main, shutter_release.
  resting (rest_set_rts (at_rest c) rest); [exact H0 | ]. intros _ w1 H1.
  resting (rest_phd_connect (at_rest c) rest); [exact H1 | ]. intros _ w2 H2.
  apply post_bind.
  eapply post_mono; [apply main_loop_interrupted, H2 | simpl | auto | auto | auto].
  intros _ w3 H3.
  resting (rest_phd_disconnect (at_rest c) rest); [exact H3 | ].
  intros _ w4 H4. exact H4.
Qed.
End Interrupted.

(** ** The handler *)

Lemma handler_outcome {A} w :
  calm w ->
  exists w',
    @exit_cleanup A SIGINT w = Exit 0 w' /\
    line_state w' = Released /\
    fd_open (dev w') = false /\ sock_open (dev w') = false /\
    clock (dev w') = clock (dev w) /\
    if exposing (g w) then
      exp_end (g w') = now w /\
      shutter_view (history w')
      = shutter_view (history w)
        ++ [(clock (dev w), Line Released); (clock (dev w), End)] /\
      log_lines (history w')
      = log_lines (history w)
        ++ match log_target (cfg w) with
           | Some label =>
               if fopen_ok (env w)
               then [log_line label (exp_start (g w)) (now w)]
               else []
           | None => []
           end
    else
      shutter_view (history w')
      = shutter_view (history w) ++ [(clock (dev w), Line Released)] /\
      log_lines (history w') = log_lines (history w).
Proof.
  intros Hc.
  pose proof (exit_cleanup_calm (A := A) SIGINT w Hc) as Hrun.
  cbv zeta in Hrun.
  destruct (exposing (g w)) eqn:Hx;
    [ destruct (log_target (cfg w)) as [label | ];
        [destruct (fopen_ok (env w)) | ]
    | ];
    (eexists; split; [exact Hrun | ]);
    (split; [unfold line_state; simpl; apply line_rts_mask | ]);
    (split; [reflexivity | ]); (split; [reflexivity | ]);
    (split; [reflexivity | ]);
    try (split; [reflexivity | ]);
    (split;
     [ repeat rewrite ?history_set_dev, ?history_set_g, ?shutter_view_emit;
       unfold observe; simpl; rewrite line_rts_mask, ?app_nil_r, <- ?app_assoc;
       reflexivity
     | repeat rewrite ?history_set_dev, ?history_set_g, ?log_lines_emit;
       simpl; rewrite ?app_nil_r; reflexivity ]).
Qed.

(** C6, as the code has it.  A SIGINT that cuts the run, at any statement
    or inside any wait and whatever else the environment does, ends the
    process with status 0, the line released at that instant, the serial
    device and the guider socket closed.  What is logged depends on the
    flag [exposing] alone.  While no start stamp is pending (lock-up,
    pause, guider traffic, after the end stamp) the flag is clear: no end
    stamp is taken and nothing is logged.  While a start stamp is pending
    the instant lies within the timed wait of that exposure; whenever it
    lies strictly inside, the flag is set: the handler takes the end stamp
    at that instant and hands the record, with the pending start stamp, to
    [log_exposure].  Only at the two ends of the timed wait can the flag be
    clear with the start stamp pending; then nothing is logged. *)
Theorem sigint_cleanup (fuel : nat) (w ws : world) :
  at_rest (cfg w) w -> 0 <= exp_time (cfg w) < WRAP_MSEC ->
  main fuel w = Sigint ws ->
  let c := cfg w in
  exists w',
    ssc fuel w = Exit 0 w' /\
    line_state w' = Released /\
    fd_open (dev w') = false /\ sock_open (dev w') = false /\
    clock (dev w') = clock (dev ws) /\
    match pending_start (trace ws) with
    | None =>
        shutter_view (history w')
        = shutter_view (history ws) ++ [(clock (dev ws), Line Released)] /\
        log_lines (history w') = log_lines (history ws)
    | Some (t0, s) =>
        t0 <= clock (dev ws) <= t0 + ms (exp_time c) /\
        (t0 < clock (dev ws) < t0 + ms (exp_time c) -> exposing (g ws) = true) /\
        if exposing (g ws) then
          exp_end (g w') = now ws /\
          shutter_view (history w')
          = shutter_view (history ws)
            ++ [(clock (dev ws), Line Released); (clock (dev ws), End)] /\
          log_lines (history w')
          = log_lines (history ws)
            ++ match log_target c with
               | Some label =>
                   if fopen_ok (env ws)
                   then [log_line label s (now ws)]
                   else []
               | None => []
               end
        else
          shutter_view (history w')
          = shutter_view (history ws) ++ [(clock (dev ws), Line Released)] /\
          log_lines (history w') = log_lines (history ws)
    end.
Proof.
  intros H0 Ht Hmain c.
  pose proof (main_interrupted c Ht fuel w H0) as HP.
  rewrite Hmain in HP. simpl in HP. destruct HP as [[Hcfg Hph] Hcalm].
  destruct (handler_outcome (A := Z) ws Hcalm)
    as (w' & R & L & F & K & T & Hlog).
  exists w'. split.
  { unfold ssc, run, bind. rewrite Hmain. exact R. }
  split; [exact L | ]. split; [exact F | ]. split; [exact K | ].
  split; [exact T | ].
  destruct (pending_start (trace ws)) as [[t0 s] | ].
  - destruct Hph as (Hb & Hs & Hin).
    split; [exact Hb | ]. split; [exact Hin | ].
    rewrite Hcfg, Hs in Hlog. exact Hlog.
  - rewrite Hph in Hlog. exact Hlog.
Qed.

Lemma sigint_cleanup_witness :
  at_rest (cfg world_midway) world_midway /\
  (exists ws, main 2 world_midway = Sigint ws) /\
  exists w',
    ssc 2 world_midway = Exit 0 w' /\
    line_state w' = Released /\
    shutter_view (history w')
    = [(0, Line Released); (0, Line Engaged); (2000000000, Start);
       (2400000000, Line Released); (2400000000, End)] /\
    log_lines (history w')
    = [log_line "M31" {| tv_sec := 2; tv_usec := 0 |}
         {| tv_sec := 2; tv_usec := 400000 |}].
Proof.
  assert (H0 : at_rest (cfg world_midway) world_midway)
    by (repeat split).
  split; [exact H0 | ].
  pose (ws := outcome_world (main 2 world_midway)).
  assert (Hm : main 2 world_midway = Sigint ws) by (vm_compute; reflexivity).
  assert (Hp : pending_start (trace ws)
               = Some (2000000000, {| tv_sec := 2; tv_usec := 0 |}))
    by (vm_compute; reflexivity).
  assert (Hx : exposing (g ws) = true) by (vm_compute; reflexivity).
  assert (Hv : shutter_view (history ws)
               = [(0, Line Released); (0, Line Engaged); (2000000000, Start)])
    by (vm_compute; reflexivity).
  assert (Hl : log_lines (history ws) = []) by (vm_compute; reflexivity).
  assert (Hk : clock (dev ws) = 2400000000) by (vm_compute; reflexivity).
  assert (Hn : now ws = {| tv_sec := 2; tv_usec := 400000 |})
    by (vm_compute; reflexivity).
  assert (Hf : fopen_ok (env ws) = true) by (vm_compute; reflexivity).
  clearbody ws.
  split; [exists ws; exact Hm | ].
  destruct (sigint_cleanup 2 world_midway ws H0) as (w' & R & L & _ & _ & _ & P).
  - unfold WRAP_MSEC, UINT_MAX, ANIMATION_STEP. simpl. lia.
  - exact Hm.
  - rewrite Hp, Hx in P. destruct P as (_ & _ & _ & V & G).
    rewrite Hv, Hk in V. rewrite Hl, Hn, Hf in G.
    exists w'. split; [exact R | ]. split; [exact L | ].
    split; [exact V | exact G].
Defined.
